(** * The virtual-machine data source of packer-plugin-vsphere

    A shallow embedding of [datasource/virtualmachine/data.go] (the
    [Config] of the data source, [Configure] and [Execute]) and of the
    filter stages [filterByNameRegex], [filterByTemplate], [filterByHost],
    [filterByTags] and [filterByLatest], followed by the properties the
    specification states about them.

    The Go code talks to vCenter through govmomi.  Every remote call is
    modelled as a field of the driver record that gives the reply of the
    inventory, and every computation carries the trace of the calls it
    made, so that "this stage did not run" and "these tags were not
    evaluated" are statements about traces. *)

From Stdlib Require Import String Ascii List ZArith Bool Arith Lia.
Import ListNotations.
Local Open Scope string_scope.
Local Open Scope list_scope.

Set Implicit Arguments.

(** ** Errors, panics and traces *)

(** A Go [error] is represented by its message, the text of [err.Error()]. *)
Definition error := string.

(** [errors.New(msg)]. *)
Definition errors_New (msg : string) : error := msg.

(** [fmt.Errorf("<prefix>: %w", err)]. *)
Definition Errorf (prefix : string) (err : error) : error :=
  (prefix ++ ": " ++ err)%string.

(** The reply of a remote call or of a library function that returns
    [(value, error)]. *)
Inductive reply (A : Type) : Type :=
| Ok (a : A)
| Fail (err : error).
Arguments Ok {A} a.
Arguments Fail {A} err.

(** How a Go function ends: it returns a value, it returns a non-nil
    error, or it panics (here always a nil pointer dereference). *)
Inductive outcome (A : Type) : Type :=
| Ret (a : A)
| Err (err : error)
| Panic.
Arguments Ret {A} a.
Arguments Err {A} err.
Arguments Panic {A}.

(** ** The data of the source *)

(** [*object.VirtualMachine]: a handle on a machine of the inventory.
    [Reference()] is its managed object reference and [Name()] the base
    name of its inventory path; neither is a remote call. *)
Record VirtualMachine : Type := {
  vmReference : string;
  vmName : string
}.

(** [time.Time] as an instant counted from the zero value of the type
    (January 1, year 1 UTC); instants before it are negative. *)
Definition Time := Z.
Definition zeroTime : Time := 0%Z.

(** [t.After(u)]. *)
Definition After (t u : Time) : bool := (u <? t)%Z.

(** [types.VirtualMachineConfigInfo], the one field that is read.
    [CreateDate] is a [*time.Time]: [None] is the nil pointer. *)
Record VirtualMachineConfigInfo : Type := {
  CreateDate : option Time
}.

(** [mo.VirtualMachine] as filled by a property fetch of ["config"]:
    [Config] is a pointer, [None] is nil. *)
Record moVirtualMachine : Type := {
  moConfig : option VirtualMachineConfigInfo
}.

(** [tags.Tag] of the REST API, as attached to an object. *)
Record AttachedTag : Type := {
  atName : string;
  atCategoryID : string
}.

(** [tags.Category]. *)
Record TagCategory : Type := {
  catName : string
}.

(** [type Tag struct] of data.go. *)
Record Tag : Type := {
  tagName : string;
  tagCategory : string
}.

(** [vsphere.ConnectConfig], the fields [Configure] checks. *)
Record ConnectConfig : Type := {
  VCenterServer : string;
  Username : string;
  Password : string
}.

(** [type Config struct] of data.go.  [Tags] is a slice: [None] is the nil
    slice, [Some []] an empty slice that is not nil. *)
Record Config : Type := {
  connect : ConnectConfig;
  Name : string;
  NameRegex : string;
  Template : bool;
  Host : string;
  Tags : option (list Tag);
  Latest : bool
}.

(** [type DatasourceOutput struct]. *)
Record DatasourceOutput : Type := {
  VmName : string
}.

(** [len] and [range] see a nil slice as an empty one. *)
Definition elems {A : Type} (s : option (list A)) : list A :=
  match s with
  | Some l => l
  | None => []
  end.

(** ** The driver and the inventory behind it

    [driver.VCenterDriver] gives access to the finder, the property
    collector and the tag manager.  Each field is the reply of the
    inventory to one kind of remote call. *)
Record VCenterDriver : Type := {
  (* dr.Finder.VirtualMachineList(ctx, glob) *)
  VirtualMachineList : string -> reply (list VirtualMachine);
  (* vm.IsTemplate(ctx) *)
  IsTemplate : VirtualMachine -> reply bool;
  (* driver.Finder.HostSystem(ctx, name), the reference of the host *)
  HostSystem : string -> reply string;
  (* pc.RetrieveOne(ctx, host, ["vm"], &host): the references in host.Vm *)
  RetrieveHostVm : string -> reply (list string);
  (* pc.Retrieve(ctx, host.Vm, ["name"], &hostVms): the names *)
  RetrieveNames : list string -> reply (list string);
  (* tagMan.GetAttachedTags(ctx, vm.Reference()) *)
  GetAttachedTags : string -> reply (list AttachedTag);
  (* tagMan.GetCategory(ctx, categoryID) *)
  GetCategory : string -> reply TagCategory;
  (* vm.Properties(ctx, vm.Reference(), ["config"], &vmConfig) *)
  Properties : VirtualMachine -> reply moVirtualMachine
}.

(** The filter stages of the pipeline. *)
Inductive stage : Type :=
| NameRegexStage
| TemplateStage
| HostStage
| TagsStage
| LatestStage.

(** What a run leaves in its trace: the call of a stage function with the
    candidate list it is given, and the remote calls. *)
Inductive event : Type :=
| Enter (s : stage) (vmList : list VirtualMachine)
| CallNewDriver
| CallVirtualMachineList (glob : string)
| CallIsTemplate (vm : VirtualMachine)
| CallHostSystem (name : string)
| CallRetrieveHostVm (host : string)
| CallRetrieveNames (refs : list string)
| CallGetAttachedTags (ref : string)
| CallGetCategory (categoryID : string)
| CallProperties (vm : VirtualMachine).

(** A computation: how it ends, and the calls made until then. *)
Definition M (A : Type) : Type := (outcome A * list event)%type.

Definition resultOf {A : Type} (m : M A) : outcome A := fst m.
Definition traceOf {A : Type} (m : M A) : list event := snd m.

Definition ret {A : Type} (a : A) : M A := (Ret a, []).

Definition bind {A B : Type} (m : M A) (f : A -> M B) : M B :=
  match m with
  | (Ret a, t) => (resultOf (f a), t ++ traceOf (f a))
  | (Err e, t) => (Err e, t)
  | (Panic, t) => (Panic, t)
  end.

Notation "x <- m ;; k" := (bind m (fun x => k))
  (at level 61, m at next level, right associativity).
Notation "m ;;; k" := (bind m (fun _ => k))
  (at level 61, right associativity).

(** [return ..., err] with a fresh error. *)
Definition fail {A : Type} (err : error) : M A := (Err err, []).

(** A nil pointer dereference. *)
Definition panic {A : Type} : M A := (Panic, []).

(** A remote call: it is recorded, and its reply decides how to go on. *)
Definition remote {A : Type} (ev : event) (r : reply A) : M A :=
  (match r with Ok a => Ret a | Fail e => Err e end, [ev]).

(** The call of a stage function is recorded. *)
Definition enter (s : stage) (vmList : list VirtualMachine) : M unit :=
  (Ret tt, [Enter s vmList]).

(** [if err != nil { return nil, fmt.Errorf("<prefix>: %w", err) }]. *)
Definition wrap {A : Type} (prefix : string) (m : M A) : M A :=
  match m with
  | (Err e, t) => (Err (Errorf prefix e), t)
  | _ => m
  end.

(** ** Package regexp

    [regexp.Compile] and the method [MatchString] of the Go library.
    [Compile] returns a nil [*Regexp] together with its error: [None]. *)
Class RegexpLib : Type := {
  Regexp : Type;
  Compile : string -> option Regexp;
  MatchString : Regexp -> string -> bool
}.

(** ** The filter stages *)

Section Filters.

Context {RE : RegexpLib}.

(** The loop of [filterByNameRegex].  [re.MatchString] dereferences [re]:
    with a nil [re] the first iteration panics. *)
Fixpoint filterByNameRegex_loop (re : option Regexp)
    (vmList result : list VirtualMachine) : M (list VirtualMachine) :=
  match vmList with
  | [] => ret result
  | i :: rest =>
      match re with
      | None => panic
      | Some r =>
          if MatchString r (vmName i)
          then filterByNameRegex_loop re rest (result ++ [i])
          else filterByNameRegex_loop re rest result
      end
  end.

(** [filterByNameRegex]: the error of [regexp.Compile] is dropped. *)
Definition filterByNameRegex (vmList : list VirtualMachine)
    (nameRegex : string) : M (list VirtualMachine) :=
  enter NameRegexStage vmList ;;;
  let re := Compile nameRegex in
  filterByNameRegex_loop re vmList [].

(** [filterByTemplate]: only templates pass; a failed property fetch
    aborts the stage. *)
Fixpoint filterByTemplate_loop (driver : VCenterDriver)
    (vmList result : list VirtualMachine) : M (list VirtualMachine) :=
  match vmList with
  | [] => ret result
  | i :: rest =>
      isTemplate <- wrap "error checking if virtual machine is a template"
                      (remote (CallIsTemplate i) (IsTemplate driver i)) ;;
      if isTemplate
      then filterByTemplate_loop driver rest (result ++ [i])
      else filterByTemplate_loop driver rest result
  end.

Definition filterByTemplate (driver : VCenterDriver)
    (vmList : list VirtualMachine) : M (list VirtualMachine) :=
  enter TemplateStage vmList ;;;
  filterByTemplate_loop driver vmList [].

(** The inner loop of [filterByHost]: the machine is appended once for
    every machine of the host that bears its name (the loop has no
    [break]). *)
Fixpoint filterByHost_inner (filteredVm : VirtualMachine)
    (hostVms : list string) (result : list VirtualMachine)
    : list VirtualMachine :=
  match hostVms with
  | [] => result
  | hostVmName :: rest =>
      if (vmName filteredVm =? hostVmName)%string
      then filterByHost_inner filteredVm rest (result ++ [filteredVm])
      else filterByHost_inner filteredVm rest result
  end.

Fixpoint filterByHost_loop (hostVms : list string)
    (vmList result : list VirtualMachine) : list VirtualMachine :=
  match vmList with
  | [] => result
  | filteredVm :: rest =>
      filterByHost_loop hostVms rest
        (filterByHost_inner filteredVm hostVms result)
  end.

(** [filterByHost]: the host is resolved by name, its machines are
    fetched in one batch, and the candidates are matched by name. *)
Definition filterByHost (driver : VCenterDriver) (config : Config)
    (vmList : list VirtualMachine) : M (list VirtualMachine) :=
  enter HostStage vmList ;;;
  obj <- wrap "error finding defined host system"
           (remote (CallHostSystem (Host config))
                   (HostSystem driver (Host config))) ;;
  hostVm <- wrap "error retrieving properties of host system"
              (remote (CallRetrieveHostVm obj) (RetrieveHostVm driver obj)) ;;
  hostVms <- wrap "failed to get properties for the virtual machine"
               (remote (CallRetrieveNames hostVm)
                       (RetrieveNames driver hostVm)) ;;
  ret (filterByHost_loop hostVms vmList []).

(** The innermost loop of [filterByTags]: the attached tags are scanned
    for one required tag; the category of an attached tag is fetched only
    when its name matches.  The value is [configTagMatched]. *)
Fixpoint filterByTags_scan (driver : VCenterDriver) (configTag : Tag)
    (realTagsList : list AttachedTag) : M bool :=
  match realTagsList with
  | [] => ret false
  | realTag :: rest =>
      if (tagName configTag =? atName realTag)%string
      then
        category <- wrap "failed to return tag category for tag"
                      (remote (CallGetCategory (atCategoryID realTag))
                              (GetCategory driver (atCategoryID realTag))) ;;
        if (tagCategory configTag =? catName category)%string
        then ret true
        else filterByTags_scan driver configTag rest
      else filterByTags_scan driver configTag rest
  end.

(** The loop over the required tags: it counts the matched ones and
    breaks at the first one that is not matched. *)
Fixpoint filterByTags_count (driver : VCenterDriver) (vmTags : list Tag)
    (realTagsList : list AttachedTag) (matchedTagsCount : nat) : M nat :=
  match vmTags with
  | [] => ret matchedTagsCount
  | configTag :: rest =>
      configTagMatched <- filterByTags_scan driver configTag realTagsList ;;
      if configTagMatched
      then filterByTags_count driver rest realTagsList (S matchedTagsCount)
      else ret matchedTagsCount
  end.

Fixpoint filterByTags_loop (driver : VCenterDriver) (vmTags : list Tag)
    (vmList result : list VirtualMachine) : M (list VirtualMachine) :=
  match vmList with
  | [] => ret result
  | filteredVm :: rest =>
      realTagsList <- wrap "failed return tags for the virtual machine"
                        (remote (CallGetAttachedTags (vmReference filteredVm))
                                (GetAttachedTags driver
                                   (vmReference filteredVm))) ;;
      matchedTagsCount <- filterByTags_count driver vmTags realTagsList 0 ;;
      if (matchedTagsCount =? length vmTags)%nat
      then filterByTags_loop driver vmTags rest (result ++ [filteredVm])
      else filterByTags_loop driver vmTags rest result
  end.

(** [filterByTags]: only machines that have all the tags pass. *)
Definition filterByTags (driver : VCenterDriver) (vmTags : list Tag)
    (vmList : list VirtualMachine) : M (list VirtualMachine) :=
  enter TagsStage vmList ;;;
  filterByTags_loop driver vmTags vmList [].

(** The loop of [filterByLatest].  [latestVM] is a pointer that starts
    nil and [latestTimestamp] starts as the zero time.  Reading
    [vmConfig.Config.CreateDate] through a nil [Config], or calling
    [After] through a nil [CreateDate], panics. *)
Fixpoint filterByLatest_loop (driver : VCenterDriver)
    (vmList : list VirtualMachine) (latestVM : option VirtualMachine)
    (latestTimestamp : Time) : M (option VirtualMachine) :=
  match vmList with
  | [] => ret latestVM
  | elementVM :: rest =>
      vmConfig <- wrap
                    "error retrieving config properties for the virtual machine"
                    (remote (CallProperties elementVM)
                            (Properties driver elementVM)) ;;
      match moConfig vmConfig with
      | None => panic
      | Some info =>
          match CreateDate info with
          | None => panic
          | Some createDate =>
              if After createDate latestTimestamp
              then filterByLatest_loop driver rest (Some elementVM) createDate
              else filterByLatest_loop driver rest latestVM latestTimestamp
          end
      end
  end.

(** [filterByLatest]: the list it returns has one element, the pointer
    [latestVM], whatever the loop left in it. *)
Definition filterByLatest (driver : VCenterDriver)
    (vmList : list VirtualMachine) : M (list (option VirtualMachine)) :=
  enter LatestStage vmList ;;;
  latestVM <- filterByLatest_loop driver vmList None zeroTime ;;
  ret [latestVM].

(** ** The data source *)

(** [type Datasource struct]. *)
Record Datasource : Type := {
  config : Config
}.

(** *** Execute *)

(** Lines 146-148: the name filter runs when [NameRegex] is set. *)
Definition regexStep (cfg : Config) (filteredVms : list VirtualMachine)
    : M (list VirtualMachine) :=
  if negb (NameRegex cfg =? "")%string
  then filterByNameRegex filteredVms (NameRegex cfg)
  else ret filteredVms.

(** Lines 150-155. *)
Definition templateStep (dr : VCenterDriver) (cfg : Config)
    (filteredVms : list VirtualMachine) : M (list VirtualMachine) :=
  if (0 <? length filteredVms)%nat && Template cfg
  then wrap "failed to filter by template attribute"
         (filterByTemplate dr filteredVms)
  else ret filteredVms.

(** Lines 157-162. *)
Definition hostStep (dr : VCenterDriver) (cfg : Config)
    (filteredVms : list VirtualMachine) : M (list VirtualMachine) :=
  if (0 <? length filteredVms)%nat && negb (Host cfg =? "")%string
  then wrap "failed to filter by host attribute"
         (filterByHost dr cfg filteredVms)
  else ret filteredVms.

(** Lines 164-169: the test is [d.config.Tags != nil]. *)
Definition tagsStep (dr : VCenterDriver) (cfg : Config)
    (filteredVms : list VirtualMachine) : M (list VirtualMachine) :=
  if (0 <? length filteredVms)%nat
     && (match Tags cfg with Some _ => true | None => false end)
  then wrap "failed to filter by tags"
         (filterByTags dr (elems (Tags cfg)) filteredVms)
  else ret filteredVms.

(** Lines 139-162: the list of the finder, then the name, template and
    host filters. *)
Definition candidatesBeforeTags (dr : VCenterDriver) (cfg : Config)
    : M (list VirtualMachine) :=
  filteredVms <- wrap "failed to retrieve virtual machines list"
                   (remote (CallVirtualMachineList (Name cfg))
                           (VirtualMachineList dr (Name cfg))) ;;
  filteredVms <- regexStep cfg filteredVms ;;
  filteredVms <- templateStep dr cfg filteredVms ;;
  hostStep dr cfg filteredVms.

(** Lines 139-169: all the filters of the chain. *)
Definition filterChain (dr : VCenterDriver) (cfg : Config)
    : M (list VirtualMachine) :=
  filteredVms <- candidatesBeforeTags dr cfg ;;
  tagsStep dr cfg filteredVms.

(** Lines 188-190: [filteredVms[0].Name()].  The element is a pointer;
    the method is called through it. *)
Definition firstName (filteredVms : list (option VirtualMachine))
    : M DatasourceOutput :=
  match filteredVms with
  | Some vm :: _ => ret {| VmName := vmName vm |}
  | None :: _ => panic
  | [] => panic
  end.

(** Lines 171-192: the number of machines left decides. *)
Definition selectOne (dr : VCenterDriver) (cfg : Config)
    (filteredVms : list VirtualMachine) : M DatasourceOutput :=
  if (length filteredVms =? 0)%nat
  then fail (errors_New "no virtual machine matches the filters")
  else
    filteredVms <-
      (if (1 <? length filteredVms)%nat
       then
         if Latest cfg
         then wrap "failed to find the latest virtual machine"
                (filterByLatest dr filteredVms)
         else fail (errors_New
                      "more than one virtual machine matched the filters")
       else ret (map Some filteredVms)) ;;
    firstName filteredVms.

(** [Execute].  [NewDriver] is [driver.NewDriver], which logs in to the
    vCenter instance of the connection settings. *)
Definition Execute (NewDriver : ConnectConfig -> reply VCenterDriver)
    (d : Datasource) : M DatasourceOutput :=
  dr <- wrap "failed to initialize driver"
          (remote CallNewDriver (NewDriver (connect (config d)))) ;;
  filteredVms <- filterChain dr (config d) ;;
  selectOne dr (config d) filteredVms.

End Filters.

(** *** Configure *)

(** What [Configure] returns when it is not nil: the error of the
    decoder as it is, or a [*packersdk.MultiError] with its [Errors]. *)
Inductive configureError : Type :=
| DecodeError (err : error)
| MultiError (Errors : list error).

(** [packersdk.MultiErrorAppend(errs, err)] for a plain [err]: a nil
    [errs] is allocated first. *)
Definition MultiErrorAppend (errs : option (list error)) (err : error)
    : option (list error) :=
  match errs with
  | None => Some [err]
  | Some l => Some (l ++ [err])
  end.

(** Lines 113-117: the loop over the tag blocks. *)
Fixpoint Configure_tags (tags : list Tag) (errs : option (list error))
    : option (list error) :=
  match tags with
  | [] => errs
  | tag :: rest =>
      Configure_tags rest
        (if (tagName tag =? "")%string || (tagCategory tag =? "")%string
         then MultiErrorAppend errs
                (errors_New "both name and category are required for tag")
         else errs)
  end.

(** Lines 102-118: the validation, in the order of the source. *)
Definition Configure_validate (cfg : Config) : option (list error) :=
  let errs := None in
  let errs := if (VCenterServer (connect cfg) =? "")%string
              then MultiErrorAppend errs
                     (errors_New "'vcenter_server' is required")
              else errs in
  let errs := if (Username (connect cfg) =? "")%string
              then MultiErrorAppend errs (errors_New "'username' is required")
              else errs in
  let errs := if (Password (connect cfg) =? "")%string
              then MultiErrorAppend errs (errors_New "'password' is required")
              else errs in
  if (0 <? length (elems (Tags cfg)))%nat
  then Configure_tags (elems (Tags cfg)) errs
  else errs.

(** Lines 98-100. *)
Definition defaultName (cfg : Config) : Config :=
  if (Name cfg =? "")%string
  then {| connect := connect cfg; Name := "*"; NameRegex := NameRegex cfg;
          Template := Template cfg; Host := Host cfg; Tags := Tags cfg;
          Latest := Latest cfg |}
  else cfg.

Section Configure.

(** The raw configuration blocks, and [config.Decode(&d.config, nil,
    raws...)] of the Packer SDK, which fills the configuration it is given
    and may fail. *)
Variable Raw : Type.
Variable Decode : Config -> list Raw -> Config * option error.

(** [Configure]: the data source after the call, and the error. *)
Definition Configure (d : Datasource) (raws : list Raw)
    : Datasource * option configureError :=
  match Decode (config d) raws with
  | (cfg, Some err) => ({| config := cfg |}, Some (DecodeError err))
  | (cfg, None) =>
      let cfg := defaultName cfg in
      let errs := Configure_validate cfg in
      ({| config := cfg |},
       match errs with
       | Some Errors =>
           if (0 <? length Errors)%nat then Some (MultiError Errors) else None
       | None => None
       end)
  end.

End Configure.

(** The stage [s] run the way [Execute] calls it, for the length of the
    list it returns. *)
Definition stageOutputLength {RE : RegexpLib} (s : stage)
    (dr : VCenterDriver) (cfg : Config) (vmList : list VirtualMachine)
    : M nat :=
  match s with
  | NameRegexStage =>
      out <- filterByNameRegex vmList (NameRegex cfg) ;; ret (length out)
  | TemplateStage =>
      out <- filterByTemplate dr vmList ;; ret (length out)
  | HostStage =>
      out <- filterByHost dr cfg vmList ;; ret (length out)
  | TagsStage =>
      out <- filterByTags dr (elems (Tags cfg)) vmList ;; ret (length out)
  | LatestStage =>
      out <- filterByLatest dr vmList ;; ret (length out)
  end.

(** ** Vocabulary of the properties *)

(** The creation time the inventory gives for a machine, when the fetch
    succeeds and both [Config] and [CreateDate] are there. *)
Definition creationTime (dr : VCenterDriver) (vm : VirtualMachine)
    : option Time :=
  match Properties dr vm with
  | Ok vmConfig =>
      match moConfig vmConfig with
      | Some info => CreateDate info
      | None => None
      end
  | Fail _ => None
  end.

(** [w] is the first machine of [l] that has the latest creation time:
    every machine before it is strictly older, none after it is newer. *)
Definition firstLatest (dr : VCenterDriver) (l : list VirtualMachine)
    (w : VirtualMachine) : Prop :=
  exists pre post t,
    l = pre ++ w :: post /\
    creationTime dr w = Some t /\
    (forall u, In u pre ->
       exists tu, creationTime dr u = Some tu /\ (tu < t)%Z) /\
    (forall u, In u post ->
       exists tu, creationTime dr u = Some tu /\ (tu <= t)%Z).

(** An attached tag matches a required one: same name, and the category
    behind its category ID bears the required category name. *)
Definition tagMatches (dr : VCenterDriver) (required : Tag)
    (real : AttachedTag) : Prop :=
  atName real = tagName required /\
  exists category,
    GetCategory dr (atCategoryID real) = Ok category /\
    catName category = tagCategory required.

(** The required tag is matched by one of the attached tags. *)
Definition tagAttached (dr : VCenterDriver)
    (realTagsList : list AttachedTag) (required : Tag) : Prop :=
  exists real, In real realTagsList /\ tagMatches dr required real.

(** The machine has every required tag attached. *)
Definition hasAllTags (dr : VCenterDriver) (vmTags : list Tag)
    (vm : VirtualMachine) : Prop :=
  exists realTagsList,
    GetAttachedTags dr (vmReference vm) = Ok realTagsList /\
    forall required, In required vmTags ->
      tagAttached dr realTagsList required.

(** The names of the machines of the configured host, as [filterByHost]
    fetches them. *)
Definition hostVmNames (dr : VCenterDriver) (cfg : Config)
    (hostVms : list string) : Prop :=
  exists obj hostVm,
    HostSystem dr (Host cfg) = Ok obj /\
    RetrieveHostVm dr obj = Ok hostVm /\
    RetrieveNames dr hostVm = Ok hostVms.

(** What the stage needs for its output to be no longer than its input:
    the machines of the host bear distinct names; the list given to the
    latest-selection stage is not empty. *)
Definition narrowingCondition (s : stage) (dr : VCenterDriver)
    (cfg : Config) (vmList : list VirtualMachine) : Prop :=
  match s with
  | HostStage => forall hostVms, hostVmNames dr cfg hostVms -> NoDup hostVms
  | LatestStage => vmList <> []
  | _ => True
  end.

(** [kept] is [l] without the elements that fail [P], in the order of
    [l]. *)
Inductive retained {A : Type} (P : A -> Prop) : list A -> list A -> Prop :=
| retained_nil : retained P [] []
| retained_keep (a : A) (l kept : list A) :
    P a -> retained P l kept -> retained P (a :: l) (a :: kept)
| retained_drop (a : A) (l kept : list A) :
    ~ P a -> retained P l kept -> retained P (a :: l) kept.

(** The stage an event belongs to: the call of the stage function and the
    remote calls only that stage makes.  Logging in and the list of the
    finder belong to none. *)
Definition eventStage (e : event) : option stage :=
  match e with
  | Enter s _ => Some s
  | CallNewDriver => None
  | CallVirtualMachineList _ => None
  | CallIsTemplate _ => Some TemplateStage
  | CallHostSystem _ => Some HostStage
  | CallRetrieveHostVm _ => Some HostStage
  | CallRetrieveNames _ => Some HostStage
  | CallGetAttachedTags _ => Some TagsStage
  | CallGetCategory _ => Some TagsStage
  | CallProperties _ => Some LatestStage
  end.

(** Every event of the trace satisfies [P]. *)
Definition traceIn {A : Type} (P : event -> Prop) (m : M A) : Prop :=
  forall e, In e (traceOf m) -> P e.

(** Whether the configuration asks for the stage. *)
Definition configured (cfg : Config) (s : stage) : bool :=
  match s with
  | NameRegexStage => negb (NameRegex cfg =? "")%string
  | TemplateStage => Template cfg
  | HostStage => negb (Host cfg =? "")%string
  | TagsStage => match Tags cfg with Some _ => true | None => false end
  | LatestStage => Latest cfg
  end.

(** The events of a step of [Execute] belong to the stage of the step,
    and there are some only when the configuration asks for the stage. *)
Definition stepEvents (cfg : Config) (s : stage) (e : event) : Prop :=
  eventStage e = Some s /\ configured cfg s = true.


(** A tag block that [Configure] rejects. *)
Definition incompleteTag (tag : Tag) : bool :=
  (tagName tag =? "")%string || (tagCategory tag =? "")%string.

(** The violations [Configure] looks for, in the order it looks for
    them: an empty [vcenter_server], [username] or [password], and one
    entry for every tag block that lacks its name or its category. *)
Definition violations (cfg : Config) : list error :=
  (if (VCenterServer (connect cfg) =? "")%string
   then ["'vcenter_server' is required"%string] else [])
  ++ (if (Username (connect cfg) =? "")%string
      then ["'username' is required"%string] else [])
  ++ (if (Password (connect cfg) =? "")%string
      then ["'password' is required"%string] else [])
  ++ map (fun _ => "both name and category are required for tag"%string)
         (filter incompleteTag (elems (Tags cfg))).

(** A [*MultiError] pointer for a list of errors: nil when there is
    none. *)
Definition multiErrorOf (errs : list error) : option (list error) :=
  match errs with
  | [] => None
  | _ => Some errs
  end.

(** ** A simulated inventory

    A small vCenter in the manner of the simulator of the tests
    ([SimulatedVMConfig]: name, tags, template flag, creation time), to
    run the definitions on concrete inventories. *)
Module Sim.

(** Whether [p] occurs in [s]. *)
Fixpoint occursIn (p s : string) : bool :=
  String.prefix p s ||
  match s with
  | EmptyString => false
  | String _ s' => occursIn p s'
  end.

Definition plainChar (c : ascii) : bool :=
  let n := nat_of_ascii c in
  (((48 <=? n) && (n <=? 57)) || ((65 <=? n) && (n <=? 90))
   || ((97 <=? n) && (n <=? 122)) || (n =? 45))%nat.

Fixpoint plainPattern (p : string) : bool :=
  match p with
  | EmptyString => true
  | String c p' => plainChar c && plainPattern p'
  end.

(** A stand-in for package regexp on the patterns used below: a pattern
    of letters, digits and hyphens compiles, and matches the strings in
    which it occurs, as in Go; the pattern ["("] does not compile, as in
    Go (missing closing parenthesis).  Patterns with other characters are
    not used. *)
Definition plainRegexp : RegexpLib := {|
  Regexp := string;
  Compile := fun p => if plainPattern p then Some p else None;
  MatchString := fun re s => occursIn re s
|}.

Record SimulatedVM : Type := {
  machine : VirtualMachine;
  isTemplate : bool;
  onHost : string;
  attached : list AttachedTag;
  properties : moVirtualMachine
}.

Record Inventory : Type := {
  machines : list SimulatedVM;
  (* category ID, category name *)
  categories : list (string * string)
}.

Fixpoint findMachine (ref : string) (l : list SimulatedVM)
    : option SimulatedVM :=
  match l with
  | [] => None
  | m :: rest =>
      if (vmReference (machine m) =? ref)%string then Some m
      else findMachine ref rest
  end.

Fixpoint findCategory (id : string) (l : list (string * string))
    : option string :=
  match l with
  | [] => None
  | (id', name) :: rest =>
      if (id' =? id)%string then Some name else findCategory id rest
  end.

Definition lookup {A : Type} (inv : Inventory) (ref : string)
    (f : SimulatedVM -> A) : reply A :=
  match findMachine ref (machines inv) with
  | Some m => Ok (f m)
  | None => Fail "object not found"
  end.

Definition simDriver (inv : Inventory) : VCenterDriver := {|
  VirtualMachineList := fun glob =>
    match
      filter (fun m => (glob =? "*")%string
                       || (vmName (machine m) =? glob)%string)
             (machines inv)
    with
    | [] => Fail "vm not found"
    | found => Ok (map machine found)
    end;
  IsTemplate := fun vm => lookup inv (vmReference vm) isTemplate;
  HostSystem := fun name =>
    if existsb (fun m => (onHost m =? name)%string) (machines inv)
    then Ok name else Fail "host not found";
  RetrieveHostVm := fun host =>
    Ok (map (fun m => vmReference (machine m))
            (filter (fun m => (onHost m =? host)%string) (machines inv)));
  RetrieveNames := fun refs =>
    Ok (flat_map (fun ref =>
                    match findMachine ref (machines inv) with
                    | Some m => [vmName (machine m)]
                    | None => []
                    end) refs);
  GetAttachedTags := fun ref => lookup inv ref attached;
  GetCategory := fun id =>
    match findCategory id (categories inv) with
    | Some name => Ok {| catName := name |}
    | None => Fail "category not found"
    end;
  Properties := fun vm => lookup inv (vmReference vm) properties
|}.

Definition simNewDriver (inv : Inventory)
    : ConnectConfig -> reply VCenterDriver :=
  fun _ => Ok (simDriver inv).

(** A machine created at [t], or without creation date. *)
Definition createdAt (t : Time) : moVirtualMachine :=
  {| moConfig := Some {| CreateDate := Some t |} |}.
Definition noCreateDate : moVirtualMachine :=
  {| moConfig := Some {| CreateDate := None |} |}.

Definition vm (ref name : string) : VirtualMachine :=
  {| vmReference := ref; vmName := name |}.

Definition simVM (ref name : string) (template : bool) (host : string)
    (tags : list AttachedTag) (props : moVirtualMachine) : SimulatedVM :=
  {| machine := vm ref name; isTemplate := template; onHost := host;
     attached := tags; properties := props |}.

Definition vcenter : ConnectConfig :=
  {| VCenterServer := "vcenter.example.com"; Username := "packer";
     Password := "secret" |}.

(** A configuration with only the connection settings and the default
    name pattern. *)
Definition baseConfig : Config :=
  {| connect := vcenter; Name := "*"; NameRegex := ""; Template := false;
     Host := ""; Tags := None; Latest := false |}.

Definition withNameRegex (re : string) (cfg : Config) : Config :=
  {| connect := connect cfg; Name := Name cfg; NameRegex := re;
     Template := Template cfg; Host := Host cfg; Tags := Tags cfg;
     Latest := Latest cfg |}.

Definition withTags (tags : option (list Tag)) (cfg : Config) : Config :=
  {| connect := connect cfg; Name := Name cfg; NameRegex := NameRegex cfg;
     Template := Template cfg; Host := Host cfg; Tags := tags;
     Latest := Latest cfg |}.

Definition withHost (host : string) (cfg : Config) : Config :=
  {| connect := connect cfg; Name := Name cfg; NameRegex := NameRegex cfg;
     Template := Template cfg; Host := host; Tags := Tags cfg;
     Latest := Latest cfg |}.

Definition withLatest (latest : bool) (cfg : Config) : Config :=
  {| connect := connect cfg; Name := Name cfg; NameRegex := NameRegex cfg;
     Template := Template cfg; Host := Host cfg; Tags := Tags cfg;
     Latest := latest |}.

(** Two machines on one host, tagged team:ops; the first is also tagged
    tier:prod. *)
Definition twoTagged : Inventory :=
  {| machines :=
       [ simVM "vm-1" "web-1" false "esx-1"
           [ {| atName := "ops"; atCategoryID := "cat-team" |};
             {| atName := "prod"; atCategoryID := "cat-tier" |} ]
           (createdAt 10%Z);
         simVM "vm-2" "web-2" false "esx-1"
           [ {| atName := "ops"; atCategoryID := "cat-team" |} ]
           (createdAt 20%Z) ];
     categories := [ ("cat-team", "team"); ("cat-tier", "tier") ] |}.

(** Two machines whose creation date is the zero time. *)
Definition twoUndated : Inventory :=
  {| machines :=
       [ simVM "vm-1" "web-1" false "esx-1" [] (createdAt zeroTime);
         simVM "vm-2" "web-2" false "esx-1" [] (createdAt zeroTime) ];
     categories := [] |}.

(** A dated machine and one whose [CreateDate] is nil. *)
Definition oneDatedOneWithout : Inventory :=
  {| machines :=
       [ simVM "vm-1" "web-1" false "esx-1" [] (createdAt 5%Z);
         simVM "vm-2" "web-2" false "esx-1" [] noCreateDate ];
     categories := [] |}.

(** One machine created before the zero time. *)
Definition oneBeforeZero : Inventory :=
  {| machines :=
       [ simVM "vm-1" "web-1" false "esx-1" [] (createdAt (-1)%Z) ];
     categories := [] |}.

(** Three machines; the last two share the latest creation date. *)
Definition twoLatest : Inventory :=
  {| machines :=
       [ simVM "vm-1" "web-1" true "esx-1" [] (createdAt 10%Z);
         simVM "vm-2" "web-2" true "esx-1" [] (createdAt 30%Z);
         simVM "vm-3" "web-3" true "esx-1" [] (createdAt 30%Z) ];
     categories := [] |}.

(** Two machines created before the zero time. *)
Definition twoBeforeZero : Inventory :=
  {| machines :=
       [ simVM "vm-1" "web-1" false "esx-1" [] (createdAt (-2)%Z);
         simVM "vm-2" "web-2" false "esx-1" [] (createdAt (-1)%Z) ];
     categories := [] |}.

(** Three machines on two hosts; the first and the last are templates. *)
Definition mixed : Inventory :=
  {| machines :=
       [ simVM "vm-1" "web-1" true "esx-1"
           [ {| atName := "ops"; atCategoryID := "cat-team" |} ]
           (createdAt 10%Z);
         simVM "vm-2" "web-2" false "esx-2"
           [ {| atName := "ops"; atCategoryID := "cat-team" |};
             {| atName := "prod"; atCategoryID := "cat-tier" |} ]
           (createdAt 20%Z);
         simVM "vm-3" "db-1" true "esx-1"
           [ {| atName := "prod"; atCategoryID := "cat-tier" |} ]
           (createdAt 30%Z) ];
     categories := [ ("cat-team", "team"); ("cat-tier", "tier") ] |}.

(** Two machines of one host that bear the same name (they live in
    different folders). *)
Definition sameNameTwice : Inventory :=
  {| machines :=
       [ simVM "vm-1" "web" false "esx-1" [] (createdAt 10%Z);
         simVM "vm-2" "web" false "esx-1" [] (createdAt 20%Z) ];
     categories := [] |}.

(** A stand-in for the decoder: the raw blocks are configurations
    already, the first one is taken; no block is an error. *)
Definition decodeFirst (cfg : Config) (raws : list Config)
    : Config * option error :=
  match raws with
  | raw :: _ => (raw, None)
  | [] => (cfg, Some "nothing to decode")
  end.

Definition noConnection : ConnectConfig :=
  {| VCenterServer := ""; Username := "packer"; Password := "" |}.

(** A configuration without server and password, with one tag block
    that has no category. *)
Definition badConfig : Config :=
  {| connect := noConnection; Name := ""; NameRegex := ""; Template := false;
     Host := "";
     Tags := Some [ {| tagName := "ops"; tagCategory := "team" |};
                    {| tagName := "prod"; tagCategory := "" |} ];
     Latest := false |}.

(** The inventory [sameNameTwice] seen through a finder that lists the
    first machine only (the second one lives in another folder); the
    host still runs both. *)
Definition oneListedOfTwo : VCenterDriver :=
  let inventory := simDriver sameNameTwice in
  {| VirtualMachineList := fun _ => Ok [vm "vm-1" "web"];
     IsTemplate := IsTemplate inventory;
     HostSystem := HostSystem inventory;
     RetrieveHostVm := RetrieveHostVm inventory;
     RetrieveNames := RetrieveNames inventory;
     GetAttachedTags := GetAttachedTags inventory;
     GetCategory := GetCategory inventory;
     Properties := Properties inventory |}.

End Sim.

(** ** Vocabulary of the properties of the stages *)

(** The machine is a template, as far as the inventory tells. *)
Definition isTemplateOk (dr : VCenterDriver) (vm : VirtualMachine) : bool :=
  match IsTemplate dr vm with
  | Ok b => b
  | Fail _ => false
  end.

(** A machine of the host bears the name of [vm]. *)
Definition nameOnHost (hostVms : list string) (vm : VirtualMachine) : bool :=
  existsb (String.eqb (vmName vm)) hostVms.

(** Lines 139-155 of [Execute]: the list of the finder, then the name and
    template filters. *)
Definition candidatesBeforeHost {RE : RegexpLib} (dr : VCenterDriver)
    (cfg : Config) : M (list VirtualMachine) :=
  filteredVms <- wrap "failed to retrieve virtual machines list"
                   (remote (CallVirtualMachineList (Name cfg))
                           (VirtualMachineList dr (Name cfg))) ;;
  filteredVms <- regexStep cfg filteredVms ;;
  templateStep dr cfg filteredVms.

(** The messages of the errors [Execute] returns: the fixed ones, and
    the wrapped ones around the error [e] of a remote call. *)
Definition executeErrorMessage (msg : error) : Prop :=
  msg = "no virtual machine matches the filters"%string \/
  msg = "more than one virtual machine matched the filters"%string \/
  exists e,
    msg = Errorf "failed to initialize driver" e \/
    msg = Errorf "failed to retrieve virtual machines list" e \/
    msg = Errorf "failed to filter by template attribute"
            (Errorf "error checking if virtual machine is a template" e) \/
    msg = Errorf "failed to filter by host attribute"
            (Errorf "error finding defined host system" e) \/
    msg = Errorf "failed to filter by host attribute"
            (Errorf "error retrieving properties of host system" e) \/
    msg = Errorf "failed to filter by host attribute"
            (Errorf "failed to get properties for the virtual machine" e) \/
    msg = Errorf "failed to filter by tags"
            (Errorf "failed return tags for the virtual machine" e) \/
    msg = Errorf "failed to filter by tags"
            (Errorf "failed to return tag category for tag" e) \/
    msg = Errorf "failed to find the latest virtual machine"
            (Errorf
               "error retrieving config properties for the virtual machine"
               e).

(** ** The simulator of the tests

    [datasource/virtual_machine/testing]: the helpers that customize the
    machines of a simulated vCenter ([CustomizeSimulator],
    [MarkSimulatedVmAsTemplate], [FindOrCreateCategory],
    [FindOrCreateTag]).  The simulated vCenter changes as it is called:
    its state is threaded through the calls. *)
Module Testing.

(** [tags.Category], the fields that are read or set. *)
Record Category : Type := {
  categoryID : string;
  categoryName : string;
  categoryCardinality : string
}.

(** [tags.Tag] with its ID. *)
Record TagInfo : Type := {
  tagInfoID : string;
  tagInfoName : string;
  tagInfoCategoryID : string
}.

(** [types.VirtualMachineConfigSpec], the fields that are set;
    [CreateDate] is a pointer. *)
Record ConfigSpec : Type := {
  specName : string;
  specCreateDate : option Time
}.

(** [type Tag struct] of simulator.go. *)
Record SimTag : Type := {
  simTagCategory : string;
  simTagName : string
}.

(** [type SimulatedVMConfig struct]; [Tags] is a slice, [None] is nil. *)
Record SimulatedVMConfig : Type := {
  cfgName : string;
  cfgTags : option (list SimTag);
  cfgTemplate : bool;
  cfgCreationTime : Time
}.

(** The calls to the simulated vCenter. *)
Inductive call : Type :=
| ListVMs (glob : string)
| GetCategoriesCall
| CreateCategoryCall (c : Category)
| GetTagsForCategoryCall (categoryID : string)
| CreateTagCall (t : TagInfo)
| AttachTagCall (tagID : string) (ref : string)
| ReconfigureCall (vm : VirtualMachine) (spec : ConfigSpec)
| PowerOffCall (vm : VirtualMachine)
| WaitCall (task : string)
| MarkAsTemplateCall (vm : VirtualMachine).

(** The simulated vCenter with state [S]: the finder, the tag manager and
    the operations on machines.  The listings only read the state. *)
Record API (S : Type) : Type := {
  apiVirtualMachineList : S -> string -> reply (list VirtualMachine);
  apiGetCategories : S -> reply (list Category);
  apiCreateCategory : S -> Category -> reply string * S;
  apiGetTagsForCategory : S -> string -> reply (list TagInfo);
  apiCreateTag : S -> TagInfo -> reply string * S;
  apiAttachTag : S -> string -> string -> option error * S;
  (* the value is the task *)
  apiReconfigure : S -> VirtualMachine -> ConfigSpec -> reply string * S;
  apiPowerOff : S -> VirtualMachine -> reply string * S;
  apiWait : S -> string -> option error * S;
  apiMarkAsTemplate : S -> VirtualMachine -> option error * S
}.

(** [errors.Wrap(err, message)] of pkg/errors. *)
Definition Wrap (err : error) (message : string) : error :=
  (message ++ ": " ++ err)%string.

Section Runs.

Variable S : Type.

(** A computation on the simulated vCenter: how it ends, the state it
    leaves, and the calls it made. *)
Definition Run (A : Type) : Type := S -> outcome A * S * list call.

Definition done {A : Type} (a : A) : Run A := fun s => (Ret a, s, []).

Definition andThen {A B : Type} (m : Run A) (f : A -> Run B) : Run B :=
  fun s =>
    match m s with
    | (Ret a, s', t) =>
        match f a s' with
        | (r, s'', t') => (r, s'', t ++ t')
        end
    | (Err e, s', t) => (Err e, s', t)
    | (Panic, s', t) => (Panic, s', t)
    end.

(** [return errors.Wrap(err, message)] when the inner call failed. *)
Definition wrapped {A : Type} (message : string) (m : Run A) : Run A :=
  fun s =>
    match m s with
    | (Err e, s', t) => (Err (Wrap e message), s', t)
    | other => other
    end.

(** A call that returns a value and an error. *)
Definition callValue {A : Type} (c : call) (op : S -> reply A * S)
    (message : string) : Run A :=
  fun s =>
    match op s with
    | (Ok a, s') => (Ret a, s', [c])
    | (Fail e, s') => (Err (Wrap e message), s', [c])
    end.

(** A call that returns an error only. *)
Definition callError (c : call) (op : S -> option error * S)
    (message : string) : Run unit :=
  fun s =>
    match op s with
    | (None, s') => (Ret tt, s', [c])
    | (Some e, s') => (Err (Wrap e message), s', [c])
    end.

(** A listing: the state is read, not changed. *)
Definition callRead {A : Type} (c : call) (op : S -> reply A)
    (message : string) : Run A :=
  callValue c (fun s => (op s, s)) message.

(** [vms[i]]: an index out of range panics. *)
Definition index (vms : list VirtualMachine) (i : nat)
    : Run VirtualMachine :=
  fun s =>
    match nth_error vms i with
    | Some vm => (Ret vm, s, [])
    | None => (Panic, s, [])
    end.

(** The calls of a run all satisfy [P]. *)
Definition callsIn {A : Type} (P : call -> Prop) (m : Run A) : Prop :=
  forall s c, In c (snd (m s)) -> P c.

Variable api : API S.

(** [MarkSimulatedVmAsTemplate]. *)
Definition MarkSimulatedVmAsTemplate (vm : VirtualMachine) : Run unit :=
  andThen (callValue (PowerOffCall vm) (fun s => apiPowerOff api s vm)
             "failed to issue powering off command to the machine")
    (fun task =>
  andThen (callError (WaitCall task) (fun s => apiWait api s task)
             "failed to power off the machine")
    (fun _ =>
  callError (MarkAsTemplateCall vm) (fun s => apiMarkAsTemplate api s vm)
    "failed to mark VM as a template")).

(** The loop of [FindOrCreateCategory]: the ID of the first category of
    the list that bears the name. *)
Fixpoint findCategoryID (catName : string) (categoryList : list Category)
    : option string :=
  match categoryList with
  | [] => None
  | category :: rest =>
      if (categoryName category =? catName)%string
      then Some (categoryID category)
      else findCategoryID catName rest
  end.

(** The category [FindOrCreateCategory] creates. *)
Definition newCategory (catName : string) : Category :=
  {| categoryID := ""; categoryName := catName;
     categoryCardinality := "MULTIPLE" |}.

(** [FindOrCreateCategory]. *)
Definition FindOrCreateCategory (catName : string) : Run string :=
  andThen (callRead GetCategoriesCall (apiGetCategories api)
             "cannot get categories from cluster")
    (fun categoryList =>
       match findCategoryID catName categoryList with
       | Some id => done id
       | None =>
           callValue (CreateCategoryCall (newCategory catName))
             (fun s => apiCreateCategory api s (newCategory catName))
             "cannot create category"
       end).

(** The loop of [FindOrCreateTag]. *)
Fixpoint findTagID (tagName : string) (tagsInCategory : list TagInfo)
    : option string :=
  match tagsInCategory with
  | [] => None
  | tag :: rest =>
      if (tagInfoName tag =? tagName)%string
      then Some (tagInfoID tag)
      else findTagID tagName rest
  end.

(** The tag [FindOrCreateTag] creates. *)
Definition newTag (catID tagName : string) : TagInfo :=
  {| tagInfoID := ""; tagInfoName := tagName; tagInfoCategoryID := catID |}.

(** [FindOrCreateTag]. *)
Definition FindOrCreateTag (catID tagName : string) : Run string :=
  andThen (callRead (GetTagsForCategoryCall catID)
             (fun s => apiGetTagsForCategory api s catID)
             "cannot get tags for category")
    (fun tagsInCategory =>
       match findTagID tagName tagsInCategory with
       | Some id => done id
       | None =>
           callValue (CreateTagCall (newTag catID tagName))
             (fun s => apiCreateTag api s (newTag catID tagName))
             "cannot create tag"
       end).

(** The loop over the tags of one machine configuration, lines 144-157
    of [CustomizeSimulator]; [vms[i]] is read when the tag is attached. *)
Fixpoint attachTags (vms : list VirtualMachine) (i : nat)
    (tags : list SimTag) : Run unit :=
  match tags with
  | [] => done tt
  | tag :: rest =>
      andThen (wrapped "failed to find/create category"
                 (FindOrCreateCategory (simTagCategory tag)))
        (fun catID =>
      andThen (wrapped "failed to find/create tag"
                 (FindOrCreateTag catID (simTagName tag)))
        (fun tagID =>
      andThen (index vms i)
        (fun vm =>
      andThen (callError (AttachTagCall tagID (vmReference vm))
                 (fun s => apiAttachTag api s tagID (vmReference vm))
                 "failed to attach tag to VM")
        (fun _ => attachTags vms i rest))))
  end.

(** The specification built for a machine configuration: the creation
    date is set when it is not the zero time. *)
Definition configSpecOf (c : SimulatedVMConfig) : ConfigSpec :=
  {| specName := cfgName c;
     specCreateDate := if (cfgCreationTime c =? zeroTime)%Z then None
                       else Some (cfgCreationTime c) |}.

(** One iteration of the loop of [CustomizeSimulator], for the
    configuration of index [i]. *)
Definition customizeOne (vms : list VirtualMachine) (i : nat)
    (c : SimulatedVMConfig) : Run unit :=
  andThen
    (if negb (cfgName c =? "")%string
     then
       andThen (index vms i)
         (fun vm =>
       andThen (callValue (ReconfigureCall vm (configSpecOf c))
                  (fun s => apiReconfigure api s vm (configSpecOf c))
                  "failed to issue rename of VM command")
         (fun task =>
       callError (WaitCall task) (fun s => apiWait api s task)
         "failed to rename VM"))
     else done tt)
    (fun _ =>
  andThen
    (if cfgTemplate c
     then
       andThen (index vms i)
         (fun vm =>
       wrapped "failed to convert VMs to templates"
         (MarkSimulatedVmAsTemplate vm))
     else done tt)
    (fun _ =>
  match cfgTags c with
  | Some tags => attachTags vms i tags
  | None => done tt
  end)).

(** The loop of [CustomizeSimulator] from index [i] on. *)
Fixpoint customizeFrom (vms : list VirtualMachine) (i : nat)
    (vmsConfig : list SimulatedVMConfig) : Run unit :=
  match vmsConfig with
  | [] => done tt
  | c :: rest =>
      andThen (customizeOne vms i c)
        (fun _ => customizeFrom vms (Datatypes.S i) rest)
  end.

(** [CustomizeSimulator]. *)
Definition CustomizeSimulator (vmsConfig : list SimulatedVMConfig)
    : Run unit :=
  andThen (callRead (ListVMs "*")
             (fun s => apiVirtualMachineList api s "*")
             "failed to list VMs in cluster")
    (fun vms => customizeFrom vms 0 vmsConfig).

(** A call that reconfigures a machine does so for the configuration of
    the index of the machine, which has a name, with the specification
    built from that configuration. *)
Definition renameCall (vms : list VirtualMachine)
    (vmsConfig : list SimulatedVMConfig) (c : call) : Prop :=
  match c with
  | ReconfigureCall vm spec =>
      exists i cfg,
        nth_error vmsConfig i = Some cfg /\ nth_error vms i = Some vm /\
        spec = configSpecOf cfg /\ cfgName cfg <> ""
  | _ => True
  end.

(** A machine configuration that makes the loop read its machine:
    it renames, marks as template, or attaches a tag. *)
Definition needsMachine (c : SimulatedVMConfig) : bool :=
  negb (cfgName c =? "")%string || cfgTemplate c
  || match cfgTags c with
     | Some (_ :: _) => true
     | _ => false
     end.



End Runs.

(** *** A simulated vCenter in memory *)

Record Memory : Type := {
  memVMs : list VirtualMachine;
  memCategories : list Category;
  memTags : list TagInfo;
  (* tag ID, machine reference *)
  memAttached : list (string * string);
  memTemplates : list string;
  memSpecs : list (string * ConfigSpec)
}.

(** IDs are made from the number of objects there are. *)
Definition freshID (prefix : string) (n : nat) : string :=
  (prefix ++ String (ascii_of_nat (48 + n)) "")%string.

Definition memory : API Memory := {|
  apiVirtualMachineList := fun s _ =>
    match memVMs s with
    | [] => Fail "vm not found"
    | vms => Ok vms
    end;
  apiGetCategories := fun s => Ok (memCategories s);
  apiCreateCategory := fun s c =>
    let id := freshID "cat-" (length (memCategories s)) in
    (Ok id,
     {| memVMs := memVMs s;
        memCategories :=
          memCategories s
          ++ [ {| categoryID := id; categoryName := categoryName c;
                  categoryCardinality := categoryCardinality c |} ];
        memTags := memTags s; memAttached := memAttached s;
        memTemplates := memTemplates s; memSpecs := memSpecs s |});
  apiGetTagsForCategory := fun s catID =>
    Ok (filter (fun t => (tagInfoCategoryID t =? catID)%string) (memTags s));
  apiCreateTag := fun s t =>
    let id := freshID "tag-" (length (memTags s)) in
    (Ok id,
     {| memVMs := memVMs s; memCategories := memCategories s;
        memTags :=
          memTags s
          ++ [ {| tagInfoID := id; tagInfoName := tagInfoName t;
                  tagInfoCategoryID := tagInfoCategoryID t |} ];
        memAttached := memAttached s;
        memTemplates := memTemplates s; memSpecs := memSpecs s |});
  apiAttachTag := fun s tagID ref =>
    (None,
     {| memVMs := memVMs s; memCategories := memCategories s;
        memTags := memTags s;
        memAttached := memAttached s ++ [(tagID, ref)];
        memTemplates := memTemplates s; memSpecs := memSpecs s |});
  apiReconfigure := fun s vm spec =>
    (Ok "task-reconfigure",
     {| memVMs := memVMs s; memCategories := memCategories s;
        memTags := memTags s; memAttached := memAttached s;
        memTemplates := memTemplates s;
        memSpecs := memSpecs s ++ [(vmReference vm, spec)] |});
  apiPowerOff := fun s vm => (Ok "task-poweroff", s);
  apiWait := fun s task => (None, s);
  apiMarkAsTemplate := fun s vm =>
    (None,
     {| memVMs := memVMs s; memCategories := memCategories s;
        memTags := memTags s; memAttached := memAttached s;
        memTemplates := memTemplates s ++ [vmReference vm];
        memSpecs := memSpecs s |})
|}.

(** Two machines, one category with one tag. *)
Definition twoMachines : Memory :=
  {| memVMs := [ {| vmReference := "vm-1"; vmName := "DC0_H0_VM0" |};
                 {| vmReference := "vm-2"; vmName := "DC0_H0_VM1" |} ];
     memCategories := [ {| categoryID := "cat-0"; categoryName := "team";
                           categoryCardinality := "MULTIPLE" |} ];
     memTags := [ {| tagInfoID := "tag-0"; tagInfoName := "ops";
                     tagInfoCategoryID := "cat-0" |} ];
     memAttached := []; memTemplates := []; memSpecs := [] |}.

End Testing.

(** ** The monad *)

Unset Implicit Arguments.

Arguments bind : simpl never.
Arguments wrap : simpl never.
Arguments remote : simpl never.
Arguments enter : simpl never.

Section MonadFacts.

Context {A B : Type}.

Lemma resultOf_bind (m : M A) (f : A -> M B) :
  resultOf (bind m f) =
  match resultOf m with
  | Ret a => resultOf (f a)
  | Err e => Err e
  | Panic => Panic
  end.
Proof. destruct m as [[a | e |] t]; reflexivity. Qed.

Lemma traceOf_bind (m : M A) (f : A -> M B) :
  traceOf (bind m f) =
  traceOf m ++ match resultOf m with
               | Ret a => traceOf (f a)
               | _ => []
               end.
Proof.
  destruct m as [[a | e |] t]; simpl; try reflexivity;
    now rewrite app_nil_r.
Qed.

Lemma bind_Ret_inv (m : M A) (f : A -> M B) (b : B) :
  resultOf (bind m f) = Ret b ->
  exists a, resultOf m = Ret a /\ resultOf (f a) = Ret b.
Proof.
  rewrite resultOf_bind. destruct (resultOf m) as [a | e |]; try discriminate.
  intros H. now exists a.
Qed.

Lemma bind_Ret (m : M A) (f : A -> M B) (a : A) :
  resultOf m = Ret a -> resultOf (bind m f) = resultOf (f a).
Proof. intros H. now rewrite resultOf_bind, H. Qed.

Lemma traceOf_bind_Ret (m : M A) (f : A -> M B) (a : A) :
  resultOf m = Ret a -> traceOf (bind m f) = traceOf m ++ traceOf (f a).
Proof. intros H. now rewrite traceOf_bind, H. Qed.

Lemma In_traceOf_bind (m : M A) (f : A -> M B) (e : event) :
  In e (traceOf (bind m f)) ->
  In e (traceOf m) \/
  exists a, resultOf m = Ret a /\ In e (traceOf (f a)).
Proof.
  rewrite traceOf_bind. intros H. apply in_app_or in H.
  destruct H as [H | H]; [now left |].
  destruct (resultOf m) as [a | err |]; try contradiction.
  right. now exists a.
Qed.

Lemma resultOf_wrap_Ret (prefix : string) (m : M A) (a : A) :
  resultOf (wrap prefix m) = Ret a <-> resultOf m = Ret a.
Proof. destruct m as [[a' | e |] t]; simpl; split; congruence. Qed.

Lemma traceOf_wrap (prefix : string) (m : M A) :
  traceOf (wrap prefix m) = traceOf m.
Proof. destruct m as [[a' | e |] t]; reflexivity. Qed.

Lemma resultOf_remote_Ret (ev : event) (r : reply A) (a : A) :
  resultOf (remote ev r) = Ret a <-> r = Ok a.
Proof. destruct r; simpl; split; congruence. Qed.

End MonadFacts.

(** ** The name filter *)

Section NameRegex.

Context {RE : RegexpLib}.

Lemma filterByNameRegex_loop_nil_regexp (i : VirtualMachine)
    (rest acc : list VirtualMachine) :
  filterByNameRegex_loop None (i :: rest) acc = panic.
Proof. reflexivity. Qed.

(** The loop through a nil [*Regexp]. *)
Lemma filterByNameRegex_nil_regexp_panics (vmList : list VirtualMachine)
    (nameRegex : string) :
  Compile nameRegex = None ->
  vmList <> [] ->
  resultOf (filterByNameRegex vmList nameRegex) = Panic.
Proof.
  intros Hre Hne. unfold filterByNameRegex. rewrite Hre.
  destruct vmList as [| i rest]; [congruence | reflexivity].
Qed.

(** C4, on the code: when the pattern does not compile, the stage panics
    on every candidate list that is not empty, since [MatchString] is
    called through the nil [*Regexp]; it neither returns the empty list
    nor an error. *)
Theorem filterByNameRegex_invalid_pattern_panics
    (vmList : list VirtualMachine) (nameRegex : string) :
  Compile nameRegex = None ->
  vmList <> [] ->
  resultOf (filterByNameRegex vmList nameRegex) = Panic.
Proof. exact (filterByNameRegex_nil_regexp_panics vmList nameRegex). Qed.

(** With no candidate the loop body never runs and the list is empty. *)
Lemma filterByNameRegex_invalid_pattern_nil (nameRegex : string) :
  resultOf (filterByNameRegex [] nameRegex) = Ret [].
Proof. reflexivity. Qed.

End NameRegex.

Lemma filterByNameRegex_invalid_pattern_panics_witness :
  @Compile Sim.plainRegexp "(" = None /\
  [Sim.vm "vm-1" "web-1"] <> [] /\
  resultOf (@filterByNameRegex Sim.plainRegexp [Sim.vm "vm-1" "web-1"] "(")
  = Panic.
Proof.
  split; [reflexivity |]. split; [discriminate |].
  apply (@filterByNameRegex_invalid_pattern_panics Sim.plainRegexp);
    [reflexivity | discriminate].
Defined.

(** ** Every stage narrows the list *)

Ltac bind_inv H :=
  let a := fresh "a" in
  let Ha := fresh "Ha" in
  apply bind_Ret_inv in H; destruct H as (a & Ha & H).

Lemma Ret_inj {A : Type} (a b : A) : Ret a = Ret b -> a = b.
Proof. congruence. Qed.

Lemma resultOf_ret {A : Type} (a b : A) : resultOf (ret a) = Ret b -> a = b.
Proof. apply Ret_inj. Qed.

Section Narrowing.

Context {RE : RegexpLib}.

Lemma filterByNameRegex_loop_kept (re : option Regexp)
    (vmList acc out : list VirtualMachine) :
  resultOf (filterByNameRegex_loop re vmList acc) = Ret out ->
  exists kept, out = acc ++ kept /\ length kept <= length vmList.
Proof.
  revert acc. induction vmList as [| i rest IH]; intros acc H; simpl in H.
  - apply resultOf_ret in H. exists []. now rewrite app_nil_r.
  - destruct re as [r |]; [| discriminate].
    destruct (MatchString r (vmName i)).
    + destruct (IH _ H) as (kept & -> & Hlen). exists (i :: kept).
      rewrite <- app_assoc. simpl. split; [reflexivity | lia].
    + destruct (IH _ H) as (kept & -> & Hlen). exists kept.
      split; [reflexivity | simpl; lia].
Qed.

Lemma filterByTemplate_loop_kept (dr : VCenterDriver)
    (vmList acc out : list VirtualMachine) :
  resultOf (filterByTemplate_loop dr vmList acc) = Ret out ->
  exists kept, out = acc ++ kept /\ length kept <= length vmList.
Proof.
  revert acc. induction vmList as [| i rest IH]; intros acc H; simpl in H.
  - apply resultOf_ret in H. exists []. now rewrite app_nil_r.
  - bind_inv H. destruct a.
    + destruct (IH _ H) as (kept & -> & Hlen). exists (i :: kept).
      rewrite <- app_assoc. simpl. split; [reflexivity | lia].
    + destruct (IH _ H) as (kept & -> & Hlen). exists kept.
      split; [reflexivity | simpl; lia].
Qed.

Lemma filterByTags_loop_kept (dr : VCenterDriver) (vmTags : list Tag)
    (vmList acc out : list VirtualMachine) :
  resultOf (filterByTags_loop dr vmTags vmList acc) = Ret out ->
  exists kept, out = acc ++ kept /\ length kept <= length vmList.
Proof.
  revert acc. induction vmList as [| i rest IH]; intros acc H; simpl in H.
  - apply resultOf_ret in H. exists []. now rewrite app_nil_r.
  - bind_inv H. bind_inv H.
    destruct (a0 =? length vmTags)%nat.
    + destruct (IH _ H) as (kept & -> & Hlen). exists (i :: kept).
      rewrite <- app_assoc. simpl. split; [reflexivity | lia].
    + destruct (IH _ H) as (kept & -> & Hlen). exists kept.
      split; [reflexivity | simpl; lia].
Qed.

(** A machine whose name no machine of the host bears is not appended. *)
Lemma filterByHost_inner_absent (v : VirtualMachine) (hostVms : list string)
    (acc : list VirtualMachine) :
  ~ In (vmName v) hostVms -> filterByHost_inner v hostVms acc = acc.
Proof.
  revert acc. induction hostVms as [| h rest IH]; intros acc Hn; simpl.
  - reflexivity.
  - destruct (String.eqb_spec (vmName v) h) as [E | Hne].
    + exfalso. apply Hn. left. now symmetry.
    + apply IH. intros Hin. apply Hn. now right.
Qed.

(** With distinct names on the host a machine is appended at most once. *)
Lemma filterByHost_inner_length (v : VirtualMachine) (hostVms : list string)
    (acc : list VirtualMachine) :
  NoDup hostVms ->
  length (filterByHost_inner v hostVms acc) <= S (length acc).
Proof.
  revert acc. induction hostVms as [| h rest IH]; intros acc Hnd; simpl.
  - lia.
  - inversion Hnd as [| ? ? Hnotin Hnd']; subst.
    destruct (String.eqb_spec (vmName v) h) as [E | Hne].
    + rewrite <- E in Hnotin.
      rewrite filterByHost_inner_absent by assumption.
      rewrite length_app. simpl. lia.
    + now apply IH.
Qed.

Lemma filterByHost_loop_length (hostVms : list string)
    (vmList acc : list VirtualMachine) :
  NoDup hostVms ->
  length (filterByHost_loop hostVms vmList acc)
  <= length acc + length vmList.
Proof.
  intros Hnd. revert acc.
  induction vmList as [| v rest IH]; intros acc; simpl.
  - lia.
  - specialize (IH (filterByHost_inner v hostVms acc)).
    pose proof (filterByHost_inner_length v hostVms acc Hnd). lia.
Qed.

Lemma filterByHost_Ret (dr : VCenterDriver) (cfg : Config)
    (vmList out : list VirtualMachine) :
  resultOf (filterByHost dr cfg vmList) = Ret out ->
  exists hostVms,
    hostVmNames dr cfg hostVms /\ out = filterByHost_loop hostVms vmList [].
Proof.
  unfold filterByHost. intros H.
  bind_inv H. bind_inv H. bind_inv H. bind_inv H.
  apply resultOf_wrap_Ret, resultOf_remote_Ret in Ha0.
  apply resultOf_wrap_Ret, resultOf_remote_Ret in Ha1.
  apply resultOf_wrap_Ret, resultOf_remote_Ret in Ha2.
  apply resultOf_ret in H. exists a2. split; [| now symmetry].
  now exists a0, a1.
Qed.

Lemma filterByLatest_Ret (dr : VCenterDriver)
    (vmList : list VirtualMachine) (out : list (option VirtualMachine)) :
  resultOf (filterByLatest dr vmList) = Ret out ->
  exists latestVM,
    resultOf (filterByLatest_loop dr vmList None zeroTime) = Ret latestVM /\
    out = [latestVM].
Proof.
  unfold filterByLatest. intros H. bind_inv H. bind_inv H.
  apply resultOf_ret in H. now exists a0.
Qed.

(** X27: a stage that returns a list returns one that is no
    longer than its input; for the host stage when the machines of the
    host bear distinct names, for the latest-selection stage (whose output
    always has one element) when its input is not empty. *)
Theorem stage_output_no_longer (s : stage) (dr : VCenterDriver)
    (cfg : Config) (vmList : list VirtualMachine) (n : nat) :
  resultOf (stageOutputLength s dr cfg vmList) = Ret n ->
  narrowingCondition s dr cfg vmList ->
  n <= length vmList.
Proof.
  intros H Hc. destruct s; unfold stageOutputLength in H; bind_inv H;
    apply resultOf_ret in H; subst n.
  - unfold filterByNameRegex in Ha. bind_inv Ha.
    apply filterByNameRegex_loop_kept in Ha. now destruct Ha as (k & -> & Hk).
  - unfold filterByTemplate in Ha. bind_inv Ha.
    apply filterByTemplate_loop_kept in Ha. now destruct Ha as (k & -> & Hk).
  - apply filterByHost_Ret in Ha. destruct Ha as (names & Hn & ->).
    apply (filterByHost_loop_length names vmList []). now apply Hc.
  - unfold filterByTags in Ha. bind_inv Ha.
    apply filterByTags_loop_kept in Ha. now destruct Ha as (k & -> & Hk).
  - apply filterByLatest_Ret in Ha. destruct Ha as (w & _ & ->).
    simpl in Hc. destruct vmList; [congruence | simpl; lia].
Qed.

(** The latest-selection stage returns one element whatever it is given. *)
Lemma filterByLatest_one_element (dr : VCenterDriver)
    (vmList : list VirtualMachine) (out : list (option VirtualMachine)) :
  resultOf (filterByLatest dr vmList) = Ret out -> length out = 1.
Proof.
  intros H. apply filterByLatest_Ret in H. now destruct H as (w & _ & ->).
Qed.

End Narrowing.

Lemma stage_output_no_longer_witness :
  resultOf (@stageOutputLength Sim.plainRegexp HostStage
              (Sim.simDriver Sim.twoTagged)
              (Sim.withHost "esx-1" Sim.baseConfig)
              [Sim.vm "vm-1" "web-1"; Sim.vm "vm-9" "db-1"])
  = Ret 1 /\
  1 <= length [Sim.vm "vm-1" "web-1"; Sim.vm "vm-9" "db-1"].
Proof.
  split; [reflexivity |].
  apply (@stage_output_no_longer Sim.plainRegexp HostStage
           (Sim.simDriver Sim.twoTagged)
           (Sim.withHost "esx-1" Sim.baseConfig)
           [Sim.vm "vm-1" "web-1"; Sim.vm "vm-9" "db-1"] 1).
  - reflexivity.
  - intros hostVms (obj & hostVm & Ho & Hv & Hn).
    vm_compute in Ho. injection Ho as <-.
    vm_compute in Hv. injection Hv as <-.
    vm_compute in Hn. injection Hn as <-.
    repeat constructor; simpl; intuition discriminate.
Defined.

(** ** The latest-selection stage *)

Section Latest.

Variable dr : VCenterDriver.

(** One iteration on a machine whose creation date is there. *)
Lemma filterByLatest_loop_dated (v : VirtualMachine)
    (rest : list VirtualMachine) (cur : option VirtualMachine)
    (ts t : Time) :
  creationTime dr v = Some t ->
  resultOf (filterByLatest_loop dr (v :: rest) cur ts) =
  resultOf (if After t ts
            then filterByLatest_loop dr rest (Some v) t
            else filterByLatest_loop dr rest cur ts).
Proof.
  unfold creationTime. intros H.
  destruct (Properties dr v) as [c |] eqn:Hp; [| discriminate].
  destruct (moConfig c) as [info |] eqn:Hc; [| discriminate].
  simpl. rewrite (bind_Ret _ _ c).
  - now rewrite Hc, H.
  - apply resultOf_wrap_Ret, resultOf_remote_Ret. exact Hp.
Qed.

(** One iteration on a machine whose properties are fetched but whose
    [Config] or [CreateDate] is nil. *)
Lemma filterByLatest_loop_undated (v : VirtualMachine)
    (rest : list VirtualMachine) (cur : option VirtualMachine) (ts : Time)
    (c : moVirtualMachine) :
  Properties dr v = Ok c ->
  creationTime dr v = None ->
  resultOf (filterByLatest_loop dr (v :: rest) cur ts) = Panic.
Proof.
  unfold creationTime. intros Hp H. rewrite Hp in H.
  simpl. rewrite (bind_Ret _ _ c).
  - destruct (moConfig c) as [info |]; [| reflexivity].
    now rewrite H.
  - apply resultOf_wrap_Ret, resultOf_remote_Ret. exact Hp.
Qed.

(** No machine is newer than the timestamp kept so far: the loop leaves
    the pointer as it was. *)
Lemma filterByLatest_loop_none_newer (l : list VirtualMachine)
    (cur : option VirtualMachine) (ts : Time) :
  (forall u, In u l ->
     exists tu, creationTime dr u = Some tu /\ (tu <= ts)%Z) ->
  resultOf (filterByLatest_loop dr l cur ts) = Ret cur.
Proof.
  induction l as [| v rest IH]; intros H.
  - reflexivity.
  - destruct (H v (or_introl eq_refl)) as (t & Ht & Hle).
    rewrite (filterByLatest_loop_dated v rest cur ts t Ht).
    unfold After. destruct (Z.ltb_spec ts t) as [Hlt | _]; [lia |].
    apply IH. intros u Hu. apply H. now right.
Qed.

(** The loop on dated machines: either none is newer than the timestamp
    it starts from and the pointer is unchanged, or it ends on the first
    of the newest ones. *)
Lemma filterByLatest_loop_spec (l : list VirtualMachine)
    (cur : option VirtualMachine) (ts : Time) :
  (forall u, In u l -> exists tu, creationTime dr u = Some tu) ->
  ((forall u, In u l ->
      exists tu, creationTime dr u = Some tu /\ (tu <= ts)%Z) /\
   resultOf (filterByLatest_loop dr l cur ts) = Ret cur)
  \/
  (exists pre w post t,
     l = pre ++ w :: post /\
     creationTime dr w = Some t /\ (ts < t)%Z /\
     (forall u, In u pre ->
        exists tu, creationTime dr u = Some tu /\ (tu < t)%Z) /\
     (forall u, In u post ->
        exists tu, creationTime dr u = Some tu /\ (tu <= t)%Z) /\
     resultOf (filterByLatest_loop dr l cur ts) = Ret (Some w)).
Proof.
  revert cur ts. induction l as [| v rest IH]; intros cur ts Hd.
  - left. split; [intros u [] | reflexivity].
  - destruct (Hd v (or_introl eq_refl)) as (t & Ht).
    assert (Hd' : forall u, In u rest ->
                    exists tu, creationTime dr u = Some tu)
      by (intros u Hu; apply Hd; now right).
    rewrite (filterByLatest_loop_dated v rest cur ts t Ht).
    unfold After. destruct (Z.ltb_spec ts t) as [Hlt | Hge].
    + right. destruct (IH (Some v) t Hd') as
        [[Hall Hres] | (pre & w & post & tw & -> & Hw & Hlt' & Hpre & Hpost & Hres)].
      * exists [], v, rest, t. simpl. repeat split; auto.
        intros u [].
      * exists (v :: pre), w, post, tw. simpl. repeat split; auto; try lia.
        intros u [<- | Hu]; [| now apply Hpre].
        exists t. split; [assumption | lia].
    + destruct (IH cur ts Hd') as
        [[Hall Hres] | (pre & w & post & tw & -> & Hw & Hlt' & Hpre & Hpost & Hres)].
      * left. split; [| assumption].
        intros u [<- | Hu]; [| now apply Hall].
        exists t. split; [assumption | lia].
      * right. exists (v :: pre), w, post, tw. simpl.
        repeat split; auto.
        intros u [<- | Hu]; [| now apply Hpre].
        exists t. split; [assumption | lia].
Qed.

Lemma resultOf_filterByLatest (l : list VirtualMachine)
    (latestVM : option VirtualMachine) :
  resultOf (filterByLatest_loop dr l None zeroTime) = Ret latestVM ->
  resultOf (filterByLatest dr l) = Ret [latestVM].
Proof.
  intros H. unfold filterByLatest.
  rewrite (bind_Ret _ _ tt) by reflexivity.
  now rewrite (bind_Ret _ _ _ H).
Qed.

(** On dated machines of which one is newer than the zero time, the
    stage returns the first of the newest. *)
Lemma filterByLatest_dated (l : list VirtualMachine) :
  (forall u, In u l -> exists tu, creationTime dr u = Some tu) ->
  (exists v t, In v l /\ creationTime dr v = Some t /\ (zeroTime < t)%Z) ->
  exists w,
    firstLatest dr l w /\ resultOf (filterByLatest dr l) = Ret [Some w].
Proof.
  intros Hd (v & t & Hv & Ht & Hpos).
  destruct (filterByLatest_loop_spec l None zeroTime Hd) as
    [[Hall _] | (pre & w & post & tw & Hl & Hw & _ & Hpre & Hpost & Hres)].
  - destruct (Hall v Hv) as (t' & Ht' & Hle). rewrite Ht in Ht'.
    injection Ht' as <-. lia.
  - exists w. split.
    + now exists pre, post, tw.
    + now apply resultOf_filterByLatest.
Qed.

(** No machine is newer than the zero time: the pointer stays nil. *)
Lemma filterByLatest_none_newer (l : list VirtualMachine) :
  (forall u, In u l ->
     exists tu, creationTime dr u = Some tu /\ (tu <= zeroTime)%Z) ->
  resultOf (filterByLatest dr l) = Ret [None].
Proof.
  intros H. apply resultOf_filterByLatest.
  now apply filterByLatest_loop_none_newer.
Qed.

(** X26: when the creation date of every candidate is fetched
    and present and one of them is after the zero time, the stage returns
    the list of one element that holds the first candidate, in the order
    of the list, that has the latest creation date. *)
Theorem filterByLatest_returns_first_latest (l : list VirtualMachine) :
  (forall u, In u l -> exists tu, creationTime dr u = Some tu) ->
  (exists v t, In v l /\ creationTime dr v = Some t /\ (zeroTime < t)%Z) ->
  exists w,
    firstLatest dr l w /\ resultOf (filterByLatest dr l) = Ret [Some w].
Proof. exact (filterByLatest_dated l). Qed.

(** C6, on the code: when the creation date of every candidate is the
    zero time, no comparison succeeds, [latestVM] stays nil, and the one
    element of the list returned is that nil pointer, not a candidate. *)
Theorem filterByLatest_all_zero_returns_nil (l : list VirtualMachine) :
  (forall u, In u l -> creationTime dr u = Some zeroTime) ->
  resultOf (filterByLatest dr l) = Ret [None].
Proof.
  intros H. apply filterByLatest_none_newer.
  intros u Hu. exists zeroTime. split; [now apply H | reflexivity].
Qed.

(** And when the first candidate has no creation date, the stage panics. *)
Lemma filterByLatest_first_undated_panics (v : VirtualMachine)
    (rest : list VirtualMachine) (c : moVirtualMachine) :
  Properties dr v = Ok c ->
  creationTime dr v = None ->
  resultOf (filterByLatest dr (v :: rest)) = Panic.
Proof.
  intros Hp Hn. unfold filterByLatest.
  rewrite (bind_Ret _ _ tt) by reflexivity.
  rewrite resultOf_bind.
  now rewrite (filterByLatest_loop_undated v rest None zeroTime c Hp Hn).
Qed.

End Latest.

Lemma filterByLatest_returns_first_latest_witness :
  exists w,
    firstLatest (Sim.simDriver Sim.sameNameTwice)
      [Sim.vm "vm-1" "web"; Sim.vm "vm-2" "web"] w /\
    resultOf (filterByLatest (Sim.simDriver Sim.sameNameTwice)
                [Sim.vm "vm-1" "web"; Sim.vm "vm-2" "web"])
    = Ret [Some w].
Proof.
  apply (filterByLatest_returns_first_latest
           (Sim.simDriver Sim.sameNameTwice)
           [Sim.vm "vm-1" "web"; Sim.vm "vm-2" "web"]).
  - intros u [<- | [<- | []]]; eexists; reflexivity.
  - exists (Sim.vm "vm-2" "web"), 20%Z.
    split; [simpl; auto |]. split; [reflexivity | reflexivity].
Defined.

Lemma filterByLatest_all_zero_returns_nil_witness :
  resultOf (filterByLatest (Sim.simDriver Sim.twoUndated)
              [Sim.vm "vm-1" "web-1"; Sim.vm "vm-2" "web-2"])
  = Ret [None].
Proof.
  apply (filterByLatest_all_zero_returns_nil
           (Sim.simDriver Sim.twoUndated)
           [Sim.vm "vm-1" "web-1"; Sim.vm "vm-2" "web-2"]).
  intros u [<- | [<- | []]]; reflexivity.
Defined.

(** ** The final cardinality rule of Execute *)

Section Cardinality.

Context {RE : RegexpLib}.
Variable NewDriver : ConnectConfig -> reply VCenterDriver.

(** Once the driver is there and the filters have run, [Execute] ends as
    the last part of its body does on the machines that are left. *)
Lemma Execute_selectOne (d : Datasource) (dr : VCenterDriver)
    (survivors : list VirtualMachine) :
  NewDriver (connect (config d)) = Ok dr ->
  resultOf (filterChain dr (config d)) = Ret survivors ->
  resultOf (Execute NewDriver d) = resultOf (selectOne dr (config d) survivors).
Proof.
  intros Hdr Hs. unfold Execute.
  rewrite (bind_Ret _ _ dr)
    by (apply resultOf_wrap_Ret, resultOf_remote_Ret; exact Hdr).
  now rewrite (bind_Ret _ _ survivors Hs).
Qed.

Lemma traceOf_Execute (d : Datasource) (dr : VCenterDriver)
    (survivors : list VirtualMachine) :
  NewDriver (connect (config d)) = Ok dr ->
  resultOf (filterChain dr (config d)) = Ret survivors ->
  traceOf (Execute NewDriver d) =
  CallNewDriver :: traceOf (filterChain dr (config d))
                   ++ traceOf (selectOne dr (config d) survivors).
Proof.
  intros Hdr Hs. unfold Execute.
  rewrite (traceOf_bind_Ret _ _ dr)
    by (apply resultOf_wrap_Ret, resultOf_remote_Ret; exact Hdr).
  rewrite traceOf_wrap. now rewrite (traceOf_bind_Ret _ _ survivors Hs).
Qed.

Lemma selectOne_none (dr : VCenterDriver) (cfg : Config) :
  resultOf (selectOne dr cfg []) =
  Err "no virtual machine matches the filters".
Proof. reflexivity. Qed.

Lemma selectOne_one (dr : VCenterDriver) (cfg : Config)
    (v : VirtualMachine) :
  resultOf (selectOne dr cfg [v]) = Ret {| VmName := vmName v |}.
Proof. reflexivity. Qed.

Lemma selectOne_many (dr : VCenterDriver) (cfg : Config)
    (l : list VirtualMachine) :
  2 <= length l ->
  selectOne dr cfg l =
  (filteredVms <-
     (if Latest cfg
      then wrap "failed to find the latest virtual machine"
             (filterByLatest dr l)
      else fail (errors_New
                   "more than one virtual machine matched the filters")) ;;
   firstName filteredVms).
Proof.
  intros Hlen. destruct l as [| a [| b rest]]; simpl in Hlen; try lia.
  reflexivity.
Qed.

Lemma selectOne_many_not_latest (dr : VCenterDriver) (cfg : Config)
    (l : list VirtualMachine) :
  2 <= length l ->
  Latest cfg = false ->
  resultOf (selectOne dr cfg l) =
  Err "more than one virtual machine matched the filters".
Proof.
  intros Hlen Hl. rewrite selectOne_many by assumption. now rewrite Hl.
Qed.

Lemma selectOne_many_latest (dr : VCenterDriver) (cfg : Config)
    (l : list VirtualMachine) (latestVM : option VirtualMachine) :
  2 <= length l ->
  Latest cfg = true ->
  resultOf (filterByLatest dr l) = Ret [latestVM] ->
  resultOf (selectOne dr cfg l) = resultOf (firstName [latestVM]).
Proof.
  intros Hlen Hl Hr. rewrite selectOne_many by assumption. rewrite Hl.
  apply bind_Ret. now apply resultOf_wrap_Ret.
Qed.

Lemma selectOne_many_latest_enters (dr : VCenterDriver) (cfg : Config)
    (l : list VirtualMachine) :
  2 <= length l ->
  Latest cfg = true ->
  In (Enter LatestStage l) (traceOf (selectOne dr cfg l)).
Proof.
  intros Hlen Hl. rewrite selectOne_many by assumption. rewrite Hl.
  rewrite traceOf_bind, traceOf_wrap. apply in_or_app. left.
  unfold filterByLatest. rewrite traceOf_bind. now left.
Qed.

(** X25: after the filters have run, no machine left is the error
    "no virtual machine matches the filters"; one machine left is a
    success with its name; several machines left without [Latest] is the
    error "more than one virtual machine matched the filters"; several
    machines left with [Latest] go through the latest-selection stage, and
    when the creation date of each is fetched and present and one of them
    is after the zero time, [Execute] succeeds with the name of the first
    of the machines that have the latest creation date. *)
Theorem Execute_cardinality (d : Datasource) (dr : VCenterDriver)
    (survivors : list VirtualMachine) :
  NewDriver (connect (config d)) = Ok dr ->
  resultOf (filterChain dr (config d)) = Ret survivors ->
  (survivors = [] ->
   resultOf (Execute NewDriver d) =
   Err "no virtual machine matches the filters") /\
  (forall v, survivors = [v] ->
   resultOf (Execute NewDriver d) = Ret {| VmName := vmName v |}) /\
  (2 <= length survivors -> Latest (config d) = false ->
   resultOf (Execute NewDriver d) =
   Err "more than one virtual machine matched the filters") /\
  (2 <= length survivors -> Latest (config d) = true ->
   In (Enter LatestStage survivors) (traceOf (Execute NewDriver d)) /\
   ((forall u, In u survivors -> exists tu, creationTime dr u = Some tu) ->
    (exists v t,
       In v survivors /\ creationTime dr v = Some t /\ (zeroTime < t)%Z) ->
    exists w,
      firstLatest dr survivors w /\
      resultOf (Execute NewDriver d) = Ret {| VmName := vmName w |})).
Proof.
  intros Hdr Hs. rewrite (Execute_selectOne d dr survivors Hdr Hs).
  repeat split.
  - intros ->. apply selectOne_none.
  - intros v ->. apply selectOne_one.
  - apply selectOne_many_not_latest.
  - rewrite (traceOf_Execute d dr survivors Hdr Hs). right.
    apply in_or_app. right. now apply selectOne_many_latest_enters.
  - intros Hd Hpos.
    destruct (filterByLatest_dated dr survivors Hd Hpos)
      as (w & Hw & Hr).
    exists w. split; [assumption |].
    now rewrite (selectOne_many_latest dr (config d) survivors (Some w)).
Qed.

(** C8, amended: when no machine is left after the filters, [Execute]
    fails, and the message is "no virtual machine matches the filters". *)
Theorem Execute_no_match_message (d : Datasource) (dr : VCenterDriver) :
  NewDriver (connect (config d)) = Ok dr ->
  resultOf (filterChain dr (config d)) = Ret [] ->
  resultOf (Execute NewDriver d) =
  Err "no virtual machine matches the filters".
Proof.
  intros Hdr Hs. rewrite (Execute_selectOne d dr [] Hdr Hs).
  apply selectOne_none.
Qed.

(** X19: with [Latest] set and several machines left whose creation date
    is the zero time, the latest-selection stage returns a nil pointer
    and [Execute] panics on [filteredVms[0].Name()]. *)
Lemma Execute_latest_nil_panics (d : Datasource) (dr : VCenterDriver)
    (survivors : list VirtualMachine) :
  NewDriver (connect (config d)) = Ok dr ->
  resultOf (filterChain dr (config d)) = Ret survivors ->
  2 <= length survivors ->
  Latest (config d) = true ->
  (forall u, In u survivors -> creationTime dr u = Some zeroTime) ->
  resultOf (Execute NewDriver d) = Panic.
Proof.
  intros Hdr Hs Hlen Hl Hz. rewrite (Execute_selectOne d dr survivors Hdr Hs).
  rewrite (selectOne_many_latest dr (config d) survivors None);
    try assumption; [reflexivity |].
  apply filterByLatest_none_newer.
  intros u Hu. exists zeroTime. split; [now apply Hz | reflexivity].
Qed.

End Cardinality.

Lemma Execute_cardinality_witness :
  let d := {| config := Sim.withLatest true Sim.baseConfig |} in
  let survivors := [Sim.vm "vm-1" "web-1"; Sim.vm "vm-2" "web-2"] in
  let run := @Execute Sim.plainRegexp (Sim.simNewDriver Sim.twoTagged) d in
  (survivors = [] ->
   resultOf run = Err "no virtual machine matches the filters") /\
  (forall v, survivors = [v] ->
   resultOf run = Ret {| VmName := vmName v |}) /\
  (2 <= length survivors -> Latest (config d) = false ->
   resultOf run = Err "more than one virtual machine matched the filters") /\
  (2 <= length survivors -> Latest (config d) = true ->
   In (Enter LatestStage survivors) (traceOf run) /\
   ((forall u, In u survivors ->
       exists tu, creationTime (Sim.simDriver Sim.twoTagged) u = Some tu) ->
    (exists v t,
       In v survivors /\
       creationTime (Sim.simDriver Sim.twoTagged) v = Some t /\
       (zeroTime < t)%Z) ->
    exists w,
      firstLatest (Sim.simDriver Sim.twoTagged) survivors w /\
      resultOf run = Ret {| VmName := vmName w |})).
Proof.
  apply (@Execute_cardinality Sim.plainRegexp
           (Sim.simNewDriver Sim.twoTagged)
           {| config := Sim.withLatest true Sim.baseConfig |}
           (Sim.simDriver Sim.twoTagged)
           [Sim.vm "vm-1" "web-1"; Sim.vm "vm-2" "web-2"]);
    reflexivity.
Defined.

(** C8, as stated, fails: the message is not the one of the
    specification. *)
Lemma Execute_no_match_message_counterexample :
  resultOf (@filterChain Sim.plainRegexp (Sim.simDriver Sim.twoTagged)
              (Sim.withNameRegex "db" Sim.baseConfig))
  = Ret [] /\
  resultOf (@Execute Sim.plainRegexp (Sim.simNewDriver Sim.twoTagged)
              {| config := Sim.withNameRegex "db" Sim.baseConfig |})
  <> Err "no virtual machine matches the configured filters".
Proof. split; [reflexivity | discriminate]. Qed.

Lemma Execute_no_match_message_witness :
  resultOf (@Execute Sim.plainRegexp (Sim.simNewDriver Sim.twoTagged)
              {| config := Sim.withNameRegex "db" Sim.baseConfig |})
  = Err "no virtual machine matches the filters".
Proof.
  apply (@Execute_no_match_message Sim.plainRegexp
           (Sim.simNewDriver Sim.twoTagged)
           {| config := Sim.withNameRegex "db" Sim.baseConfig |}
           (Sim.simDriver Sim.twoTagged));
    reflexivity.
Defined.

(** ** Which stages run *)

Section Stages.

Context {RE : RegexpLib}.


Lemma filterByNameRegex_loop_silent (re : option Regexp)
    (vmList acc : list VirtualMachine) :
  traceOf (filterByNameRegex_loop re vmList acc) = [].
Proof.
  revert acc. induction vmList as [| i rest IH]; intros acc; simpl.
  - reflexivity.
  - destruct re as [r |]; [| reflexivity].
    destruct (MatchString r (vmName i)); apply IH.
Qed.


















(** *** The events of a stage *)

Lemma traceIn_bind {A B : Type} (P : event -> Prop) (m : M A)
    (f : A -> M B) :
  traceIn P m ->
  (forall a, resultOf m = Ret a -> traceIn P (f a)) ->
  traceIn P (bind m f).
Proof.
  intros Hm Hf e H. apply In_traceOf_bind in H.
  destruct H as [H | (a & Ha & H)]; [now apply Hm | now apply (Hf a)].
Qed.

Lemma traceIn_wrap {A : Type} (P : event -> Prop) (prefix : string)
    (m : M A) :
  traceIn P m -> traceIn P (wrap prefix m).
Proof. intros Hm e H. rewrite traceOf_wrap in H. now apply Hm. Qed.

Lemma traceIn_remote {A : Type} (P : event -> Prop) (ev : event)
    (r : reply A) :
  P ev -> traceIn P (remote ev r).
Proof. intros Hp e [<- | []]. exact Hp. Qed.

Lemma traceIn_silent {A : Type} (P : event -> Prop) (m : M A) :
  traceOf m = [] -> traceIn P m.
Proof. intros Hm e H. rewrite Hm in H. destruct H. Qed.

Lemma traceIn_enter (P : event -> Prop) (s : stage)
    (l : list VirtualMachine) :
  P (Enter s l) -> traceIn P (enter s l).
Proof. intros Hp e [<- | []]. exact Hp. Qed.

Ltac trace_enter :=
  apply traceIn_bind; [apply traceIn_enter; reflexivity | intros _ _].
Ltac trace_remote x :=
  apply traceIn_bind;
  [apply traceIn_wrap, traceIn_remote; reflexivity | intros x _].
Ltac trace_done := apply traceIn_silent; reflexivity.

Lemma filterByNameRegex_events (vmList : list VirtualMachine)
    (nameRegex : string) :
  traceIn (fun e => eventStage e = Some NameRegexStage)
    (filterByNameRegex vmList nameRegex).
Proof.
  unfold filterByNameRegex. trace_enter.
  apply traceIn_silent, filterByNameRegex_loop_silent.
Qed.

Lemma filterByTemplate_events (dr : VCenterDriver)
    (vmList : list VirtualMachine) :
  traceIn (fun e => eventStage e = Some TemplateStage)
    (filterByTemplate dr vmList).
Proof.
  unfold filterByTemplate. trace_enter.
  generalize (@nil VirtualMachine).
  induction vmList as [| i rest IH]; intros acc; simpl.
  - trace_done.
  - trace_remote b. destruct b; apply IH.
Qed.

Lemma filterByHost_events (dr : VCenterDriver) (cfg : Config)
    (vmList : list VirtualMachine) :
  traceIn (fun e => eventStage e = Some HostStage)
    (filterByHost dr cfg vmList).
Proof.
  unfold filterByHost. trace_enter.
  trace_remote obj. trace_remote hostVm. trace_remote hostVms. trace_done.
Qed.

Lemma filterByTags_scan_events (dr : VCenterDriver) (configTag : Tag)
    (realTagsList : list AttachedTag) :
  traceIn (fun e => eventStage e = Some TagsStage)
    (filterByTags_scan dr configTag realTagsList).
Proof.
  induction realTagsList as [| realTag rest IH]; simpl.
  - trace_done.
  - destruct (tagName configTag =? atName realTag)%string; [| exact IH].
    trace_remote category.
    destruct (tagCategory configTag =? catName category)%string;
      [trace_done | exact IH].
Qed.

Lemma filterByTags_count_events (dr : VCenterDriver) (vmTags : list Tag)
    (realTagsList : list AttachedTag) (n : nat) :
  traceIn (fun e => eventStage e = Some TagsStage)
    (filterByTags_count dr vmTags realTagsList n).
Proof.
  revert n. induction vmTags as [| configTag rest IH]; intros n; simpl.
  - trace_done.
  - apply traceIn_bind; [apply filterByTags_scan_events |].
    intros b _. destruct b; [apply IH | trace_done].
Qed.

Lemma filterByTags_events (dr : VCenterDriver) (vmTags : list Tag)
    (vmList : list VirtualMachine) :
  traceIn (fun e => eventStage e = Some TagsStage)
    (filterByTags dr vmTags vmList).
Proof.
  unfold filterByTags. trace_enter.
  generalize (@nil VirtualMachine).
  induction vmList as [| v rest IH]; intros acc; simpl.
  - trace_done.
  - trace_remote realTagsList.
    apply traceIn_bind; [apply filterByTags_count_events |].
    intros n _. destruct (n =? length vmTags)%nat; apply IH.
Qed.

Lemma filterByLatest_events (dr : VCenterDriver)
    (vmList : list VirtualMachine) :
  traceIn (fun e => eventStage e = Some LatestStage)
    (filterByLatest dr vmList).
Proof.
  unfold filterByLatest. trace_enter.
  apply traceIn_bind; [| intros ? _; trace_done].
  generalize (@None VirtualMachine) zeroTime.
  induction vmList as [| v rest IH]; intros cur ts; simpl.
  - trace_done.
  - trace_remote vmConfig.
    destruct (moConfig vmConfig) as [info |]; [| trace_done].
    destruct (CreateDate info) as [t |]; [| trace_done].
    destruct (After t ts); apply IH.
Qed.

Lemma traceIn_weaken {A : Type} (P Q : event -> Prop) (m : M A) :
  (forall e, P e -> Q e) -> traceIn P m -> traceIn Q m.
Proof. intros Hpq Hm e H. apply Hpq. now apply Hm. Qed.

Lemma regexStep_events (cfg : Config) (vmList : list VirtualMachine) :
  traceIn (stepEvents cfg NameRegexStage) (regexStep cfg vmList).
Proof.
  unfold regexStep.
  destruct (negb (NameRegex cfg =? "")%string) eqn:Hc; [| trace_done].
  apply traceIn_weaken with (2 := filterByNameRegex_events _ _).
  intros e He. now split.
Qed.

Lemma templateStep_events (dr : VCenterDriver) (cfg : Config)
    (vmList : list VirtualMachine) :
  traceIn (stepEvents cfg TemplateStage) (templateStep dr cfg vmList).
Proof.
  unfold templateStep.
  destruct ((0 <? length vmList)%nat && Template cfg) eqn:Hc; [| trace_done].
  apply andb_true_iff in Hc. destruct Hc as [_ Hc]. apply traceIn_wrap.
  apply traceIn_weaken with (2 := filterByTemplate_events _ _).
  intros e He. now split.
Qed.

Lemma hostStep_events (dr : VCenterDriver) (cfg : Config)
    (vmList : list VirtualMachine) :
  traceIn (stepEvents cfg HostStage) (hostStep dr cfg vmList).
Proof.
  unfold hostStep.
  destruct ((0 <? length vmList)%nat && negb (Host cfg =? "")%string) eqn:Hc;
    [| trace_done].
  apply andb_true_iff in Hc. destruct Hc as [_ Hc]. apply traceIn_wrap.
  apply traceIn_weaken with (2 := filterByHost_events _ _ _).
  intros e He. now split.
Qed.

Lemma tagsStep_events (dr : VCenterDriver) (cfg : Config)
    (vmList : list VirtualMachine) :
  traceIn (stepEvents cfg TagsStage) (tagsStep dr cfg vmList).
Proof.
  unfold tagsStep.
  destruct ((0 <? length vmList)%nat
            && match Tags cfg with Some _ => true | None => false end) eqn:Hc;
    [| trace_done].
  apply andb_true_iff in Hc. destruct Hc as [_ Hc]. apply traceIn_wrap.
  apply traceIn_weaken with (2 := filterByTags_events _ _ _).
  intros e He. now split.
Qed.

Lemma selectOne_events (dr : VCenterDriver) (cfg : Config)
    (vmList : list VirtualMachine) :
  traceIn (stepEvents cfg LatestStage) (selectOne dr cfg vmList).
Proof.
  destruct vmList as [| a [| b rest]]; try (intros e []).
  rewrite selectOne_many by (simpl; lia).
  apply traceIn_bind.
  - destruct (Latest cfg) eqn:Hl; [| intros e []].
    apply traceIn_wrap.
    apply traceIn_weaken with (2 := filterByLatest_events _ _).
    intros e He. now split.
  - intros out _. destruct out as [| [w |] rest']; intros e [].
Qed.


(** The tag stage does run, on the list that is left, when that list is
    not empty and the tag slice is not nil. *)
Lemma filterChain_enters_tags (dr : VCenterDriver) (cfg : Config)
    (tags : list Tag) (l : list VirtualMachine) :
  Tags cfg = Some tags ->
  resultOf (candidatesBeforeTags dr cfg) = Ret l ->
  l <> [] ->
  In (Enter TagsStage l) (traceOf (filterChain dr cfg)).
Proof.
  intros Ht Hl Hne. unfold filterChain.
  rewrite (traceOf_bind_Ret _ _ l Hl). apply in_or_app. right.
  unfold tagsStep. rewrite Ht.
  destruct l as [| v rest]; [congruence |]. simpl.
  rewrite traceOf_wrap. unfold filterByTags. rewrite traceOf_bind. now left.
Qed.

End Stages.



(** ** The tag stage *)

Section TagsFacts.

Variable dr : VCenterDriver.

Lemma retained_In {A : Type} (P : A -> Prop) (l kept : list A) :
  retained P l kept -> forall a, In a kept <-> In a l /\ P a.
Proof.
  induction 1 as [| a l kept Ha _ IH | a l kept Hna _ IH]; intros b; simpl.
  - tauto.
  - rewrite IH. split.
    + intros [<- | [Hb Hp]]; auto.
    + intros [[<- | Hb] Hp]; auto.
  - rewrite IH. split.
    + intros [Hb Hp]; auto.
    + intros [[<- | Hb] Hp]; [contradiction | auto].
Qed.

(** The scan of the attached tags answers whether the required tag is
    matched. *)
Lemma filterByTags_scan_spec (configTag : Tag)
    (realTagsList : list AttachedTag) (matched : bool) :
  resultOf (filterByTags_scan dr configTag realTagsList) = Ret matched ->
  (matched = true <-> tagAttached dr realTagsList configTag).
Proof.
  induction realTagsList as [| realTag rest IH]; intros H; simpl in H.
  - apply resultOf_ret in H. subst matched. split; [discriminate |].
    intros (real & [] & _).
  - destruct (String.eqb_spec (tagName configTag) (atName realTag))
      as [Hname | Hname].
    + bind_inv H. apply resultOf_wrap_Ret, resultOf_remote_Ret in Ha.
      destruct (String.eqb_spec (tagCategory configTag) (catName a))
        as [Hcat | Hcat].
      * apply resultOf_ret in H. subst matched. split; [| reflexivity].
        intros _. exists realTag. split; [now left |].
        split; [now symmetry |]. exists a. split; [assumption | now symmetry].
      * rewrite (IH H). split.
        -- intros (real & Hin & Hm). exists real. split; [now right | exact Hm].
        -- intros (real & [<- | Hin] & Hm); [| now exists real].
           destruct Hm as (_ & c & Hc & Hc'). rewrite Ha in Hc.
           injection Hc as <-. now symmetry in Hc'.
    + rewrite (IH H). split.
      * intros (real & Hin & Hm). exists real. split; [now right | exact Hm].
      * intros (real & [<- | Hin] & Hm); [| now exists real].
        destruct Hm as (Hn & _). now symmetry in Hn.
Qed.

(** The count of matched tags never exceeds the number of required tags,
    and reaches it exactly when every required tag is matched. *)
Lemma filterByTags_count_spec (vmTags : list Tag)
    (realTagsList : list AttachedTag) (n0 n : nat) :
  resultOf (filterByTags_count dr vmTags realTagsList n0) = Ret n ->
  n <= n0 + length vmTags /\
  (n = n0 + length vmTags <->
   forall required, In required vmTags ->
     tagAttached dr realTagsList required).
Proof.
  revert n0. induction vmTags as [| configTag rest IH]; intros n0 H;
    simpl in H.
  - apply resultOf_ret in H. subst n. simpl. split; [lia |].
    split; [intros _ r [] | lia].
  - bind_inv H. apply filterByTags_scan_spec in Ha. destruct a.
    + destruct (IH _ H) as [Hle Hiff]. simpl. split; [lia |].
      replace (n0 + S (length rest)) with (S n0 + length rest) by lia.
      rewrite Hiff. split.
      * intros Hall r [<- | Hr]; [now apply Ha | now apply Hall].
      * intros Hall r Hr. apply Hall. now right.
    + apply resultOf_ret in H. subst n. simpl. split; [lia |].
      split; [lia |]. intros Hall.
      assert (Hf : false = true) by (apply Ha, Hall; now left).
      discriminate.
Qed.

Lemma filterByTags_loop_spec (vmTags : list Tag)
    (vmList acc out : list VirtualMachine) :
  resultOf (filterByTags_loop dr vmTags vmList acc) = Ret out ->
  exists kept,
    out = acc ++ kept /\
    retained (hasAllTags dr vmTags) vmList kept /\
    (forall v, In v kept ->
       exists realTagsList,
         GetAttachedTags dr (vmReference v) = Ok realTagsList /\
         resultOf (filterByTags_count dr vmTags realTagsList 0)
         = Ret (length vmTags)).
Proof.
  revert acc. induction vmList as [| v rest IH]; intros acc H; simpl in H.
  - apply resultOf_ret in H. exists []. rewrite app_nil_r.
    split; [now symmetry |]. split; [constructor | intros ? []].
  - bind_inv H. apply resultOf_wrap_Ret, resultOf_remote_Ret in Ha.
    bind_inv H. pose proof (filterByTags_count_spec _ _ _ _ Ha0) as [_ Hiff].
    simpl in Hiff. destruct (Nat.eqb_spec a0 (length vmTags)) as [Heq | Hne].
    + destruct (IH _ H) as (kept & -> & Hret & Hcount).
      exists (v :: kept). rewrite <- app_assoc. split; [reflexivity |]. split.
      * apply retained_keep; [| assumption].
        exists a. split; [assumption | now apply Hiff].
      * intros u [<- | Hu]; [| now apply Hcount].
        exists a. split; [assumption | now rewrite <- Heq].
    + destruct (IH _ H) as (kept & -> & Hret & Hcount).
      exists kept. split; [reflexivity |]. split; [| assumption].
      apply retained_drop; [| assumption].
      intros (ts & Hts & Hall). rewrite Ha in Hts. injection Hts as <-.
      apply Hne. now apply Hiff.
Qed.

(** Fail-fast: once a required tag is not matched, the loop over the
    required tags stops; what follows that tag changes neither the count
    nor the calls made. *)
Lemma filterByTags_count_fail_fast (pre : list Tag) (configTag : Tag)
    (rest : list Tag) (realTagsList : list AttachedTag) (n0 : nat) :
  (forall required, In required pre ->
     resultOf (filterByTags_scan dr required realTagsList) = Ret true) ->
  resultOf (filterByTags_scan dr configTag realTagsList) = Ret false ->
  filterByTags_count dr (pre ++ configTag :: rest) realTagsList n0
  = filterByTags_count dr (pre ++ [configTag]) realTagsList n0 /\
  resultOf (filterByTags_count dr (pre ++ configTag :: rest) realTagsList n0)
  = Ret (n0 + length pre).
Proof.
  revert n0. induction pre as [| p pre IH]; intros n0 Hpre Hfail; simpl.
  - unfold bind.
    destruct (filterByTags_scan dr configTag realTagsList) as [[b | e |] t];
      simpl in Hfail; try discriminate.
    injection Hfail as ->. simpl. split; [reflexivity | f_equal; lia].
  - assert (Hp : resultOf (filterByTags_scan dr p realTagsList) = Ret true)
      by (apply Hpre; now left).
    assert (Hpre' : forall required, In required pre ->
              resultOf (filterByTags_scan dr required realTagsList) = Ret true)
      by (intros r Hr; apply Hpre; now right).
    destruct (IH (S n0) Hpre' Hfail) as [Heq Hres].
    unfold bind.
    destruct (filterByTags_scan dr p realTagsList) as [[b | e |] t];
      simpl in Hp; try discriminate.
    injection Hp as ->. rewrite Heq. split; [reflexivity |].
    simpl. rewrite <- Heq, Hres. f_equal. lia.
Qed.

(** C2: when the tag stage returns, it has retained, in order, exactly
    the candidates that have every required tag attached, a required tag
    being matched by an attached tag of the same name whose category ID
    resolves to the required category name; a retained candidate is one
    for which the count of matched tags is the number of required tags;
    and for a candidate, the first required tag that is not matched ends
    the evaluation: the tags after it are not looked at, and the count
    stays below the number of required tags. *)
Theorem filterByTags_retains_exactly (vmTags : list Tag)
    (vmList out : list VirtualMachine) :
  resultOf (filterByTags dr vmTags vmList) = Ret out ->
  retained (hasAllTags dr vmTags) vmList out /\
  (forall v, In v out <-> In v vmList /\ hasAllTags dr vmTags v) /\
  (forall v, In v out ->
     exists realTagsList,
       GetAttachedTags dr (vmReference v) = Ok realTagsList /\
       resultOf (filterByTags_count dr vmTags realTagsList 0)
       = Ret (length vmTags)) /\
  (forall pre configTag rest realTagsList,
     vmTags = pre ++ configTag :: rest ->
     (forall required, In required pre ->
        resultOf (filterByTags_scan dr required realTagsList) = Ret true) ->
     resultOf (filterByTags_scan dr configTag realTagsList) = Ret false ->
     filterByTags_count dr vmTags realTagsList 0
     = filterByTags_count dr (pre ++ [configTag]) realTagsList 0 /\
     resultOf (filterByTags_count dr vmTags realTagsList 0)
     = Ret (length pre) /\
     length pre < length vmTags).
Proof.
  intros H. unfold filterByTags in H. bind_inv H.
  apply filterByTags_loop_spec in H.
  destruct H as (kept & Hout & Hret & Hcount). simpl in Hout. subst kept.
  split; [assumption |]. split; [now apply retained_In |].
  split; [assumption |].
  intros pre configTag rest realTagsList -> Hpre Hfail.
  destruct (filterByTags_count_fail_fast pre configTag rest realTagsList 0
              Hpre Hfail) as [Heq Hres].
  split; [assumption |]. split; [assumption |].
  rewrite length_app. simpl. lia.
Qed.

(** With no required tag, the loop keeps every machine whose attached
    tags it can fetch. *)
Lemma filterByTags_loop_no_tags (vmList acc : list VirtualMachine) :
  (forall v, In v vmList ->
     exists realTagsList,
       GetAttachedTags dr (vmReference v) = Ok realTagsList) ->
  resultOf (filterByTags_loop dr [] vmList acc) = Ret (acc ++ vmList).
Proof.
  revert acc. induction vmList as [| v rest IH]; intros acc Hok; simpl.
  - now rewrite app_nil_r.
  - destruct (Hok v (or_introl eq_refl)) as (ts & Hts).
    rewrite (bind_Ret _ _ ts)
      by (apply resultOf_wrap_Ret, resultOf_remote_Ret; exact Hts).
    rewrite (bind_Ret _ _ 0) by reflexivity. simpl.
    rewrite IH by (intros u Hu; apply Hok; now right).
    now rewrite <- app_assoc.
Qed.

Lemma filterByTags_loop_no_tags_inv (vmList acc out : list VirtualMachine) :
  resultOf (filterByTags_loop dr [] vmList acc) = Ret out ->
  out = acc ++ vmList.
Proof.
  revert acc. induction vmList as [| v rest IH]; intros acc H; simpl in H.
  - apply resultOf_ret in H. now rewrite app_nil_r.
  - bind_inv H. bind_inv H. apply resultOf_ret in Ha0. subst a0.
    simpl in H. apply IH in H. now rewrite <- app_assoc in H.
Qed.

(** The stage returns whenever the tag manager answers. *)
Lemma filterByTags_scan_returns (configTag : Tag)
    (realTagsList : list AttachedTag) :
  (forall id, exists category, GetCategory dr id = Ok category) ->
  exists matched,
    resultOf (filterByTags_scan dr configTag realTagsList) = Ret matched.
Proof.
  intros Hcat. induction realTagsList as [| realTag rest IH]; simpl.
  - now exists false.
  - destruct (tagName configTag =? atName realTag)%string; [| exact IH].
    destruct (Hcat (atCategoryID realTag)) as (category & Hc).
    rewrite (bind_Ret _ _ category)
      by (apply resultOf_wrap_Ret, resultOf_remote_Ret; exact Hc).
    destruct (tagCategory configTag =? catName category)%string;
      [now exists true | exact IH].
Qed.

Lemma filterByTags_count_returns (vmTags : list Tag)
    (realTagsList : list AttachedTag) (n0 : nat) :
  (forall id, exists category, GetCategory dr id = Ok category) ->
  exists n, resultOf (filterByTags_count dr vmTags realTagsList n0) = Ret n.
Proof.
  intros Hcat. revert n0.
  induction vmTags as [| configTag rest IH]; intros n0; simpl.
  - now exists n0.
  - destruct (filterByTags_scan_returns configTag realTagsList Hcat)
      as (b & Hb).
    rewrite (bind_Ret _ _ b Hb). destruct b; [apply IH | now exists n0].
Qed.

Lemma filterByTags_returns (vmTags : list Tag)
    (vmList : list VirtualMachine) :
  (forall v, In v vmList ->
     exists realTagsList,
       GetAttachedTags dr (vmReference v) = Ok realTagsList) ->
  (forall id, exists category, GetCategory dr id = Ok category) ->
  exists out, resultOf (filterByTags dr vmTags vmList) = Ret out.
Proof.
  intros Htags Hcat. unfold filterByTags.
  rewrite (bind_Ret _ _ tt) by reflexivity.
  generalize (@nil VirtualMachine).
  induction vmList as [| v rest IH]; intros acc; simpl.
  - now exists acc.
  - destruct (Htags v (or_introl eq_refl)) as (ts & Hts).
    rewrite (bind_Ret _ _ ts)
      by (apply resultOf_wrap_Ret, resultOf_remote_Ret; exact Hts).
    destruct (filterByTags_count_returns vmTags ts 0 Hcat) as (n & Hn).
    rewrite (bind_Ret _ _ n Hn).
    assert (Hrest : forall u, In u rest ->
              exists realTagsList,
                GetAttachedTags dr (vmReference u) = Ok realTagsList)
      by (intros u Hu; apply Htags; now right).
    destruct (n =? length vmTags)%nat; now apply IH.
Qed.

End TagsFacts.

(** C10, amended: called with no required tag, the tag stage returns its
    input unchanged, which it does whenever the attached tags of every
    candidate can be fetched; and [Execute] runs the stage on the
    candidates that are left whenever the tag slice is not nil, be it
    empty, and at least one candidate is left. *)
Theorem filterByTags_no_tags_identity {RE : RegexpLib}
    (dr : VCenterDriver) (vmList : list VirtualMachine) :
  ((forall v, In v vmList ->
      exists realTagsList,
        GetAttachedTags dr (vmReference v) = Ok realTagsList) ->
   resultOf (filterByTags dr [] vmList) = Ret vmList) /\
  (forall out,
     resultOf (filterByTags dr [] vmList) = Ret out -> out = vmList) /\
  (forall NewDriver d tags,
     NewDriver (connect (config d)) = Ok dr ->
     Tags (config d) = Some tags ->
     resultOf (candidatesBeforeTags dr (config d)) = Ret vmList ->
     vmList <> [] ->
     In (Enter TagsStage vmList) (traceOf (Execute NewDriver d))).
Proof.
  repeat split.
  - intros Hok. unfold filterByTags.
    rewrite (bind_Ret _ _ tt) by reflexivity.
    now rewrite filterByTags_loop_no_tags.
  - intros out H. unfold filterByTags in H. bind_inv H.
    now apply filterByTags_loop_no_tags_inv in H.
  - intros NewDriver d tags Hdr Ht Hl Hne. unfold Execute.
    rewrite (traceOf_bind_Ret _ _ dr)
      by (apply resultOf_wrap_Ret, resultOf_remote_Ret; exact Hdr).
    apply in_or_app. right. rewrite traceOf_bind. apply in_or_app. left.
    now apply filterChain_enters_tags with (tags := tags).
Qed.

(** C10, as stated, fails: the tag slice is empty and not nil, but the
    name filter has left no candidate, and the tag stage does not run. *)
Lemma tags_stage_skipped_counterexample :
  let cfg := Sim.withTags (Some []) (Sim.withNameRegex "db" Sim.baseConfig) in
  Tags cfg = Some [] /\
  forall l,
    ~ In (Enter TagsStage l)
         (traceOf (@Execute Sim.plainRegexp (Sim.simNewDriver Sim.twoTagged)
                     {| config := cfg |})).
Proof.
  split; [reflexivity |]. intros l. vm_compute.
  intros [H | [H | [H | []]]]; discriminate.
Qed.

Lemma filterByTags_retains_exactly_witness :
  let dr := Sim.simDriver Sim.twoTagged in
  let vmTags := [ {| tagName := "ops"; tagCategory := "team" |};
                  {| tagName := "prod"; tagCategory := "tier" |} ] in
  let vmList := [Sim.vm "vm-1" "web-1"; Sim.vm "vm-2" "web-2"] in
  let out := [Sim.vm "vm-1" "web-1"] in
  retained (hasAllTags dr vmTags) vmList out /\
  (forall v, In v out <-> In v vmList /\ hasAllTags dr vmTags v) /\
  (forall v, In v out ->
     exists realTagsList,
       GetAttachedTags dr (vmReference v) = Ok realTagsList /\
       resultOf (filterByTags_count dr vmTags realTagsList 0)
       = Ret (length vmTags)) /\
  (forall pre configTag rest realTagsList,
     vmTags = pre ++ configTag :: rest ->
     (forall required, In required pre ->
        resultOf (filterByTags_scan dr required realTagsList) = Ret true) ->
     resultOf (filterByTags_scan dr configTag realTagsList) = Ret false ->
     filterByTags_count dr vmTags realTagsList 0
     = filterByTags_count dr (pre ++ [configTag]) realTagsList 0 /\
     resultOf (filterByTags_count dr vmTags realTagsList 0)
     = Ret (length pre) /\
     length pre < length vmTags).
Proof.
  apply (filterByTags_retains_exactly (Sim.simDriver Sim.twoTagged)
           [ {| tagName := "ops"; tagCategory := "team" |};
             {| tagName := "prod"; tagCategory := "tier" |} ]
           [Sim.vm "vm-1" "web-1"; Sim.vm "vm-2" "web-2"]
           [Sim.vm "vm-1" "web-1"]).
  reflexivity.
Defined.

Lemma filterByTags_no_tags_identity_witness :
  let dr := Sim.simDriver Sim.twoTagged in
  let vmList := [Sim.vm "vm-1" "web-1"; Sim.vm "vm-2" "web-2"] in
  resultOf (filterByTags dr [] vmList) = Ret vmList /\
  In (Enter TagsStage vmList)
     (traceOf (@Execute Sim.plainRegexp (Sim.simNewDriver Sim.twoTagged)
                 {| config := Sim.withTags (Some []) Sim.baseConfig |})).
Proof.
  destruct (@filterByTags_no_tags_identity Sim.plainRegexp
              (Sim.simDriver Sim.twoTagged)
              [Sim.vm "vm-1" "web-1"; Sim.vm "vm-2" "web-2"])
    as (Hid & _ & Hrun).
  split.
  - apply Hid. intros v [<- | [<- | []]]; eexists; reflexivity.
  - apply (Hrun (Sim.simNewDriver Sim.twoTagged)
             {| config := Sim.withTags (Some []) Sim.baseConfig |} []);
      [reflexivity | reflexivity | reflexivity | discriminate].
Defined.

(** ** Configure *)

Lemma MultiErrorAppend_multiErrorOf (errs : list error) (err : error) :
  MultiErrorAppend (multiErrorOf errs) err = multiErrorOf (errs ++ [err]).
Proof. destruct errs; reflexivity. Qed.

Lemma Configure_tags_spec (tags : list Tag) (errs : list error) :
  Configure_tags tags (multiErrorOf errs) =
  multiErrorOf
    (errs ++ map (fun _ => "both name and category are required for tag"%string)
                 (filter incompleteTag tags)).
Proof.
  revert errs. induction tags as [| tag rest IH]; intros errs; simpl.
  - now rewrite app_nil_r.
  - unfold incompleteTag at 1.
    destruct ((tagName tag =? "")%string || (tagCategory tag =? "")%string).
    + rewrite MultiErrorAppend_multiErrorOf, IH, <- app_assoc. reflexivity.
    + apply IH.
Qed.

(** The validation of the source collects the violations. *)
Lemma Configure_validate_spec (cfg : Config) :
  Configure_validate cfg = multiErrorOf (violations cfg).
Proof.
  unfold Configure_validate, violations.
  assert (Htags : forall errs,
            (if (0 <? length (elems (Tags cfg)))%nat
             then Configure_tags (elems (Tags cfg)) (multiErrorOf errs)
             else multiErrorOf errs)
            = multiErrorOf
                (errs ++ map (fun _ =>
                     "both name and category are required for tag"%string)
                   (filter incompleteTag (elems (Tags cfg))))).
  { intros errs. destruct (elems (Tags cfg)) as [| tag rest] eqn:E.
    - simpl. now rewrite app_nil_r.
    - change (0 <? length (tag :: rest))%nat with true. cbv iota.
      apply Configure_tags_spec. }
  destruct (VCenterServer (connect cfg) =? "")%string;
    destruct (Username (connect cfg) =? "")%string;
    destruct (Password (connect cfg) =? "")%string;
    simpl app;
    match goal with
    | |- _ = multiErrorOf (?a :: ?b :: ?c :: ?t) =>
        apply (Htags [a; b; c])
    | |- _ = multiErrorOf (?a :: ?b :: ?t) => apply (Htags [a; b])
    | |- _ = multiErrorOf (?a :: ?t) => apply (Htags [a])
    | |- _ = multiErrorOf ?t => apply (Htags [])
    end.
Qed.

Lemma violations_defaultName (cfg : Config) :
  violations (defaultName cfg) = violations cfg.
Proof. unfold defaultName. now destruct (Name cfg =? "")%string. Qed.

Lemma violations_nil_iff (cfg : Config) :
  violations cfg = [] <->
  VCenterServer (connect cfg) <> "" /\
  Username (connect cfg) <> "" /\
  Password (connect cfg) <> "" /\
  forall tag, In tag (elems (Tags cfg)) ->
    tagName tag <> "" /\ tagCategory tag <> "".
Proof.
  unfold violations.
  assert (Htags : map (fun _ : Tag =>
                    "both name and category are required for tag"%string)
                    (filter incompleteTag (elems (Tags cfg))) = [] <->
                  forall tag, In tag (elems (Tags cfg)) ->
                    tagName tag <> "" /\ tagCategory tag <> "").
  { induction (elems (Tags cfg)) as [| tag rest IH]; simpl.
    - split; [intros _ t [] | reflexivity].
    - unfold incompleteTag at 1.
      destruct (String.eqb_spec (tagName tag) "") as [Hn | Hn];
        destruct (String.eqb_spec (tagCategory tag) "") as [Hc | Hc]; simpl;
        try (split; [discriminate |];
             intros H; destruct (H tag (or_introl eq_refl)); contradiction).
      rewrite IH. split.
      + intros H t [<- | Ht]; [now split | now apply H].
      + intros H t Ht. apply H. now right. }
  destruct (String.eqb_spec (VCenterServer (connect cfg)) "") as [Hv | Hv];
    destruct (String.eqb_spec (Username (connect cfg)) "") as [Hu | Hu];
    destruct (String.eqb_spec (Password (connect cfg)) "") as [Hp | Hp];
    simpl; try (split; [discriminate | intros (? & ? & ? & _); contradiction]).
  rewrite Htags. tauto.
Qed.

Section ConfigureFacts.

Variable Raw : Type.
Variable Decode : Config -> list Raw -> Config * option error.

(** C9: [Configure] returns an error exactly when the decoder fails or
    the decoded configuration has an empty [vcenter_server], [username]
    or [password] or a tag block without name or without category; the
    error of the decoder is returned as it is; otherwise the one error
    returned holds all the violations, one entry for each, in the order
    of the checks.  [Configure] only looks at the configuration: it makes
    no call to the inventory. *)
Theorem Configure_reports_all_violations (d : Datasource)
    (raws : list Raw) :
  let cfg := fst (Decode (config d) raws) in
  let err := snd (Configure Decode d raws) in
  (err <> None <->
   snd (Decode (config d) raws) <> None \/
   VCenterServer (connect cfg) = "" \/
   Username (connect cfg) = "" \/
   Password (connect cfg) = "" \/
   exists tag, In tag (elems (Tags cfg)) /\
     (tagName tag = "" \/ tagCategory tag = "")) /\
  (forall e, snd (Decode (config d) raws) = Some e ->
     err = Some (DecodeError e)) /\
  (snd (Decode (config d) raws) = None ->
     err = match violations cfg with
           | [] => None
           | errs => Some (MultiError errs)
           end).
Proof.
  unfold Configure. destruct (Decode (config d) raws) as [cfg [e |]]; simpl.
  - split; [| split; [intros ? [= <-]; reflexivity | discriminate]].
    split; [intros _; left; discriminate | discriminate].
  - rewrite Configure_validate_spec, violations_defaultName.
    assert (Herr : match multiErrorOf (violations cfg) with
                   | Some Errors =>
                       if (0 <? length Errors)%nat
                       then Some (MultiError Errors) else None
                   | None => None
                   end
                   = match violations cfg with
                     | [] => None
                     | errs => Some (MultiError errs)
                     end)
      by (destruct (violations cfg); reflexivity).
    rewrite Herr. split; [| split; [discriminate | reflexivity]].
    pose proof (violations_nil_iff cfg) as Hnil.
    destruct (violations cfg) as [| v rest] eqn:Hv.
    + destruct (proj1 Hnil eq_refl) as (Hs & Hu & Hp & Ht).
      split; [congruence |].
      intros [H | [H | [H | [H | (tag & Hin & H)]]]]; try contradiction.
      destruct (Ht tag Hin) as [Hn Hc]. destruct H; contradiction.
    + split; [intros _ | discriminate]. right.
      destruct (string_dec (VCenterServer (connect cfg)) "") as [| Hs];
        [now left | right].
      destruct (string_dec (Username (connect cfg)) "") as [| Hu];
        [now left | right].
      destruct (string_dec (Password (connect cfg)) "") as [| Hp];
        [now left | right].
      assert (Hex : Exists (fun tag => incompleteTag tag = true)
                      (elems (Tags cfg))).
      { apply Exists_exists.
        destruct (existsb incompleteTag (elems (Tags cfg))) eqn:Hb.
        - apply existsb_exists in Hb. exact Hb.
        - exfalso. assert (Hn : v :: rest = []); [| discriminate].
          apply Hnil. repeat split; try assumption;
            assert (Hf : incompleteTag tag = false)
              by (destruct (incompleteTag tag) eqn:Hi; [| reflexivity];
                  rewrite <- Hb; symmetry; apply existsb_exists;
                  now exists tag);
            unfold incompleteTag in Hf; apply orb_false_iff in Hf;
            destruct Hf as [Hf1 Hf2].
          + now apply String.eqb_neq.
          + now apply String.eqb_neq. }
      apply Exists_exists in Hex. destruct Hex as (tag & Hin & Hi).
      exists tag. split; [assumption |].
      unfold incompleteTag in Hi. apply orb_true_iff in Hi.
      destruct Hi as [Hi | Hi]; apply String.eqb_eq in Hi; auto.
Qed.

End ConfigureFacts.

Lemma Configure_reports_all_violations_witness :
  snd (Configure Sim.decodeFirst {| config := Sim.baseConfig |}
         [Sim.badConfig])
  = Some (MultiError [ "'vcenter_server' is required";
                       "'password' is required";
                       "both name and category are required for tag" ]).
Proof.
  destruct (Configure_reports_all_violations Config Sim.decodeFirst
              {| config := Sim.baseConfig |} [Sim.badConfig])
    as (_ & _ & H).
  exact (H eq_refl).
Defined.

(** Of two machines that share the latest creation date, the first one
    is selected. *)
Example Execute_latest_tie :
  resultOf (@Execute Sim.plainRegexp (Sim.simNewDriver Sim.twoLatest)
              {| config := Sim.withLatest true Sim.baseConfig |})
  = Ret {| VmName := "web-2" |}.
Proof. reflexivity. Qed.

(** ** The name filter inside Execute *)

Section InvalidPattern.

Context {RE : RegexpLib}.
Variable NewDriver : ConnectConfig -> reply VCenterDriver.

(** X18: a pattern that is set and does not compile makes [Execute] panic as
    soon as the finder has returned its list. *)
Lemma Execute_invalid_pattern_panics (d : Datasource) (dr : VCenterDriver)
    (l : list VirtualMachine) :
  NewDriver (connect (config d)) = Ok dr ->
  VirtualMachineList dr (Name (config d)) = Ok l ->
  l <> [] ->
  NameRegex (config d) <> "" ->
  Compile (NameRegex (config d)) = None ->
  resultOf (Execute NewDriver d) = Panic.
Proof.
  intros Hdr Hl Hne Hset Hre. unfold Execute.
  rewrite (bind_Ret _ _ dr)
    by (apply resultOf_wrap_Ret, resultOf_remote_Ret; exact Hdr).
  rewrite resultOf_bind. unfold filterChain. rewrite resultOf_bind.
  unfold candidatesBeforeTags.
  rewrite (bind_Ret _ _ l)
    by (apply resultOf_wrap_Ret, resultOf_remote_Ret; exact Hl).
  rewrite resultOf_bind. unfold regexStep.
  apply String.eqb_neq in Hset. rewrite Hset. simpl negb. cbv iota.
  now rewrite (filterByNameRegex_nil_regexp_panics l _ Hre Hne).
Qed.

End InvalidPattern.

(** * More on the stages *)

Section MonadMore.

Context {A B C : Type}.

Lemma bind_assoc (m : M A) (f : A -> M B) (g : B -> M C) :
  bind (bind m f) g = bind m (fun a => bind (f a) g).
Proof.
  destruct m as [[a | e |] t]; try reflexivity.
  unfold bind at 2 3. simpl.
  unfold bind, resultOf, traceOf.
  destruct (f a) as [[b | e |] t']; simpl; try reflexivity.
  destruct (g b) as [r t'']. simpl. now rewrite app_assoc.
Qed.

Lemma bind_Err_inv (m : M A) (f : A -> M B) (e : error) :
  resultOf (bind m f) = Err e ->
  resultOf m = Err e \/
  exists a, resultOf m = Ret a /\ resultOf (f a) = Err e.
Proof.
  rewrite resultOf_bind. destruct (resultOf m) as [a | e' |];
    try discriminate.
  - intros H. right. now exists a.
  - intros H. injection H as ->. now left.
Qed.

Lemma bind_Err (m : M A) (f : A -> M B) (e : error) :
  resultOf m = Err e -> bind m f = (Err e, traceOf m).
Proof.
  destruct m as [[a | e' |] t]; simpl; intros H; try discriminate.
  now injection H as ->.
Qed.

Lemma bind_run (m : M A) (f : A -> M B) (a : A) (t : list event) :
  m = (Ret a, t) ->
  bind m f = (resultOf (f a), t ++ traceOf (f a)).
Proof. now intros ->. Qed.

Lemma wrap_remote_Ok (prefix : string) (ev : event) (a : A) (r : reply A) :
  r = Ok a -> wrap prefix (remote ev r) = (Ret a, [ev]).
Proof. now intros ->. Qed.

Lemma wrap_remote_Fail (prefix : string) (ev : event) (e : error)
    (r : reply A) :
  r = Fail e -> wrap prefix (remote ev r) = (Err (Errorf prefix e), [ev]).
Proof. now intros ->. Qed.

Lemma wrap_remote_Err_inv (prefix : string) (ev : event) (r : reply A)
    (msg : error) :
  resultOf (wrap prefix (remote ev r)) = Err msg ->
  exists e, r = Fail e /\ msg = Errorf prefix e.
Proof.
  destruct r as [a | e]; simpl; [discriminate |].
  intros H. injection H as <-. now exists e.
Qed.

Lemma resultOf_wrap_Err_inv (prefix : string) (m : M A) (msg : error) :
  resultOf (wrap prefix m) = Err msg ->
  exists e, resultOf m = Err e /\ msg = Errorf prefix e.
Proof.
  destruct m as [[a | e |] t]; simpl; try discriminate.
  intros H. injection H as <-. now exists e.
Qed.

End MonadMore.

Lemma run_eq {A : Type} (m : M A) : m = (resultOf m, traceOf m).
Proof. now destruct m. Qed.

(** ** The name filter with a pattern that compiles *)

Section NameRegexMore.

Context {RE : RegexpLib}.

Lemma filterByNameRegex_loop_filter (re : Regexp)
    (vmList acc : list VirtualMachine) :
  filterByNameRegex_loop (Some re) vmList acc =
  ret (acc ++ filter (fun vm => MatchString re (vmName vm)) vmList).
Proof.
  revert acc. induction vmList as [| i rest IH]; intros acc; simpl.
  - now rewrite app_nil_r.
  - destruct (MatchString re (vmName i)).
    + rewrite IH, <- app_assoc. reflexivity.
    + apply IH.
Qed.

(** X1: with a pattern that compiles, the name filter returns, in order, the
    machines whose name the expression matches; it cannot fail and makes
    no remote call. *)
Theorem filterByNameRegex_filter (vmList : list VirtualMachine)
    (nameRegex : string) (re : Regexp) :
  Compile nameRegex = Some re ->
  filterByNameRegex vmList nameRegex =
  (Ret (filter (fun vm => MatchString re (vmName vm)) vmList),
   [Enter NameRegexStage vmList]).
Proof.
  intros Hre. unfold filterByNameRegex. rewrite Hre.
  now rewrite filterByNameRegex_loop_filter.
Qed.

Lemma filter_filter {T : Type} (f : T -> bool) (l : list T) :
  filter f (filter f l) = filter f l.
Proof.
  induction l as [| a l IH]; simpl; [reflexivity |].
  destruct (f a) eqn:Hf; simpl; [rewrite Hf; now f_equal | assumption].
Qed.

(** X2: filtering by name a second time with the same pattern changes
    nothing. *)
Theorem filterByNameRegex_idempotent (vmList out : list VirtualMachine)
    (nameRegex : string) :
  resultOf (filterByNameRegex vmList nameRegex) = Ret out ->
  resultOf (filterByNameRegex out nameRegex) = Ret out.
Proof.
  destruct (Compile nameRegex) as [re |] eqn:Hre.
  - unfold filterByNameRegex. rewrite Hre.
    rewrite !filterByNameRegex_loop_filter. simpl.
    intros H. injection H as <-. now rewrite filter_filter.
  - destruct vmList as [| i rest].
    + intros H. apply Ret_inj in H. now subst out.
    + unfold filterByNameRegex. rewrite Hre. discriminate.
Qed.

End NameRegexMore.

Lemma filterByNameRegex_filter_witness :
  @filterByNameRegex Sim.plainRegexp
    [Sim.vm "vm-1" "web-1"; Sim.vm "vm-2" "db-1"; Sim.vm "vm-3" "web-2"]
    "web"
  = (Ret [Sim.vm "vm-1" "web-1"; Sim.vm "vm-3" "web-2"],
     [Enter NameRegexStage
        [Sim.vm "vm-1" "web-1"; Sim.vm "vm-2" "db-1"; Sim.vm "vm-3" "web-2"]]).
Proof.
  apply (@filterByNameRegex_filter Sim.plainRegexp
           [Sim.vm "vm-1" "web-1"; Sim.vm "vm-2" "db-1";
            Sim.vm "vm-3" "web-2"] "web" "web").
  reflexivity.
Defined.

Lemma filterByNameRegex_idempotent_witness :
  resultOf (@filterByNameRegex Sim.plainRegexp
              [Sim.vm "vm-1" "web-1"; Sim.vm "vm-3" "web-2"] "web")
  = Ret [Sim.vm "vm-1" "web-1"; Sim.vm "vm-3" "web-2"].
Proof.
  apply (@filterByNameRegex_idempotent Sim.plainRegexp
           [Sim.vm "vm-1" "web-1"; Sim.vm "vm-2" "db-1";
            Sim.vm "vm-3" "web-2"]).
  reflexivity.
Defined.

(** ** The template filter *)

Section TemplateMore.

Variable dr : VCenterDriver.

Lemma filterByTemplate_loop_run (vmList acc : list VirtualMachine) :
  (forall u, In u vmList -> exists b, IsTemplate dr u = Ok b) ->
  filterByTemplate_loop dr vmList acc =
  (Ret (acc ++ filter (isTemplateOk dr) vmList), map CallIsTemplate vmList).
Proof.
  revert acc. induction vmList as [| i rest IH]; intros acc Hok; simpl.
  - now rewrite app_nil_r.
  - destruct (Hok i (or_introl eq_refl)) as (b & Hb).
    assert (Hrest : forall u, In u rest -> exists b, IsTemplate dr u = Ok b)
      by (intros u Hu; apply Hok; now right).
    rewrite (bind_run _ _ b [CallIsTemplate i])
      by (now apply wrap_remote_Ok).
    unfold isTemplateOk at 1. rewrite Hb. destruct b.
    + rewrite (IH _ Hrest), <- app_assoc. reflexivity.
    + now rewrite (IH _ Hrest).
Qed.

Lemma filterByTemplate_loop_answers (vmList acc out : list VirtualMachine) :
  resultOf (filterByTemplate_loop dr vmList acc) = Ret out ->
  forall u, In u vmList -> exists b, IsTemplate dr u = Ok b.
Proof.
  revert acc. induction vmList as [| i rest IH]; intros acc H u Hu;
    simpl in H.
  - destruct Hu.
  - bind_inv H. apply resultOf_wrap_Ret, resultOf_remote_Ret in Ha.
    destruct Hu as [<- | Hu]; [now exists a |].
    destruct a; now apply (IH _ H).
Qed.

(** X3: when the template filter returns, it has asked for the template flag
    of every candidate once, in order, and it returns, in order, the
    candidates that are templates. *)
Theorem filterByTemplate_templates (vmList out : list VirtualMachine) :
  resultOf (filterByTemplate dr vmList) = Ret out ->
  out = filter (isTemplateOk dr) vmList /\
  traceOf (filterByTemplate dr vmList) =
  Enter TemplateStage vmList :: map CallIsTemplate vmList.
Proof.
  unfold filterByTemplate. intros H.
  rewrite (bind_run _ _ tt [Enter TemplateStage vmList]) in * by reflexivity.
  simpl in H.
  pose proof (filterByTemplate_loop_answers vmList [] out H) as Hok.
  rewrite (filterByTemplate_loop_run vmList [] Hok) in *. simpl in *.
  split; [now injection H | reflexivity].
Qed.

Lemma filterByTemplate_loop_failure
    (pre : list VirtualMachine) (v : VirtualMachine)
    (post acc : list VirtualMachine) (e : error) :
  (forall u, In u pre -> exists b, IsTemplate dr u = Ok b) ->
  IsTemplate dr v = Fail e ->
  filterByTemplate_loop dr (pre ++ v :: post) acc =
  (Err (Errorf "error checking if virtual machine is a template" e),
   map CallIsTemplate (pre ++ [v])).
Proof.
  intros Hpre Hv. revert acc.
  induction pre as [| p pre IH]; intros acc; simpl.
  - now rewrite (wrap_remote_Fail _ _ e _ Hv).
  - destruct (Hpre p (or_introl eq_refl)) as (b & Hb).
    rewrite (wrap_remote_Ok _ _ b _ Hb). unfold bind.
    assert (Hpre' : forall u, In u pre -> exists b, IsTemplate dr u = Ok b)
      by (intros u Hu; apply Hpre; now right).
    destruct b; now rewrite (IH Hpre').
Qed.

(** X4: the first candidate whose template flag cannot be fetched aborts the
    filter: the error is wrapped, no list is returned, and the candidates
    after it are not asked about. *)
Theorem filterByTemplate_first_failure
    (pre : list VirtualMachine) (v : VirtualMachine)
    (post : list VirtualMachine) (e : error) :
  (forall u, In u pre -> exists b, IsTemplate dr u = Ok b) ->
  IsTemplate dr v = Fail e ->
  filterByTemplate dr (pre ++ v :: post) =
  (Err (Errorf "error checking if virtual machine is a template" e),
   Enter TemplateStage (pre ++ v :: post)
   :: map CallIsTemplate (pre ++ [v])).
Proof.
  intros Hpre Hv. unfold filterByTemplate.
  rewrite (bind_run _ _ tt [Enter TemplateStage (pre ++ v :: post)])
    by reflexivity.
  now rewrite (filterByTemplate_loop_failure pre v post [] e Hpre Hv).
Qed.

(** X5: filtering templates a second time changes nothing. *)
Theorem filterByTemplate_idempotent (vmList out : list VirtualMachine) :
  resultOf (filterByTemplate dr vmList) = Ret out ->
  resultOf (filterByTemplate dr out) = Ret out.
Proof.
  intros H. unfold filterByTemplate in *. bind_inv H.
  pose proof (filterByTemplate_loop_answers vmList [] _ H) as Hok.
  rewrite (filterByTemplate_loop_run vmList [] Hok) in H.
  simpl in H. injection H as <-.
  rewrite (bind_Ret _ _ tt) by reflexivity.
  rewrite filterByTemplate_loop_run.
  - simpl. now rewrite filter_filter.
  - intros u Hu. apply filter_In in Hu. now apply Hok.
Qed.

End TemplateMore.

Lemma filterByTemplate_templates_witness :
  let vmList := [Sim.vm "vm-1" "web-1"; Sim.vm "vm-2" "web-2";
                 Sim.vm "vm-3" "db-1"] in
  let out := [Sim.vm "vm-1" "web-1"; Sim.vm "vm-3" "db-1"] in
  out = filter (isTemplateOk (Sim.simDriver Sim.mixed)) vmList /\
  traceOf (filterByTemplate (Sim.simDriver Sim.mixed) vmList) =
  Enter TemplateStage vmList :: map CallIsTemplate vmList.
Proof.
  apply (filterByTemplate_templates (Sim.simDriver Sim.mixed)
           [Sim.vm "vm-1" "web-1"; Sim.vm "vm-2" "web-2";
            Sim.vm "vm-3" "db-1"]
           [Sim.vm "vm-1" "web-1"; Sim.vm "vm-3" "db-1"]).
  reflexivity.
Defined.

Lemma filterByTemplate_first_failure_witness :
  filterByTemplate (Sim.simDriver Sim.mixed)
    ([Sim.vm "vm-1" "web-1"] ++ Sim.vm "vm-9" "gone"
       :: [Sim.vm "vm-3" "db-1"]) =
  (Err (Errorf "error checking if virtual machine is a template"
          "object not found"),
   Enter TemplateStage
     ([Sim.vm "vm-1" "web-1"] ++ Sim.vm "vm-9" "gone"
        :: [Sim.vm "vm-3" "db-1"])
   :: map CallIsTemplate ([Sim.vm "vm-1" "web-1"] ++ [Sim.vm "vm-9" "gone"])).
Proof.
  apply (filterByTemplate_first_failure (Sim.simDriver Sim.mixed)
           [Sim.vm "vm-1" "web-1"] (Sim.vm "vm-9" "gone")
           [Sim.vm "vm-3" "db-1"] "object not found").
  - intros u [<- | []]. now exists true.
  - reflexivity.
Defined.

Lemma filterByTemplate_idempotent_witness :
  resultOf (filterByTemplate (Sim.simDriver Sim.mixed)
              [Sim.vm "vm-1" "web-1"; Sim.vm "vm-3" "db-1"])
  = Ret [Sim.vm "vm-1" "web-1"; Sim.vm "vm-3" "db-1"].
Proof.
  apply (filterByTemplate_idempotent (Sim.simDriver Sim.mixed)
           [Sim.vm "vm-1" "web-1"; Sim.vm "vm-2" "web-2";
            Sim.vm "vm-3" "db-1"]).
  reflexivity.
Defined.

(** ** The host filter *)

Section HostMore.

Variable dr : VCenterDriver.

Lemma filterByHost_inner_repeat (v : VirtualMachine)
    (hostVms : list string) (acc : list VirtualMachine) :
  filterByHost_inner v hostVms acc =
  acc ++ repeat v (count_occ string_dec hostVms (vmName v)).
Proof.
  revert acc. induction hostVms as [| h rest IH]; intros acc; simpl.
  - now rewrite app_nil_r.
  - destruct (String.eqb_spec (vmName v) h) as [E | E];
      destruct (string_dec h (vmName v)) as [E' | E'];
      try (exfalso; congruence).
    + rewrite IH, <- app_assoc. reflexivity.
    + apply IH.
Qed.

Lemma filterByHost_loop_flat_map (hostVms : list string)
    (vmList acc : list VirtualMachine) :
  filterByHost_loop hostVms vmList acc =
  acc ++ flat_map
           (fun v => repeat v (count_occ string_dec hostVms (vmName v)))
           vmList.
Proof.
  revert acc. induction vmList as [| v rest IH]; intros acc; simpl.
  - now rewrite app_nil_r.
  - rewrite IH, filterByHost_inner_repeat, <- app_assoc. reflexivity.
Qed.

(** X6: when the host filter returns, it has made three remote calls,
    however many candidates there are, and every candidate is in the
    output once for each machine of the host that bears its name: those
    whose name is not on the host are dropped, those whose name is borne
    by several machines of the host are repeated. *)
Theorem filterByHost_occurrences (cfg : Config)
    (vmList out : list VirtualMachine) :
  resultOf (filterByHost dr cfg vmList) = Ret out ->
  exists obj hostVm hostVms,
    HostSystem dr (Host cfg) = Ok obj /\
    RetrieveHostVm dr obj = Ok hostVm /\
    RetrieveNames dr hostVm = Ok hostVms /\
    traceOf (filterByHost dr cfg vmList) =
    [Enter HostStage vmList; CallHostSystem (Host cfg);
     CallRetrieveHostVm obj; CallRetrieveNames hostVm] /\
    out = flat_map
            (fun v => repeat v (count_occ string_dec hostVms (vmName v)))
            vmList /\
    (forall v, In v out <-> In v vmList /\ In (vmName v) hostVms).
Proof.
  unfold filterByHost. intros H.
  bind_inv H. bind_inv H. bind_inv H. bind_inv H.
  apply resultOf_wrap_Ret, resultOf_remote_Ret in Ha0.
  apply resultOf_wrap_Ret, resultOf_remote_Ret in Ha1.
  apply resultOf_wrap_Ret, resultOf_remote_Ret in Ha2.
  apply resultOf_ret in H. exists a0, a1, a2.
  repeat (split; [assumption |]).
  rewrite Ha0. unfold bind at 1 2. simpl.
  rewrite Ha1. unfold bind at 1. simpl. rewrite Ha2. simpl.
  split; [reflexivity |].
  rewrite filterByHost_loop_flat_map in H. simpl in H. subst out.
  split; [reflexivity |].
  intros v. rewrite in_flat_map. split.
  - intros (u & Hu & Hv). apply repeat_spec in Hv as Heq. subst u.
    split; [assumption |].
    apply (count_occ_In string_dec).
    destruct (count_occ string_dec a2 (vmName v)); [destruct Hv | lia].
  - intros [Hv Hn]. exists v. split; [assumption |].
    apply (count_occ_In string_dec) in Hn.
    destruct (count_occ string_dec a2 (vmName v)); [lia | now left].
Qed.

(** X7: when the machines of the host bear distinct names, the host filter
    returns, in order, the candidates whose name is on the host. *)
Theorem filterByHost_distinct_names (cfg : Config)
    (vmList out : list VirtualMachine) (hostVms : list string) :
  resultOf (filterByHost dr cfg vmList) = Ret out ->
  hostVmNames dr cfg hostVms ->
  NoDup hostVms ->
  out = filter (nameOnHost hostVms) vmList.
Proof.
  intros H (obj & hostVm & Ho & Hv & Hn) Hnd.
  apply filterByHost_Ret in H.
  destruct H as (names & (obj' & hostVm' & Ho' & Hv' & Hn') & ->).
  rewrite Ho in Ho'. injection Ho' as <-.
  rewrite Hv in Hv'. injection Hv' as <-.
  rewrite Hn in Hn'. injection Hn' as <-.
  rewrite filterByHost_loop_flat_map. simpl.
  induction vmList as [| v rest IH]; simpl; [reflexivity |].
  rewrite IH. unfold nameOnHost at 2.
  destruct (existsb (String.eqb (vmName v)) hostVms) eqn:Hex.
  - apply existsb_exists in Hex. destruct Hex as (h & Hh & Heq).
    apply String.eqb_eq in Heq. subst h.
    rewrite (proj1 (NoDup_count_occ' string_dec hostVms) Hnd _ Hh).
    reflexivity.
  - assert (Hnot : ~ In (vmName v) hostVms).
    { intros Hin. assert (Ht : existsb (String.eqb (vmName v)) hostVms = true).
      { apply existsb_exists. exists (vmName v).
        split; [assumption | apply String.eqb_refl]. }
      congruence. }
    apply (count_occ_not_In string_dec) in Hnot. now rewrite Hnot.
Qed.

End HostMore.

Lemma filterByHost_occurrences_witness :
  let dr := Sim.simDriver Sim.sameNameTwice in
  let cfg := Sim.withHost "esx-1" Sim.baseConfig in
  let vmList := [Sim.vm "vm-1" "web"; Sim.vm "vm-7" "db"] in
  let out := [Sim.vm "vm-1" "web"; Sim.vm "vm-1" "web"] in
  exists obj hostVm hostVms,
    HostSystem dr (Host cfg) = Ok obj /\
    RetrieveHostVm dr obj = Ok hostVm /\
    RetrieveNames dr hostVm = Ok hostVms /\
    traceOf (filterByHost dr cfg vmList) =
    [Enter HostStage vmList; CallHostSystem (Host cfg);
     CallRetrieveHostVm obj; CallRetrieveNames hostVm] /\
    out = flat_map
            (fun v => repeat v (count_occ string_dec hostVms (vmName v)))
            vmList /\
    (forall v, In v out <-> In v vmList /\ In (vmName v) hostVms).
Proof.
  apply (filterByHost_occurrences (Sim.simDriver Sim.sameNameTwice)
           (Sim.withHost "esx-1" Sim.baseConfig)
           [Sim.vm "vm-1" "web"; Sim.vm "vm-7" "db"]
           [Sim.vm "vm-1" "web"; Sim.vm "vm-1" "web"]).
  reflexivity.
Defined.

Lemma filterByHost_distinct_names_witness :
  [Sim.vm "vm-1" "web-1"; Sim.vm "vm-3" "db-1"] =
  filter (nameOnHost ["web-1"; "db-1"])
    [Sim.vm "vm-1" "web-1"; Sim.vm "vm-2" "web-2"; Sim.vm "vm-3" "db-1"].
Proof.
  apply (filterByHost_distinct_names (Sim.simDriver Sim.mixed)
           (Sim.withHost "esx-1" Sim.baseConfig)
           [Sim.vm "vm-1" "web-1"; Sim.vm "vm-2" "web-2";
            Sim.vm "vm-3" "db-1"]
           [Sim.vm "vm-1" "web-1"; Sim.vm "vm-3" "db-1"]
           ["web-1"; "db-1"]).
  - reflexivity.
  - exists "esx-1", ["vm-1"; "vm-3"]. repeat split.
  - repeat constructor; simpl; intuition discriminate.
Defined.

(** ** The latest-selection stage, read backwards *)

Section LatestMore.

Variable dr : VCenterDriver.

(** The loop returns only if every creation date was fetched and there. *)
Lemma filterByLatest_loop_returns_dated (l : list VirtualMachine)
    (cur r : option VirtualMachine) (ts : Time) :
  resultOf (filterByLatest_loop dr l cur ts) = Ret r ->
  forall u, In u l -> exists tu, creationTime dr u = Some tu.
Proof.
  revert cur ts. induction l as [| v rest IH]; intros cur ts H u Hu.
  - destruct Hu.
  - simpl in H. bind_inv H.
    apply resultOf_wrap_Ret, resultOf_remote_Ret in Ha.
    destruct (moConfig a) as [info |] eqn:Hc; [| discriminate].
    destruct (CreateDate info) as [t |] eqn:Ht; [| discriminate].
    destruct Hu as [<- | Hu].
    + exists t. unfold creationTime. now rewrite Ha, Hc.
    + destruct (After t ts); now apply (IH _ _ H).
Qed.

Lemma filterByLatest_loop_calls (l : list VirtualMachine)
    (cur : option VirtualMachine) (ts : Time) :
  (forall u, In u l -> exists tu, creationTime dr u = Some tu) ->
  traceOf (filterByLatest_loop dr l cur ts) = map CallProperties l.
Proof.
  revert cur ts. induction l as [| v rest IH]; intros cur ts Hd; simpl.
  - reflexivity.
  - destruct (Hd v (or_introl eq_refl)) as (t & Ht).
    unfold creationTime in Ht.
    destruct (Properties dr v) as [c |] eqn:Hp; [| discriminate].
    destruct (moConfig c) as [info |] eqn:Hc; [| discriminate].
    unfold bind, wrap, remote. simpl. rewrite Hc, Ht. f_equal.
    destruct (After t ts); apply IH; intros u Hu; apply Hd; now right.
Qed.

(** X8: whenever the latest-selection stage returns, it has fetched the
    properties of every candidate once, in order, each had a creation
    date, and the one element of the list is either the first candidate
    that has the latest creation date, that date being after the zero
    time, or a nil pointer, no candidate being newer than the zero
    time. *)
Theorem filterByLatest_inversion (l : list VirtualMachine)
    (out : list (option VirtualMachine)) :
  resultOf (filterByLatest dr l) = Ret out ->
  traceOf (filterByLatest dr l) = Enter LatestStage l :: map CallProperties l
  /\
  ((out = [None] /\
    forall u, In u l ->
      exists tu, creationTime dr u = Some tu /\ (tu <= zeroTime)%Z)
   \/
   (exists w t,
      out = [Some w] /\ firstLatest dr l w /\
      creationTime dr w = Some t /\ (zeroTime < t)%Z)).
Proof.
  intros H. unfold filterByLatest in H. bind_inv H. bind_inv H.
  apply resultOf_ret in H. subst out.
  pose proof (filterByLatest_loop_returns_dated l None a0 zeroTime Ha0) as Hd.
  split.
  - unfold filterByLatest.
    rewrite (bind_run _ _ tt [Enter LatestStage l]) by reflexivity.
    simpl. f_equal. rewrite (traceOf_bind_Ret _ _ a0 Ha0).
    rewrite filterByLatest_loop_calls by assumption. apply app_nil_r.
  - destruct (filterByLatest_loop_spec dr l None zeroTime Hd) as
      [[Hall Hres] | (pre & w & post & t & Hl & Hw & Hlt & Hpre & Hpost & Hres)].
    + left. rewrite Hres in Ha0. injection Ha0 as <-. now split.
    + right. rewrite Hres in Ha0. injection Ha0 as <-.
      exists w, t. repeat split; try assumption. now exists pre, post, t.
Qed.

End LatestMore.

Lemma filterByLatest_inversion_witness :
  let dr := Sim.simDriver Sim.twoLatest in
  let l := [Sim.vm "vm-1" "web-1"; Sim.vm "vm-2" "web-2";
            Sim.vm "vm-3" "web-3"] in
  let out := [Some (Sim.vm "vm-2" "web-2")] in
  traceOf (filterByLatest dr l) = Enter LatestStage l :: map CallProperties l
  /\
  ((out = [None] /\
    forall u, In u l ->
      exists tu, creationTime dr u = Some tu /\ (tu <= zeroTime)%Z)
   \/
   (exists w t,
      out = [Some w] /\ firstLatest dr l w /\
      creationTime dr w = Some t /\ (zeroTime < t)%Z)).
Proof.
  apply (filterByLatest_inversion (Sim.simDriver Sim.twoLatest)
           [Sim.vm "vm-1" "web-1"; Sim.vm "vm-2" "web-2";
            Sim.vm "vm-3" "web-3"]
           [Some (Sim.vm "vm-2" "web-2")]).
  reflexivity.
Defined.

(** ** The tag stage and the list of required tags *)

Section TagsMore.

Variable dr : VCenterDriver.

Lemma retained_functional {A : Type} (P : A -> Prop) (l k1 k2 : list A) :
  retained P l k1 -> retained P l k2 -> k1 = k2.
Proof.
  intros H1. revert k2.
  induction H1 as [| a l k Ha _ IH | a l k Hna _ IH]; intros k2 H2;
    inversion H2; subst; try contradiction.
  - reflexivity.
  - f_equal. now apply IH.
  - now apply IH.
Qed.

Lemma retained_weaken {A : Type} (P Q : A -> Prop) (l k1 k2 : list A) :
  (forall a, Q a -> P a) ->
  retained P l k1 -> retained Q l k2 -> retained Q k1 k2.
Proof.
  intros Hqp H1. revert k2.
  induction H1 as [| a l k Ha _ IH | a l k Hna _ IH]; intros k2 H2;
    inversion H2; subst.
  - constructor.
  - apply retained_keep; [assumption | now apply IH].
  - apply retained_drop; [assumption | now apply IH].
  - exfalso. apply Hna. now apply Hqp.
  - now apply IH.
Qed.

Lemma filterByTags_retained (vmTags : list Tag)
    (vmList out : list VirtualMachine) :
  resultOf (filterByTags dr vmTags vmList) = Ret out ->
  retained (hasAllTags dr vmTags) vmList out.
Proof.
  intros H. unfold filterByTags in H. bind_inv H.
  apply filterByTags_loop_spec in H.
  destruct H as (kept & Hout & Hret & _). simpl in Hout. now subst kept.
Qed.

Lemma hasAllTags_incl (tags1 tags2 : list Tag) (v : VirtualMachine) :
  incl tags1 tags2 -> hasAllTags dr tags2 v -> hasAllTags dr tags1 v.
Proof.
  intros Hincl (ts & Hts & Hall). exists ts. split; [assumption |].
  intros r Hr. apply Hall. now apply Hincl.
Qed.

(** X9: the machines the tag stage retains depend on which tags are
    required, not on their order nor on repetitions: two lists with the
    same tags give the same output, whenever both runs return. *)
Theorem filterByTags_order_irrelevant (tags1 tags2 : list Tag)
    (vmList out1 out2 : list VirtualMachine) :
  (forall t, In t tags1 <-> In t tags2) ->
  resultOf (filterByTags dr tags1 vmList) = Ret out1 ->
  resultOf (filterByTags dr tags2 vmList) = Ret out2 ->
  out1 = out2.
Proof.
  intros Hsame H1 H2.
  apply filterByTags_retained in H1. apply filterByTags_retained in H2.
  assert (H12 : retained (hasAllTags dr tags2) out1 out2).
  { apply (retained_weaken (hasAllTags dr tags1) (hasAllTags dr tags2)
             vmList); try assumption.
    intros v. apply hasAllTags_incl. intros t. apply Hsame. }
  assert (H11 : retained (hasAllTags dr tags2) out1 out1).
  { assert (Hall : forall v, In v out1 -> hasAllTags dr tags2 v).
    { intros v Hv. apply (retained_In _ _ _ H1) in Hv.
      destruct Hv as [_ Hv]. revert Hv. apply hasAllTags_incl.
      intros t. apply Hsame. }
    clear H1 H12. induction out1 as [| a k IH]; [constructor |].
    apply retained_keep; [apply Hall; now left |].
    apply IH. intros v Hv. apply Hall. now right. }
  symmetry. exact (retained_functional _ _ _ _ H12 H11).
Qed.

(** X10: requiring more tags only narrows: the output for the longer list of
    tags is the output for the shorter one, without the machines that
    lack one of the tags. *)
Theorem filterByTags_more_tags_narrow (tags1 tags2 : list Tag)
    (vmList out1 out2 : list VirtualMachine) :
  incl tags1 tags2 ->
  resultOf (filterByTags dr tags1 vmList) = Ret out1 ->
  resultOf (filterByTags dr tags2 vmList) = Ret out2 ->
  retained (hasAllTags dr tags2) out1 out2 /\
  (forall v, In v out2 -> In v out1).
Proof.
  intros Hincl H1 H2.
  apply filterByTags_retained in H1. apply filterByTags_retained in H2.
  assert (H12 : retained (hasAllTags dr tags2) out1 out2).
  { apply (retained_weaken (hasAllTags dr tags1) (hasAllTags dr tags2)
             vmList); try assumption.
    intros v. now apply hasAllTags_incl. }
  split; [assumption |].
  intros v Hv. now apply (retained_In _ _ _ H12) in Hv.
Qed.

End TagsMore.

Lemma filterByTags_order_irrelevant_witness :
  [Sim.vm "vm-2" "web-2"] = [Sim.vm "vm-2" "web-2"].
Proof.
  apply (filterByTags_order_irrelevant (Sim.simDriver Sim.mixed)
           [ {| tagName := "ops"; tagCategory := "team" |};
             {| tagName := "prod"; tagCategory := "tier" |} ]
           [ {| tagName := "prod"; tagCategory := "tier" |};
             {| tagName := "ops"; tagCategory := "team" |};
             {| tagName := "prod"; tagCategory := "tier" |} ]
           [Sim.vm "vm-1" "web-1"; Sim.vm "vm-2" "web-2";
            Sim.vm "vm-3" "db-1"]).
  - intros t; simpl; tauto.
  - reflexivity.
  - reflexivity.
Defined.

Lemma filterByTags_more_tags_narrow_witness :
  let dr := Sim.simDriver Sim.mixed in
  let tags2 := [ {| tagName := "ops"; tagCategory := "team" |};
                 {| tagName := "prod"; tagCategory := "tier" |} ] in
  let out1 := [Sim.vm "vm-1" "web-1"; Sim.vm "vm-2" "web-2"] in
  let out2 := [Sim.vm "vm-2" "web-2"] in
  retained (hasAllTags dr tags2) out1 out2 /\
  (forall v, In v out2 -> In v out1).
Proof.
  apply (filterByTags_more_tags_narrow (Sim.simDriver Sim.mixed)
           [ {| tagName := "ops"; tagCategory := "team" |} ]
           [ {| tagName := "ops"; tagCategory := "team" |};
             {| tagName := "prod"; tagCategory := "tier" |} ]
           [Sim.vm "vm-1" "web-1"; Sim.vm "vm-2" "web-2";
            Sim.vm "vm-3" "db-1"]).
  - intros t [<- | []]. now left.
  - reflexivity.
  - reflexivity.
Defined.

(** ** Execute, read backwards *)

Section ExecuteErrors.

Context {RE : RegexpLib}.

Lemma filterByNameRegex_loop_no_error (re : option Regexp)
    (vmList acc : list VirtualMachine) (msg : error) :
  resultOf (filterByNameRegex_loop re vmList acc) <> Err msg.
Proof.
  revert acc. induction vmList as [| i rest IH]; intros acc; simpl.
  - discriminate.
  - destruct re as [r |]; [| discriminate].
    destruct (MatchString r (vmName i)); apply IH.
Qed.

Lemma regexStep_no_error (cfg : Config) (l : list VirtualMachine)
    (msg : error) :
  resultOf (regexStep cfg l) <> Err msg.
Proof.
  unfold regexStep. destruct (negb (NameRegex cfg =? "")%string);
    [| discriminate].
  unfold filterByNameRegex. rewrite (bind_Ret _ _ tt) by reflexivity.
  apply filterByNameRegex_loop_no_error.
Qed.

Lemma filterByTemplate_error (dr : VCenterDriver)
    (vmList : list VirtualMachine) (msg : error) :
  resultOf (filterByTemplate dr vmList) = Err msg ->
  exists e, msg = Errorf "error checking if virtual machine is a template" e.
Proof.
  unfold filterByTemplate. rewrite (bind_Ret _ _ tt) by reflexivity.
  generalize (@nil VirtualMachine).
  induction vmList as [| i rest IH]; intros acc H; simpl in H.
  - discriminate.
  - apply bind_Err_inv in H. destruct H as [H | (b & _ & H)].
    + apply wrap_remote_Err_inv in H. destruct H as (e & _ & ->).
      now exists e.
    + destruct b; eapply IH; eassumption.
Qed.

Lemma filterByHost_error (dr : VCenterDriver) (cfg : Config)
    (vmList : list VirtualMachine) (msg : error) :
  resultOf (filterByHost dr cfg vmList) = Err msg ->
  exists e,
    msg = Errorf "error finding defined host system" e \/
    msg = Errorf "error retrieving properties of host system" e \/
    msg = Errorf "failed to get properties for the virtual machine" e.
Proof.
  unfold filterByHost. rewrite (bind_Ret _ _ tt) by reflexivity. intros H.
  apply bind_Err_inv in H. destruct H as [H | (obj & _ & H)].
  { apply wrap_remote_Err_inv in H. destruct H as (e & _ & ->).
    exists e. now left. }
  apply bind_Err_inv in H. destruct H as [H | (hostVm & _ & H)].
  { apply wrap_remote_Err_inv in H. destruct H as (e & _ & ->).
    exists e. right. now left. }
  apply bind_Err_inv in H. destruct H as [H | (hostVms & _ & H)].
  { apply wrap_remote_Err_inv in H. destruct H as (e & _ & ->).
    exists e. right. now right. }
  discriminate.
Qed.

Lemma filterByTags_scan_error (dr : VCenterDriver) (configTag : Tag)
    (realTagsList : list AttachedTag) (msg : error) :
  resultOf (filterByTags_scan dr configTag realTagsList) = Err msg ->
  exists e, msg = Errorf "failed to return tag category for tag" e.
Proof.
  induction realTagsList as [| realTag rest IH]; intros H; simpl in H.
  - discriminate.
  - destruct (tagName configTag =? atName realTag)%string; [| now apply IH].
    apply bind_Err_inv in H. destruct H as [H | (c & _ & H)].
    + apply wrap_remote_Err_inv in H. destruct H as (e & _ & ->).
      now exists e.
    + destruct (tagCategory configTag =? catName c)%string;
        [discriminate | now apply IH].
Qed.

Lemma filterByTags_count_error (dr : VCenterDriver) (vmTags : list Tag)
    (realTagsList : list AttachedTag) (n : nat) (msg : error) :
  resultOf (filterByTags_count dr vmTags realTagsList n) = Err msg ->
  exists e, msg = Errorf "failed to return tag category for tag" e.
Proof.
  revert n. induction vmTags as [| configTag rest IH]; intros n H;
    simpl in H.
  - discriminate.
  - apply bind_Err_inv in H. destruct H as [H | (b & _ & H)].
    + now apply filterByTags_scan_error in H.
    + destruct b; [eapply IH; eassumption | discriminate].
Qed.

Lemma filterByTags_error (dr : VCenterDriver) (vmTags : list Tag)
    (vmList : list VirtualMachine) (msg : error) :
  resultOf (filterByTags dr vmTags vmList) = Err msg ->
  exists e,
    msg = Errorf "failed return tags for the virtual machine" e \/
    msg = Errorf "failed to return tag category for tag" e.
Proof.
  unfold filterByTags. rewrite (bind_Ret _ _ tt) by reflexivity.
  generalize (@nil VirtualMachine).
  induction vmList as [| v rest IH]; intros acc H; simpl in H.
  - discriminate.
  - apply bind_Err_inv in H. destruct H as [H | (ts & _ & H)].
    { apply wrap_remote_Err_inv in H. destruct H as (e & _ & ->).
      exists e. now left. }
    apply bind_Err_inv in H. destruct H as [H | (n & _ & H)].
    { apply filterByTags_count_error in H. destruct H as (e & ->).
      exists e. now right. }
    destruct (n =? length vmTags)%nat; eapply IH; eassumption.
Qed.

Lemma filterByLatest_error (dr : VCenterDriver)
    (vmList : list VirtualMachine) (msg : error) :
  resultOf (filterByLatest dr vmList) = Err msg ->
  exists e,
    msg = Errorf "error retrieving config properties for the virtual machine"
            e.
Proof.
  unfold filterByLatest. rewrite (bind_Ret _ _ tt) by reflexivity. intros H.
  apply bind_Err_inv in H. destruct H as [H | (w & _ & H)];
    [| discriminate].
  revert H. generalize (@None VirtualMachine) zeroTime.
  induction vmList as [| v rest IH]; intros cur ts H; simpl in H.
  - discriminate.
  - apply bind_Err_inv in H. destruct H as [H | (c & _ & H)].
    + apply wrap_remote_Err_inv in H. destruct H as (e & _ & ->).
      now exists e.
    + destruct (moConfig c) as [info |]; [| discriminate].
      destruct (CreateDate info) as [t |]; [| discriminate].
      destruct (After t ts); eapply IH; eassumption.
Qed.

Lemma selectOne_error (dr : VCenterDriver) (cfg : Config)
    (l : list VirtualMachine) (msg : error) :
  resultOf (selectOne dr cfg l) = Err msg ->
  msg = "no virtual machine matches the filters"%string \/
  msg = "more than one virtual machine matched the filters"%string \/
  exists e,
    msg = Errorf "failed to find the latest virtual machine"
            (Errorf
               "error retrieving config properties for the virtual machine"
               e).
Proof.
  intros H. destruct l as [| a [| b rest]].
  - left. now injection H.
  - discriminate.
  - rewrite selectOne_many in H by (simpl; lia).
    apply bind_Err_inv in H. destruct H as [H | (out & _ & H)].
    + destruct (Latest cfg).
      * apply resultOf_wrap_Err_inv in H. destruct H as (e' & H & ->).
        apply filterByLatest_error in H. destruct H as (e & ->).
        right. right. now exists e.
      * right. left. now injection H.
    + destruct out as [| [w |] rest']; discriminate.
Qed.

(** X12: every error [Execute] returns bears one of eleven messages: the two
    fixed ones of the final count, or a remote error under the prefix of
    the step, and for a filter under the prefix of the stage as well. *)
Theorem Execute_error_messages
    (NewDriver : ConnectConfig -> reply VCenterDriver) (d : Datasource)
    (msg : error) :
  resultOf (Execute NewDriver d) = Err msg ->
  executeErrorMessage msg.
Proof.
  unfold Execute, executeErrorMessage. intros H.
  apply bind_Err_inv in H. destruct H as [H | (dr & _ & H)].
  { apply wrap_remote_Err_inv in H. destruct H as (e & _ & He).
    right. right. exists e. tauto. }
  apply bind_Err_inv in H. destruct H as [H | (survivors & _ & H)].
  2: { apply selectOne_error in H. destruct H as [H | [H | (e & He)]];
         [tauto | tauto |].
       right. right. exists e. tauto. }
  unfold filterChain in H.
  apply bind_Err_inv in H. destruct H as [H | (l3 & _ & H)].
  2: { unfold tagsStep in H.
       destruct ((0 <? length l3)%nat && _); [| discriminate].
       apply resultOf_wrap_Err_inv in H. destruct H as (e' & H & ->).
       apply filterByTags_error in H. destruct H as (e & [-> | ->]);
         right; right; exists e; tauto. }
  unfold candidatesBeforeTags in H.
  apply bind_Err_inv in H. destruct H as [H | (l0 & _ & H)].
  { apply wrap_remote_Err_inv in H. destruct H as (e & _ & He).
    right. right. exists e. tauto. }
  apply bind_Err_inv in H. destruct H as [H | (l1 & _ & H)].
  { now apply regexStep_no_error in H. }
  apply bind_Err_inv in H. destruct H as [H | (l2 & _ & H)].
  { unfold templateStep in H.
    destruct ((0 <? length l1)%nat && _); [| discriminate].
    apply resultOf_wrap_Err_inv in H. destruct H as (e' & H & ->).
    apply filterByTemplate_error in H. destruct H as (e & ->).
    right. right. exists e. tauto. }
  unfold hostStep in H.
  destruct ((0 <? length l2)%nat && _); [| discriminate].
  apply resultOf_wrap_Err_inv in H. destruct H as (e' & H & ->).
  apply filterByHost_error in H. destruct H as (e & [-> | [-> | ->]]);
    right; right; exists e; tauto.
Qed.

(** *** What the steps keep *)

Lemma regexStep_incl (cfg : Config) (l out : list VirtualMachine) :
  resultOf (regexStep cfg l) = Ret out -> incl out l.
Proof.
  unfold regexStep. destruct (negb (NameRegex cfg =? "")%string).
  - unfold filterByNameRegex. rewrite (bind_Ret _ _ tt) by reflexivity.
    destruct (Compile (NameRegex cfg)) as [re |].
    + rewrite filterByNameRegex_loop_filter. intros H.
      apply resultOf_ret in H. subst out. intros v Hv.
      now apply filter_In in Hv.
    + destruct l as [| i rest]; [| discriminate].
      intros H. apply resultOf_ret in H. subst out. apply incl_refl.
  - intros H. apply resultOf_ret in H. subst out. apply incl_refl.
Qed.

Lemma templateStep_incl (dr : VCenterDriver) (cfg : Config)
    (l out : list VirtualMachine) :
  resultOf (templateStep dr cfg l) = Ret out -> incl out l.
Proof.
  unfold templateStep. destruct ((0 <? length l)%nat && Template cfg).
  - intros H. apply resultOf_wrap_Ret in H.
    unfold filterByTemplate in H. bind_inv H.
    pose proof (filterByTemplate_loop_answers dr l [] out H) as Hok.
    rewrite (filterByTemplate_loop_run dr l [] Hok) in H.
    apply Ret_inj in H. subst out. intros v Hv. now apply filter_In in Hv.
  - intros H. apply resultOf_ret in H. subst out. apply incl_refl.
Qed.

Lemma hostStep_incl (dr : VCenterDriver) (cfg : Config)
    (l out : list VirtualMachine) :
  resultOf (hostStep dr cfg l) = Ret out -> incl out l.
Proof.
  unfold hostStep.
  destruct ((0 <? length l)%nat && negb (Host cfg =? "")%string).
  - intros H. apply resultOf_wrap_Ret, filterByHost_Ret in H.
    destruct H as (names & _ & ->).
    rewrite filterByHost_loop_flat_map. simpl. intros v Hv.
    apply in_flat_map in Hv. destruct Hv as (u & Hu & Hv).
    apply repeat_spec in Hv. now subst.
  - intros H. apply resultOf_ret in H. subst out. apply incl_refl.
Qed.

Lemma tagsStep_incl (dr : VCenterDriver) (cfg : Config)
    (l out : list VirtualMachine) :
  resultOf (tagsStep dr cfg l) = Ret out -> incl out l.
Proof.
  unfold tagsStep.
  destruct ((0 <? length l)%nat
            && match Tags cfg with Some _ => true | None => false end).
  - intros H. apply resultOf_wrap_Ret, filterByTags_retained in H.
    intros v Hv. now apply (retained_In _ _ _ H) in Hv.
  - intros H. apply resultOf_ret in H. subst out. apply incl_refl.
Qed.

Lemma filterChain_incl (dr : VCenterDriver) (cfg : Config)
    (out : list VirtualMachine) :
  resultOf (filterChain dr cfg) = Ret out ->
  exists l0, VirtualMachineList dr (Name cfg) = Ok l0 /\ incl out l0.
Proof.
  unfold filterChain, candidatesBeforeTags. intros H.
  bind_inv H. bind_inv Ha. bind_inv Ha. bind_inv Ha.
  apply resultOf_wrap_Ret, resultOf_remote_Ret in Ha0.
  exists a0. split; [assumption |].
  apply regexStep_incl in Ha1. apply templateStep_incl in Ha2.
  apply hostStep_incl in Ha. apply tagsStep_incl in H.
  intros v Hv. auto.
Qed.

Lemma filterByLatest_Ret_cases (dr : VCenterDriver)
    (l : list VirtualMachine) (out : list (option VirtualMachine)) :
  resultOf (filterByLatest dr l) = Ret out ->
  out = [None] \/
  exists w t,
    out = [Some w] /\ firstLatest dr l w /\
    creationTime dr w = Some t /\ (zeroTime < t)%Z.
Proof.
  intros H. unfold filterByLatest in H. bind_inv H. bind_inv H.
  apply resultOf_ret in H. subst out.
  pose proof (filterByLatest_loop_returns_dated dr l None a0 zeroTime Ha0)
    as Hd.
  destruct (filterByLatest_loop_spec dr l None zeroTime Hd) as
    [[Hall Hres] | (pre & w & post & t & Hl & Hw & Hlt & Hpre & Hpost & Hres)].
  - left. rewrite Hres in Ha0. now injection Ha0 as <-.
  - right. rewrite Hres in Ha0. injection Ha0 as <-.
    exists w, t. repeat split; try assumption. now exists pre, post, t.
Qed.

(** X13: when [Execute] succeeds, the filters have returned machines that the
    finder listed, and either exactly one is left and its name is
    returned, or [Latest] is set, several are left, and the name returned
    is that of the first of those that have the latest creation date,
    which is after the zero time.  So the name returned is always the name
    of a machine the finder listed. *)
Theorem Execute_success_inversion
    (NewDriver : ConnectConfig -> reply VCenterDriver) (d : Datasource)
    (o : DatasourceOutput) :
  resultOf (Execute NewDriver d) = Ret o ->
  exists dr l0 survivors v,
    NewDriver (connect (config d)) = Ok dr /\
    VirtualMachineList dr (Name (config d)) = Ok l0 /\
    resultOf (filterChain dr (config d)) = Ret survivors /\
    incl survivors l0 /\
    In v survivors /\
    o = {| VmName := vmName v |} /\
    (survivors = [v] \/
     (2 <= length survivors /\ Latest (config d) = true /\
      firstLatest dr survivors v /\
      exists t, creationTime dr v = Some t /\ (zeroTime < t)%Z)).
Proof.
  unfold Execute. intros H. bind_inv H. bind_inv H.
  apply resultOf_wrap_Ret, resultOf_remote_Ret in Ha.
  destruct (filterChain_incl a (config d) a0 Ha0) as (l0 & Hl0 & Hincl).
  exists a, l0, a0.
  destruct a0 as [| v [| b rest]].
  - discriminate.
  - exists v. apply Ret_inj in H. subst o.
    repeat split; try assumption; [now left | now left].
  - rewrite selectOne_many in H by (simpl; lia). bind_inv H.
    destruct (Latest (config d)) eqn:Hl; [| discriminate].
    apply resultOf_wrap_Ret in Ha1.
    apply filterByLatest_Ret_cases in Ha1.
    destruct Ha1 as [-> | (w & t & -> & Hw & Ht & Hpos)]; [discriminate |].
    apply Ret_inj in H. subst o. exists w.
    repeat split; try assumption.
    + destruct Hw as (pre & post & _ & -> & _).
      apply in_or_app. right. now left.
    + right. repeat split; try assumption; [simpl; lia | now exists t].
Qed.

End ExecuteErrors.

Lemma Execute_error_messages_witness :
  executeErrorMessage
    (Errorf "failed to filter by host attribute"
       (Errorf "error finding defined host system" "host not found")).
Proof.
  apply (@Execute_error_messages Sim.plainRegexp
           (Sim.simNewDriver Sim.mixed)
           {| config := Sim.withHost "esx-9" Sim.baseConfig |}).
  reflexivity.
Defined.

Lemma Execute_success_inversion_witness :
  let d := {| config := Sim.withLatest true Sim.baseConfig |} in
  exists dr l0 survivors v,
    Sim.simNewDriver Sim.twoLatest (connect (config d)) = Ok dr /\
    VirtualMachineList dr (Name (config d)) = Ok l0 /\
    resultOf (@filterChain Sim.plainRegexp dr (config d)) = Ret survivors /\
    incl survivors l0 /\
    In v survivors /\
    {| VmName := "web-2" |} = {| VmName := vmName v |} /\
    (survivors = [v] \/
     (2 <= length survivors /\ Latest (config d) = true /\
      firstLatest dr survivors v /\
      exists t, creationTime dr v = Some t /\ (zeroTime < t)%Z)).
Proof.
  apply (@Execute_success_inversion Sim.plainRegexp
           (Sim.simNewDriver Sim.twoLatest)
           {| config := Sim.withLatest true Sim.baseConfig |}
           {| VmName := "web-2" |}).
  reflexivity.
Defined.

(** ** Execute: failures of the lookups, and when creation dates are read *)

Section ExecuteAborts.

Context {RE : RegexpLib}.
Variable NewDriver : ConnectConfig -> reply VCenterDriver.

Lemma bind_ext {A B : Type} (m : M A) (f g : A -> M B) :
  (forall a, f a = g a) -> bind m f = bind m g.
Proof.
  intros H. destruct m as [[a | e |] t]; simpl; try reflexivity.
  unfold bind. now rewrite H.
Qed.

Lemma candidatesBeforeTags_split (dr : VCenterDriver) (cfg : Config) :
  candidatesBeforeTags dr cfg =
  bind (candidatesBeforeHost dr cfg) (hostStep dr cfg).
Proof.
  unfold candidatesBeforeTags, candidatesBeforeHost.
  rewrite bind_assoc. apply bind_ext. intros l.
  now rewrite bind_assoc.
Qed.

(** X14: when the driver cannot be set up, or the finder fails (it does when
    the pattern matches no machine), [Execute] returns that error under
    the prefix of the step, and makes no other call: no filter runs. *)
Theorem Execute_lookup_failure (d : Datasource) (e : error) :
  (NewDriver (connect (config d)) = Fail e ->
   Execute NewDriver d =
   (Err (Errorf "failed to initialize driver" e), [CallNewDriver])) /\
  (forall dr,
     NewDriver (connect (config d)) = Ok dr ->
     VirtualMachineList dr (Name (config d)) = Fail e ->
     Execute NewDriver d =
     (Err (Errorf "failed to retrieve virtual machines list" e),
      [CallNewDriver; CallVirtualMachineList (Name (config d))])).
Proof.
  split.
  - intros Hdr. unfold Execute.
    now rewrite (wrap_remote_Fail _ _ e _ Hdr).
  - intros dr Hdr Hl. unfold Execute.
    rewrite (bind_run _ _ dr [CallNewDriver])
      by (now apply (wrap_remote_Ok _ _ dr)).
    cbv beta. unfold filterChain, candidatesBeforeTags.
    now rewrite (wrap_remote_Fail _ _ e _ Hl).
Qed.

(** X15: when candidates are left for the host filter and the configured host
    is not found, [Execute] returns the error of the lookup under both
    prefixes, and the lookup of the host is the last call it makes: the
    tag and latest-selection stages are not reached. *)
Theorem Execute_host_not_found (d : Datasource) (dr : VCenterDriver)
    (l : list VirtualMachine) (e : error) :
  NewDriver (connect (config d)) = Ok dr ->
  resultOf (candidatesBeforeHost dr (config d)) = Ret l ->
  l <> [] ->
  Host (config d) <> "" ->
  HostSystem dr (Host (config d)) = Fail e ->
  Execute NewDriver d =
  (Err (Errorf "failed to filter by host attribute"
          (Errorf "error finding defined host system" e)),
   CallNewDriver :: traceOf (candidatesBeforeHost dr (config d))
   ++ [Enter HostStage l; CallHostSystem (Host (config d))]).
Proof.
  intros Hdr Hl Hne Hhost He. unfold Execute.
  rewrite (bind_run _ _ dr [CallNewDriver])
    by (now apply (wrap_remote_Ok _ _ dr)).
  cbv beta. unfold filterChain. rewrite candidatesBeforeTags_split.
  assert (Hstep : hostStep dr (config d) l =
            (Err (Errorf "failed to filter by host attribute"
                    (Errorf "error finding defined host system" e)),
             [Enter HostStage l; CallHostSystem (Host (config d))])).
  { unfold hostStep. destruct l as [| v rest]; [congruence |].
    apply String.eqb_neq in Hhost. rewrite Hhost. simpl.
    unfold filterByHost. now rewrite (wrap_remote_Fail _ _ e _ He). }
  rewrite (run_eq (candidatesBeforeHost dr (config d))) at 1 2.
  rewrite Hl.
  assert (Hin : bind (Ret l, traceOf (candidatesBeforeHost dr (config d)))
                  (hostStep dr (config d)) =
                (Err (Errorf "failed to filter by host attribute"
                        (Errorf "error finding defined host system" e)),
                 traceOf (candidatesBeforeHost dr (config d))
                 ++ [Enter HostStage l; CallHostSystem (Host (config d))]))
    by (unfold bind; now rewrite Hstep).
  rewrite Hin. reflexivity.
Qed.

Lemma filterChain_events (dr : VCenterDriver) (cfg : Config) :
  traceIn (fun e => eventStage e <> Some LatestStage) (filterChain dr cfg).
Proof.
  unfold filterChain, candidatesBeforeTags.
  repeat (apply traceIn_bind; [| intros ? _]).
  - apply traceIn_wrap, traceIn_remote. discriminate.
  - apply traceIn_weaken with (2 := regexStep_events _ _).
    intros e [He _]. rewrite He. discriminate.
  - apply traceIn_weaken with (2 := templateStep_events _ _ _).
    intros e [He _]. rewrite He. discriminate.
  - apply traceIn_weaken with (2 := hostStep_events _ _ _).
    intros e [He _]. rewrite He. discriminate.
  - apply traceIn_weaken with (2 := tagsStep_events _ _ _).
    intros e [He _]. rewrite He. discriminate.
Qed.

(** X16: the latest-selection stage is called, and creation dates are
    fetched, only when [Latest] is set and the filters have left at least
    two machines: with one machine left no creation date is read. *)
Theorem Execute_latest_only_when_several (d : Datasource) (ev : event) :
  In ev (traceOf (Execute NewDriver d)) ->
  eventStage ev = Some LatestStage ->
  Latest (config d) = true /\
  exists dr survivors,
    NewDriver (connect (config d)) = Ok dr /\
    resultOf (filterChain dr (config d)) = Ret survivors /\
    2 <= length survivors.
Proof.
  intros H Hs. unfold Execute in H.
  apply In_traceOf_bind in H. destruct H as [H | (dr & Hdr & H)].
  { rewrite traceOf_wrap in H. destruct H as [<- | []]. discriminate. }
  apply resultOf_wrap_Ret, resultOf_remote_Ret in Hdr.
  apply In_traceOf_bind in H. destruct H as [H | (survivors & Hsv & H)].
  { now apply filterChain_events in H. }
  destruct survivors as [| a [| b rest]]; try destruct H.
  rewrite selectOne_many in H by (simpl; lia).
  apply In_traceOf_bind in H. destruct H as [H | (out & _ & H)].
  - destruct (Latest (config d)); [| destruct H].
    split; [reflexivity |]. exists dr, (a :: b :: rest).
    repeat split; try assumption. simpl. lia.
  - destruct out as [| [w |] rest']; destruct H.
Qed.

(** Events of a run of [Execute]: setting up the driver, the one call of
    the finder with the configured name, and events of the stages. *)
Lemma Execute_events (d : Datasource) :
  traceIn
    (fun e => e = CallNewDriver \/
              e = CallVirtualMachineList (Name (config d)) \/
              exists s, stepEvents (config d) s e)
    (Execute NewDriver d).
Proof.
  unfold Execute, filterChain, candidatesBeforeTags.
  repeat (apply traceIn_bind; [| intros ? _]).
  - apply traceIn_wrap, traceIn_remote. now left.
  - apply traceIn_wrap, traceIn_remote. right. now left.
  - apply traceIn_weaken with (2 := regexStep_events _ _).
    intros e He. right. right. now exists NameRegexStage.
  - apply traceIn_weaken with (2 := templateStep_events _ _ _).
    intros e He. right. right. now exists TemplateStage.
  - apply traceIn_weaken with (2 := hostStep_events _ _ _).
    intros e He. right. right. now exists HostStage.
  - apply traceIn_weaken with (2 := tagsStep_events _ _ _).
    intros e He. right. right. now exists TagsStage.
  - apply traceIn_weaken with (2 := selectOne_events _ _ _).
    intros e He. right. right. now exists LatestStage.
Qed.

Lemma Execute_finder_glob (d : Datasource) (glob : string) :
  In (CallVirtualMachineList glob) (traceOf (Execute NewDriver d)) ->
  glob = Name (config d).
Proof.
  intros H. apply Execute_events in H.
  destruct H as [H | [H | (s & H & _)]]; try discriminate.
  now injection H.
Qed.

End ExecuteAborts.

Section ConfigureThenExecute.

Context {RE : RegexpLib}.
Variable Raw : Type.
Variable Decode : Config -> list Raw -> Config * option error.

(** X17: after a [Configure] that returns no error, the configuration of the
    data source has a server, a user name and a password, every tag block
    has its name and its category, and the name pattern is not empty: it
    is the one decoded, or ["*"] when none was given.  [Execute] then
    asks the finder for that pattern and for no other. *)
Theorem Configure_then_Execute (d : Datasource) (raws : list Raw) :
  snd (Configure Decode d raws) = None ->
  let decoded := fst (Decode (config d) raws) in
  let cfg := config (fst (Configure Decode d raws)) in
  VCenterServer (connect cfg) <> "" /\
  Username (connect cfg) <> "" /\
  Password (connect cfg) <> "" /\
  (forall tag, In tag (elems (Tags cfg)) ->
     tagName tag <> "" /\ tagCategory tag <> "") /\
  Name cfg = (if (Name decoded =? "")%string then "*" else Name decoded) /\
  Name cfg <> "" /\
  (forall NewDriver glob,
     In (CallVirtualMachineList glob)
        (traceOf (Execute NewDriver (fst (Configure Decode d raws)))) ->
     glob = Name cfg /\ glob <> "").
Proof.
  unfold Configure. destruct (Decode (config d) raws) as [cfg [e |]]; simpl;
    [discriminate |].
  rewrite Configure_validate_spec, violations_defaultName. intros H.
  assert (Hv : violations cfg = [])
    by (destruct (violations cfg); [reflexivity | discriminate]).
  apply violations_nil_iff in Hv. destruct Hv as (Hs & Hu & Hp & Ht).
  assert (Hname : Name (defaultName cfg) =
                  (if (Name cfg =? "")%string then "*" else Name cfg))
    by (unfold defaultName; now destruct (Name cfg =? "")%string).
  assert (Hne : Name (defaultName cfg) <> "").
  { rewrite Hname. destruct (String.eqb_spec (Name cfg) "");
      [discriminate | assumption]. }
  assert (Hc : connect (defaultName cfg) = connect cfg)
    by (unfold defaultName; now destruct (Name cfg =? "")%string).
  assert (Htags : Tags (defaultName cfg) = Tags cfg)
    by (unfold defaultName; now destruct (Name cfg =? "")%string).
  rewrite Hc, Htags. repeat split; try assumption; try (now apply Ht).
  - apply Execute_finder_glob in H0. exact H0.
  - apply Execute_finder_glob in H0. simpl in H0. now rewrite H0.
Qed.

End ConfigureThenExecute.

Lemma Execute_lookup_failure_witness :
  @Execute Sim.plainRegexp (Sim.simNewDriver Sim.mixed)
    {| config := {| connect := Sim.vcenter; Name := "mail-1";
                    NameRegex := ""; Template := false; Host := "";
                    Tags := None; Latest := false |} |}
  = (Err (Errorf "failed to retrieve virtual machines list" "vm not found"),
     [CallNewDriver; CallVirtualMachineList "mail-1"]).
Proof.
  destruct (@Execute_lookup_failure Sim.plainRegexp
              (Sim.simNewDriver Sim.mixed)
              {| config := {| connect := Sim.vcenter; Name := "mail-1";
                              NameRegex := ""; Template := false; Host := "";
                              Tags := None; Latest := false |} |}
              "vm not found") as [_ H].
  apply (H (Sim.simDriver Sim.mixed)); reflexivity.
Defined.

Lemma Execute_host_not_found_witness :
  let d := {| config := Sim.withHost "esx-9" Sim.baseConfig |} in
  let l := [Sim.vm "vm-1" "web-1"; Sim.vm "vm-2" "web-2";
            Sim.vm "vm-3" "db-1"] in
  @Execute Sim.plainRegexp (Sim.simNewDriver Sim.mixed) d =
  (Err (Errorf "failed to filter by host attribute"
          (Errorf "error finding defined host system" "host not found")),
   CallNewDriver
   :: traceOf (@candidatesBeforeHost Sim.plainRegexp
                 (Sim.simDriver Sim.mixed) (config d))
   ++ [Enter HostStage l; CallHostSystem (Host (config d))]).
Proof.
  apply (@Execute_host_not_found Sim.plainRegexp
           (Sim.simNewDriver Sim.mixed)
           {| config := Sim.withHost "esx-9" Sim.baseConfig |}
           (Sim.simDriver Sim.mixed)
           [Sim.vm "vm-1" "web-1"; Sim.vm "vm-2" "web-2";
            Sim.vm "vm-3" "db-1"] "host not found");
    try reflexivity; discriminate.
Defined.

Lemma Execute_latest_only_when_several_witness :
  let d := {| config := Sim.withLatest true Sim.baseConfig |} in
  Latest (config d) = true /\
  exists dr survivors,
    Sim.simNewDriver Sim.twoLatest (connect (config d)) = Ok dr /\
    resultOf (@filterChain Sim.plainRegexp dr (config d)) = Ret survivors /\
    2 <= length survivors.
Proof.
  apply (@Execute_latest_only_when_several Sim.plainRegexp
           (Sim.simNewDriver Sim.twoLatest)
           {| config := Sim.withLatest true Sim.baseConfig |}
           (CallProperties (Sim.vm "vm-2" "web-2"))).
  - vm_compute. do 4 right. now left.
  - reflexivity.
Defined.

Lemma Configure_then_Execute_witness :
  let configured := fst (Configure Sim.decodeFirst
                           {| config := Sim.baseConfig |}
                           [ {| connect := Sim.vcenter; Name := "";
                                NameRegex := "web"; Template := false;
                                Host := ""; Tags := None;
                                Latest := false |} ]) in
  Name (config configured) = "*" /\
  forall NewDriver glob,
    In (CallVirtualMachineList glob)
       (traceOf (@Execute Sim.plainRegexp NewDriver configured)) ->
    glob = "*" /\ glob <> "".
Proof.
  destruct (@Configure_then_Execute Sim.plainRegexp Config Sim.decodeFirst
              {| config := Sim.baseConfig |}
              [ {| connect := Sim.vcenter; Name := "";
                   NameRegex := "web"; Template := false;
                   Host := ""; Tags := None; Latest := false |} ]
              eq_refl)
    as (_ & _ & _ & _ & Hn & _ & Hg).
  split; [exact Hn | exact Hg].
Defined.

(** * The simulator of the tests *)

Section TestingFacts.

Import Testing.

Variable S : Type.
Variable api : API S.

Lemma andThen_Ret_inv {A B : Type} (m : Run S A) (f : A -> Run S B)
    (s s2 : S) (b : B) (t : list call) :
  andThen m f s = (Ret b, s2, t) ->
  exists a s1 t1 t2,
    m s = (Ret a, s1, t1) /\ f a s1 = (Ret b, s2, t2) /\ t = t1 ++ t2.
Proof.
  unfold andThen. destruct (m s) as [[[a | e |] s1] t1]; try discriminate.
  destruct (f a s1) as [[r s''] t'] eqn:Hf. intros H.
  injection H as -> -> <-. now exists a, s1, t1, t'.
Qed.

Lemma wrapped_Ret_inv {A : Type} (message : string) (m : Run S A)
    (s s1 : S) (a : A) (t : list call) :
  wrapped message m s = (Ret a, s1, t) -> m s = (Ret a, s1, t).
Proof.
  unfold wrapped. destruct (m s) as [[[a' | e |] s'] t']; congruence.
Qed.

Lemma index_Ret_inv (vms : list VirtualMachine) (i : nat) (s s1 : S)
    (vm : VirtualMachine) (t : list call) :
  index vms i s = (Ret vm, s1, t) ->
  nth_error vms i = Some vm /\ s1 = s /\ t = [].
Proof.
  unfold index. destruct (nth_error vms i) as [v |]; [| discriminate].
  intros H. injection H as -> -> <-. now repeat split.
Qed.

Lemma findCategoryID_first (catName : string)
    (pre : list Category) (c : Category) (post : list Category) :
  (forall c', In c' pre -> categoryName c' <> catName) ->
  categoryName c = catName ->
  findCategoryID catName (pre ++ c :: post) = Some (categoryID c).
Proof.
  intros Hpre Hc. induction pre as [| p pre IH]; simpl.
  - apply String.eqb_eq in Hc. now rewrite Hc.
  - assert (Hp : categoryName p <> catName) by (apply Hpre; now left).
    apply String.eqb_neq in Hp. rewrite Hp. apply IH.
    intros c' Hc'. apply Hpre. now right.
Qed.


(** X20: when a category of that name is listed, [FindOrCreateCategory]
    returns the ID of the first one in the listing; it creates nothing:
    the listing is its only call and the state is unchanged. *)
Theorem FindOrCreateCategory_found (catName : string) (s : S)
    (pre : list Category) (c : Category) (post : list Category) :
  apiGetCategories api s = Ok (pre ++ c :: post) ->
  (forall c', In c' pre -> categoryName c' <> catName) ->
  categoryName c = catName ->
  FindOrCreateCategory api catName s =
  (Ret (categoryID c), s, [GetCategoriesCall]).
Proof.
  intros Hl Hpre Hc. unfold FindOrCreateCategory, andThen, callRead, callValue.
  rewrite Hl, (findCategoryID_first catName pre c post Hpre Hc).
  reflexivity.
Qed.





(** *** CustomizeSimulator *)

Lemma attachTags_needs_machine (vms : list VirtualMachine) (i : nat)
    (tag : SimTag) (rest : list SimTag) (s s' : S) (t : list call) :
  attachTags api vms i (tag :: rest) s = (Ret tt, s', t) ->
  i < length vms.
Proof.
  simpl. intros H.
  apply andThen_Ret_inv in H. destruct H as (catID & s1 & t1 & t2 & _ & H & _).
  apply andThen_Ret_inv in H. destruct H as (tagID & s2 & t3 & t4 & _ & H & _).
  apply andThen_Ret_inv in H. destruct H as (vm & s3 & t5 & t6 & Hi & _ & _).
  apply index_Ret_inv in Hi. destruct Hi as (Hi & _ & _).
  apply nth_error_Some. congruence.
Qed.

Lemma customizeOne_needs_machine (vms : list VirtualMachine) (i : nat)
    (c : SimulatedVMConfig) (s s' : S) (t : list call) :
  customizeOne api vms i c s = (Ret tt, s', t) ->
  needsMachine c = true ->
  i < length vms.
Proof.
  unfold customizeOne, needsMachine. intros H Hn.
  apply andThen_Ret_inv in H.
  destruct H as ([] & s1 & t1 & t2 & Hname & H & _).
  apply andThen_Ret_inv in H.
  destruct H as ([] & s2 & t3 & t4 & Htpl & Htags & _).
  destruct (negb (cfgName c =? "")%string).
  { apply andThen_Ret_inv in Hname.
    destruct Hname as (vm & s3 & t5 & t6 & Hi & _ & _).
    apply index_Ret_inv in Hi. destruct Hi as (Hi & _ & _).
    apply nth_error_Some. congruence. }
  destruct (cfgTemplate c).
  { apply andThen_Ret_inv in Htpl.
    destruct Htpl as (vm & s3 & t5 & t6 & Hi & _ & _).
    apply index_Ret_inv in Hi. destruct Hi as (Hi & _ & _).
    apply nth_error_Some. congruence. }
  simpl in Hn. destruct (cfgTags c) as [[| tag rest] |]; try discriminate.
  now apply attachTags_needs_machine in Htags.
Qed.

Lemma customizeFrom_needs_machines (vms : list VirtualMachine)
    (vmsConfig : list SimulatedVMConfig) (i : nat) (s s' : S)
    (t : list call) :
  customizeFrom api vms i vmsConfig s = (Ret tt, s', t) ->
  forall j c,
    nth_error vmsConfig j = Some c -> needsMachine c = true ->
    i + j < length vms.
Proof.
  revert i s t. induction vmsConfig as [| c0 rest IH]; intros i s t H j c Hj Hn.
  - destruct j; discriminate.
  - simpl in H. apply andThen_Ret_inv in H.
    destruct H as ([] & s1 & t1 & t2 & Hone & Hrest & _).
    destruct j as [| j]; simpl in Hj.
    + injection Hj as <-. rewrite Nat.add_0_r.
      now apply (customizeOne_needs_machine vms i c0 s s1 t1).
    + specialize (IH _ _ _ Hrest j c Hj Hn). lia.
Qed.

(** X23: when [CustomizeSimulator] returns without error, the simulator
    has a machine for every configuration that renames, marks as template
    or attaches a tag.  With such a configuration past the last machine
    it cannot return without error, since reading [vms[i]] panics,
    whereas a configuration that asks for nothing may stand anywhere. *)
Theorem CustomizeSimulator_needs_machines
    (vmsConfig : list SimulatedVMConfig) (s s' : S) (t : list call) :
  CustomizeSimulator api vmsConfig s = (Ret tt, s', t) ->
  exists vms,
    apiVirtualMachineList api s "*" = Ok vms /\
    forall i c,
      nth_error vmsConfig i = Some c -> needsMachine c = true ->
      i < length vms.
Proof.
  unfold CustomizeSimulator. intros H.
  apply andThen_Ret_inv in H.
  destruct H as (vms & s1 & t1 & t2 & Hl & H & _).
  unfold callRead, callValue in Hl.
  destruct (apiVirtualMachineList api s "*") as [vms' | e]; [| discriminate].
  injection Hl as <- <- <-. exists vms'. split; [reflexivity |].
  intros i c Hi Hn.
  exact (customizeFrom_needs_machines vms' vmsConfig 0 _ _ _ H i c Hi Hn).
Qed.

Lemma callsIn_andThen {A B : Type} (P : call -> Prop) (m : Run S A)
    (f : A -> Run S B) :
  callsIn P m ->
  (forall a, (exists s s1 t1, m s = (Ret a, s1, t1)) -> callsIn P (f a)) ->
  callsIn P (andThen m f).
Proof.
  intros Hm Hf s c. unfold andThen.
  destruct (m s) as [[[a | e |] s1] t1] eqn:Hms;
    try (intros H; apply (Hm s); now rewrite Hms).
  destruct (f a s1) as [[r s''] t'] eqn:Hfs. simpl. intros H.
  apply in_app_or in H. destruct H as [H | H].
  - apply (Hm s). now rewrite Hms.
  - apply (Hf a (ex_intro _ s (ex_intro _ s1 (ex_intro _ t1 Hms))) s1).
    now rewrite Hfs.
Qed.

Lemma callsIn_wrapped {A : Type} (P : call -> Prop) (message : string)
    (m : Run S A) :
  callsIn P m -> callsIn P (wrapped message m).
Proof.
  intros Hm s c. unfold wrapped. specialize (Hm s c).
  destruct (m s) as [[[a | e |] s1] t1]; exact Hm.
Qed.

Lemma callsIn_callValue {A : Type} (P : call -> Prop) (c0 : call)
    (op : S -> reply A * S) (message : string) :
  P c0 -> callsIn P (callValue c0 op message).
Proof.
  intros Hp s c. unfold callValue.
  destruct (op s) as [[a | e] s1]; simpl; intros [<- | []]; exact Hp.
Qed.

Lemma callsIn_callError (P : call -> Prop) (c0 : call)
    (op : S -> option error * S) (message : string) :
  P c0 -> callsIn P (callError c0 op message).
Proof.
  intros Hp s c. unfold callError.
  destruct (op s) as [[e |] s1]; simpl; intros [<- | []]; exact Hp.
Qed.

Lemma callsIn_done {A : Type} (P : call -> Prop) (a : A) :
  callsIn P (@done S A a).
Proof. intros s c []. Qed.

Lemma callsIn_index (P : call -> Prop) (vms : list VirtualMachine)
    (i : nat) :
  callsIn P (@index S vms i).
Proof. intros s c. unfold index. destruct (nth_error vms i); intros []. Qed.

Lemma index_value (vms : list VirtualMachine) (i : nat)
    (vm : VirtualMachine) :
  (exists s s1 t1, @index S vms i s = (Ret vm, s1, t1)) ->
  nth_error vms i = Some vm.
Proof.
  intros (s & s1 & t1 & H). now apply index_Ret_inv in H.
Qed.

Lemma MarkSimulatedVmAsTemplate_calls (P : call -> Prop)
    (vm : VirtualMachine) :
  (forall vm' spec, P (ReconfigureCall vm' spec) -> True) ->
  P (PowerOffCall vm) -> (forall task, P (WaitCall task)) ->
  P (MarkAsTemplateCall vm) ->
  callsIn P (MarkSimulatedVmAsTemplate api vm).
Proof.
  intros _ Hp Hw Hm. unfold MarkSimulatedVmAsTemplate.
  apply callsIn_andThen; [now apply callsIn_callValue |]. intros task _.
  apply callsIn_andThen; [now apply callsIn_callError |]. intros _ _.
  now apply callsIn_callError.
Qed.

Lemma FindOrCreateCategory_calls (P : call -> Prop) (catName : string) :
  P GetCategoriesCall -> (forall c, P (CreateCategoryCall c)) ->
  callsIn P (FindOrCreateCategory api catName).
Proof.
  intros Hg Hc. unfold FindOrCreateCategory.
  apply callsIn_andThen; [now apply callsIn_callValue |]. intros l _.
  destruct (findCategoryID catName l);
    [apply callsIn_done | now apply callsIn_callValue].
Qed.

Lemma FindOrCreateTag_calls (P : call -> Prop) (catID tagName : string) :
  (forall id, P (GetTagsForCategoryCall id)) ->
  (forall t, P (CreateTagCall t)) ->
  callsIn P (FindOrCreateTag api catID tagName).
Proof.
  intros Hg Hc. unfold FindOrCreateTag.
  apply callsIn_andThen; [now apply callsIn_callValue |]. intros l _.
  destruct (findTagID tagName l);
    [apply callsIn_done | now apply callsIn_callValue].
Qed.

Lemma attachTags_calls (vms : list VirtualMachine)
    (vmsConfig : list SimulatedVMConfig) (i : nat) (tags : list SimTag) :
  callsIn (renameCall vms vmsConfig) (attachTags api vms i tags).
Proof.
  induction tags as [| tag rest IH]; simpl; [apply callsIn_done |].
  apply callsIn_andThen;
    [apply callsIn_wrapped, FindOrCreateCategory_calls; now simpl |].
  intros catID _.
  apply callsIn_andThen;
    [apply callsIn_wrapped, FindOrCreateTag_calls; now simpl |].
  intros tagID _.
  apply callsIn_andThen; [apply callsIn_index |]. intros vm _.
  apply callsIn_andThen; [now apply callsIn_callError |]. intros _ _.
  exact IH.
Qed.

Lemma customizeOne_calls (vms : list VirtualMachine)
    (vmsConfig : list SimulatedVMConfig) (i : nat) (c : SimulatedVMConfig) :
  nth_error vmsConfig i = Some c ->
  callsIn (renameCall vms vmsConfig) (customizeOne api vms i c).
Proof.
  intros Hc. unfold customizeOne.
  apply callsIn_andThen.
  { destruct (String.eqb_spec (cfgName c) "") as [E | E]; simpl;
      [apply callsIn_done |].
    apply callsIn_andThen; [apply callsIn_index |]. intros vm Hvm.
    apply index_value in Hvm.
    apply callsIn_andThen.
    - apply callsIn_callValue. simpl. now exists i, c.
    - intros task _. now apply callsIn_callError. }
  intros _ _. apply callsIn_andThen.
  { destruct (cfgTemplate c); [| apply callsIn_done].
    apply callsIn_andThen; [apply callsIn_index |]. intros vm _.
    apply callsIn_wrapped, MarkSimulatedVmAsTemplate_calls; now simpl. }
  intros _ _. destruct (cfgTags c) as [tags |];
    [apply attachTags_calls | apply callsIn_done].
Qed.

Lemma customizeFrom_calls (vms : list VirtualMachine)
    (before rest : list SimulatedVMConfig) :
  callsIn (renameCall vms (before ++ rest))
    (customizeFrom api vms (length before) rest).
Proof.
  revert before. induction rest as [| c rest IH]; intros before; simpl.
  - apply callsIn_done.
  - apply callsIn_andThen.
    + apply customizeOne_calls. rewrite nth_error_app2 by lia.
      now rewrite Nat.sub_diag.
    + intros _ _. specialize (IH (before ++ [c])).
      rewrite <- app_assoc, length_app in IH. simpl in IH.
      now rewrite Nat.add_1_r in IH.
Qed.

(** X24: in a run of [CustomizeSimulator], a machine is reconfigured only for
    the configuration of its index, only when that configuration has a
    name, and with the specification built from it.  So the creation time
    of a configuration without name is never applied. *)
Theorem CustomizeSimulator_reconfigures_named
    (vmsConfig : list SimulatedVMConfig) (s : S)
    (vms : list VirtualMachine) (vm : VirtualMachine) (spec : ConfigSpec) :
  apiVirtualMachineList api s "*" = Ok vms ->
  In (ReconfigureCall vm spec) (snd (CustomizeSimulator api vmsConfig s)) ->
  exists i c,
    nth_error vmsConfig i = Some c /\ nth_error vms i = Some vm /\
    spec = configSpecOf c /\ cfgName c <> "".
Proof.
  intros Hl H. unfold CustomizeSimulator, andThen, callRead, callValue in H.
  rewrite Hl in H.
  destruct (customizeFrom api vms 0 vmsConfig s) as [[r s'] t] eqn:Hrun.
  simpl in H. destruct H as [H | H]; [discriminate |].
  apply (customizeFrom_calls vms [] vmsConfig s (ReconfigureCall vm spec)).
  simpl. now rewrite Hrun.
Qed.

End TestingFacts.



Lemma FindOrCreateCategory_found_witness :
  Testing.FindOrCreateCategory Testing.memory "team" Testing.twoMachines =
  (Ret "cat-0", Testing.twoMachines, [Testing.GetCategoriesCall]).
Proof.
  apply (FindOrCreateCategory_found Testing.Memory Testing.memory "team"
           Testing.twoMachines []
           {| Testing.categoryID := "cat-0"; Testing.categoryName := "team";
              Testing.categoryCardinality := "MULTIPLE" |} []).
  - reflexivity.
  - intros c' [].
  - reflexivity.
Defined.



Lemma CustomizeSimulator_needs_machines_witness :
  let vmsConfig :=
    [ {| Testing.cfgName := "web-1";
         Testing.cfgTags :=
           Some [ {| Testing.simTagCategory := "team";
                     Testing.simTagName := "ops" |} ];
         Testing.cfgTemplate := true; Testing.cfgCreationTime := 5%Z |};
      {| Testing.cfgName := ""; Testing.cfgTags := None;
         Testing.cfgTemplate := false; Testing.cfgCreationTime := 7%Z |};
      {| Testing.cfgName := ""; Testing.cfgTags := Some [];
         Testing.cfgTemplate := false; Testing.cfgCreationTime := 0%Z |} ] in
  exists vms,
    Testing.apiVirtualMachineList Testing.memory Testing.twoMachines "*"
    = Ok vms /\
    forall i c,
      nth_error vmsConfig i = Some c -> Testing.needsMachine c = true ->
      i < length vms.
Proof.
  intros vmsConfig.
  destruct (Testing.CustomizeSimulator Testing.memory vmsConfig
              Testing.twoMachines) as [[r s'] t] eqn:Hrun.
  apply (CustomizeSimulator_needs_machines Testing.Memory Testing.memory
           vmsConfig Testing.twoMachines s' t).
  rewrite Hrun. vm_compute in Hrun. now injection Hrun as <- _ _.
Defined.

Lemma CustomizeSimulator_reconfigures_named_witness :
  let vmsConfig :=
    [ {| Testing.cfgName := "web-1"; Testing.cfgTags := None;
         Testing.cfgTemplate := false; Testing.cfgCreationTime := 5%Z |};
      {| Testing.cfgName := ""; Testing.cfgTags := None;
         Testing.cfgTemplate := false; Testing.cfgCreationTime := 7%Z |} ] in
  exists i c,
    nth_error vmsConfig i = Some c /\
    nth_error (Testing.memVMs Testing.twoMachines) i
    = Some {| vmReference := "vm-1"; vmName := "DC0_H0_VM0" |} /\
    {| Testing.specName := "web-1"; Testing.specCreateDate := Some 5%Z |}
    = Testing.configSpecOf c /\
    Testing.cfgName c <> "".
Proof.
  intros vmsConfig.
  apply (CustomizeSimulator_reconfigures_named Testing.Memory Testing.memory
           vmsConfig Testing.twoMachines
           (Testing.memVMs Testing.twoMachines)).
  - reflexivity.
  - vm_compute. right. now left.
Defined.

(** Three configurations that need a machine for two machines: the third
    panics, after the first two have been applied. *)
Example CustomizeSimulator_past_the_last_machine :
  fst (fst (Testing.CustomizeSimulator Testing.memory
              [ {| Testing.cfgName := "web-1"; Testing.cfgTags := None;
                   Testing.cfgTemplate := false;
                   Testing.cfgCreationTime := 0%Z |};
                {| Testing.cfgName := "web-2"; Testing.cfgTags := None;
                   Testing.cfgTemplate := false;
                   Testing.cfgCreationTime := 0%Z |};
                {| Testing.cfgName := "web-3"; Testing.cfgTags := None;
                   Testing.cfgTemplate := false;
                   Testing.cfgCreationTime := 0%Z |} ]
              Testing.twoMachines))
  = Panic.
Proof. reflexivity. Qed.

(** ** The tag stage returns when the tag manager answers *)

Section TagsReturn.

Variable dr : VCenterDriver.

Lemma filterByTags_scan_returns_known (configTag : Tag)
    (realTagsList : list AttachedTag) :
  (forall real, In real realTagsList ->
     exists category, GetCategory dr (atCategoryID real) = Ok category) ->
  exists matched,
    resultOf (filterByTags_scan dr configTag realTagsList) = Ret matched.
Proof.
  induction realTagsList as [| realTag rest IH]; intros Hcat; simpl.
  - now exists false.
  - assert (Hrest : forall real, In real rest ->
              exists category,
                GetCategory dr (atCategoryID real) = Ok category)
      by (intros real Hr; apply Hcat; now right).
    destruct (tagName configTag =? atName realTag)%string; [| now apply IH].
    destruct (Hcat realTag (or_introl eq_refl)) as (category & Hc).
    rewrite (bind_Ret _ _ category)
      by (apply resultOf_wrap_Ret, resultOf_remote_Ret; exact Hc).
    destruct (tagCategory configTag =? catName category)%string;
      [now exists true | now apply IH].
Qed.

Lemma filterByTags_count_returns_known (vmTags : list Tag)
    (realTagsList : list AttachedTag) (n0 : nat) :
  (forall real, In real realTagsList ->
     exists category, GetCategory dr (atCategoryID real) = Ok category) ->
  exists n, resultOf (filterByTags_count dr vmTags realTagsList n0) = Ret n.
Proof.
  intros Hcat. revert n0.
  induction vmTags as [| configTag rest IH]; intros n0; simpl.
  - now exists n0.
  - destruct (filterByTags_scan_returns_known configTag realTagsList Hcat)
      as (b & Hb).
    rewrite (bind_Ret _ _ b Hb). destruct b; [apply IH | now exists n0].
Qed.

(** X11: the tag stage returns a list, it neither fails nor panics, whenever
    the attached tags of every candidate can be fetched and the category
    of each of them can be resolved. *)
Theorem filterByTags_returns_for_known (vmTags : list Tag)
    (vmList : list VirtualMachine) :
  (forall v, In v vmList ->
     exists realTagsList,
       GetAttachedTags dr (vmReference v) = Ok realTagsList) ->
  (forall v realTagsList real,
     In v vmList ->
     GetAttachedTags dr (vmReference v) = Ok realTagsList ->
     In real realTagsList ->
     exists category, GetCategory dr (atCategoryID real) = Ok category) ->
  exists out, resultOf (filterByTags dr vmTags vmList) = Ret out.
Proof.
  intros Htags Hcat. unfold filterByTags.
  rewrite (bind_Ret _ _ tt) by reflexivity.
  generalize (@nil VirtualMachine).
  induction vmList as [| v rest IH]; intros acc; simpl.
  - now exists acc.
  - destruct (Htags v (or_introl eq_refl)) as (ts & Hts).
    rewrite (bind_Ret _ _ ts)
      by (apply resultOf_wrap_Ret, resultOf_remote_Ret; exact Hts).
    destruct (filterByTags_count_returns_known vmTags ts 0) as (n & Hn).
    { intros real Hreal. exact (Hcat v ts real (or_introl eq_refl) Hts Hreal). }
    rewrite (bind_Ret _ _ n Hn).
    assert (Hrest : forall u, In u rest ->
              exists realTagsList,
                GetAttachedTags dr (vmReference u) = Ok realTagsList)
      by (intros u Hu; apply Htags; now right).
    assert (Hcat' : forall u realTagsList real,
              In u rest ->
              GetAttachedTags dr (vmReference u) = Ok realTagsList ->
              In real realTagsList ->
              exists category,
                GetCategory dr (atCategoryID real) = Ok category)
      by (intros u l r Hu; apply Hcat; now right).
    destruct (n =? length vmTags)%nat; now apply IH.
Qed.

End TagsReturn.

Lemma filterByTags_returns_for_known_witness :
  exists out,
    resultOf (filterByTags (Sim.simDriver Sim.mixed)
                [ {| tagName := "ops"; tagCategory := "team" |} ]
                [Sim.vm "vm-1" "web-1"; Sim.vm "vm-2" "web-2"])
    = Ret out.
Proof.
  apply filterByTags_returns_for_known.
  - intros v [<- | [<- | []]]; eexists; reflexivity.
  - intros v ts real [<- | [<- | []]] Hts Hreal; simpl in Hts;
      injection Hts as <-; simpl in Hreal;
      repeat (destruct Hreal as [<- | Hreal]; [eexists; reflexivity |]);
      destruct Hreal.
Defined.

Lemma Execute_invalid_pattern_panics_witness :
  resultOf (@Execute Sim.plainRegexp (Sim.simNewDriver Sim.mixed)
              {| config := Sim.withNameRegex "(" Sim.baseConfig |})
  = Panic.
Proof.
  apply (@Execute_invalid_pattern_panics Sim.plainRegexp
           (Sim.simNewDriver Sim.mixed)
           {| config := Sim.withNameRegex "(" Sim.baseConfig |}
           (Sim.simDriver Sim.mixed)
           [Sim.vm "vm-1" "web-1"; Sim.vm "vm-2" "web-2";
            Sim.vm "vm-3" "db-1"]);
    try reflexivity; discriminate.
Defined.

Lemma Execute_latest_nil_panics_witness :
  resultOf (@Execute Sim.plainRegexp (Sim.simNewDriver Sim.twoUndated)
              {| config := Sim.withLatest true Sim.baseConfig |})
  = Panic.
Proof.
  apply (@Execute_latest_nil_panics Sim.plainRegexp
           (Sim.simNewDriver Sim.twoUndated)
           {| config := Sim.withLatest true Sim.baseConfig |}
           (Sim.simDriver Sim.twoUndated)
           [Sim.vm "vm-1" "web-1"; Sim.vm "vm-2" "web-2"]);
    try reflexivity.
  intros u [<- | [<- | []]]; reflexivity.
Defined.

(** * Where the code departs from the stated behaviour *)

(** ** A candidate without creation date *)

Section LatestUndated.

Variable dr : VCenterDriver.

Lemma filterByLatest_loop_undated_later
    (pre : list VirtualMachine) (v : VirtualMachine)
    (post : list VirtualMachine) (c : moVirtualMachine)
    (cur : option VirtualMachine) (ts : Time) :
  (forall u, In u pre -> exists tu, creationTime dr u = Some tu) ->
  Properties dr v = Ok c ->
  creationTime dr v = None ->
  resultOf (filterByLatest_loop dr (pre ++ v :: post) cur ts) = Panic.
Proof.
  intros Hpre Hp Hn. revert cur ts.
  induction pre as [| p pre IH]; intros cur ts.
  - exact (filterByLatest_loop_undated dr v post cur ts c Hp Hn).
  - destruct (Hpre p (or_introl eq_refl)) as (t & Ht).
    change ((p :: pre) ++ v :: post) with (p :: (pre ++ v :: post)).
    rewrite (filterByLatest_loop_dated dr p (pre ++ v :: post) cur ts t Ht).
    assert (Hpre' : forall u, In u pre ->
                      exists tu, creationTime dr u = Some tu)
      by (intros u Hu; apply Hpre; now right).
    destruct (After t ts); now apply IH.
Qed.

(** The stage panics at the first candidate whose creation date is nil,
    whatever the dates of the others. *)
Lemma filterByLatest_undated_later
    (pre : list VirtualMachine) (v : VirtualMachine)
    (post : list VirtualMachine) (c : moVirtualMachine) :
  (forall u, In u pre -> exists tu, creationTime dr u = Some tu) ->
  Properties dr v = Ok c ->
  creationTime dr v = None ->
  resultOf (filterByLatest dr (pre ++ v :: post)) = Panic.
Proof.
  intros Hpre Hp Hn. unfold filterByLatest.
  rewrite (bind_Ret _ _ tt) by reflexivity. rewrite resultOf_bind.
  now rewrite (filterByLatest_loop_undated_later pre v post c None zeroTime).
Qed.

(** C3, on the code: next to candidates that have a creation date, also
    one after the zero time, a candidate whose properties are fetched
    but whose [CreateDate] (or [Config]) is nil makes the stage panic on
    the nil pointer; it returns no list at all, let alone the one that
    holds the latest candidate. *)
Theorem filterByLatest_nil_CreateDate_panics
    (pre : list VirtualMachine) (v : VirtualMachine)
    (post : list VirtualMachine) (c : moVirtualMachine) :
  (forall u, In u pre -> exists tu, creationTime dr u = Some tu) ->
  Properties dr v = Ok c ->
  creationTime dr v = None ->
  resultOf (filterByLatest dr (pre ++ v :: post)) = Panic.
Proof. exact (filterByLatest_undated_later pre v post c). Qed.

End LatestUndated.

Lemma filterByLatest_nil_CreateDate_panics_witness :
  creationTime (Sim.simDriver Sim.oneDatedOneWithout) (Sim.vm "vm-1" "web-1")
  = Some 5%Z /\
  5%Z <> zeroTime /\
  resultOf (filterByLatest (Sim.simDriver Sim.oneDatedOneWithout)
              ([Sim.vm "vm-1" "web-1"] ++ Sim.vm "vm-2" "web-2" :: []))
  = Panic.
Proof.
  split; [reflexivity |]. split; [discriminate |].
  apply (filterByLatest_nil_CreateDate_panics
           (Sim.simDriver Sim.oneDatedOneWithout)
           [Sim.vm "vm-1" "web-1"] (Sim.vm "vm-2" "web-2") []
           Sim.noCreateDate).
  - intros u [<- | []]. now exists 5%Z.
  - reflexivity.
  - reflexivity.
Defined.

(** ** Several machines left and Latest *)

Section LatestPanics.

Context {RE : RegexpLib}.
Variable NewDriver : ConnectConfig -> reply VCenterDriver.

Lemma resultOf_wrap_Panic {A : Type} (prefix : string) (m : M A) :
  resultOf m = Panic -> resultOf (wrap prefix m) = Panic.
Proof. destruct m as [[a | e |] t]; simpl; congruence. Qed.

(** C1, on the code: with [Latest] set and several machines left after
    the filters, [Execute] does not reduce them to one and succeed when
    no creation date is after the zero time, or when a machine has a nil
    creation date: the latest-selection stage yields a nil pointer, or
    dereferences one, and [Execute] panics. *)
Theorem Execute_latest_panics (d : Datasource) (dr : VCenterDriver)
    (survivors : list VirtualMachine) :
  NewDriver (connect (config d)) = Ok dr ->
  resultOf (filterChain dr (config d)) = Ret survivors ->
  2 <= length survivors ->
  Latest (config d) = true ->
  (forall u, In u survivors ->
     exists tu, creationTime dr u = Some tu /\ (tu <= zeroTime)%Z)
  \/
  (exists pre v post c,
     survivors = pre ++ v :: post /\
     (forall u, In u pre -> exists tu, creationTime dr u = Some tu) /\
     Properties dr v = Ok c /\
     creationTime dr v = None) ->
  resultOf (Execute NewDriver d) = Panic.
Proof.
  intros Hdr Hs Hlen Hl Hcase.
  rewrite (Execute_selectOne NewDriver d dr survivors Hdr Hs).
  destruct Hcase as [Hold | (pre & v & post & c & -> & Hpre & Hp & Hn)].
  - rewrite (selectOne_many_latest dr (config d) survivors None);
      try assumption; [reflexivity |].
    now apply filterByLatest_none_newer.
  - rewrite selectOne_many by assumption. rewrite Hl, resultOf_bind.
    rewrite resultOf_wrap_Panic; [reflexivity |].
    exact (filterByLatest_undated_later dr pre v post c Hpre Hp Hn).
Qed.

End LatestPanics.

Lemma Execute_latest_panics_witness :
  resultOf (@Execute Sim.plainRegexp
              (Sim.simNewDriver Sim.oneDatedOneWithout)
              {| config := Sim.withLatest true Sim.baseConfig |})
  = Panic.
Proof.
  apply (@Execute_latest_panics Sim.plainRegexp
           (Sim.simNewDriver Sim.oneDatedOneWithout)
           {| config := Sim.withLatest true Sim.baseConfig |}
           (Sim.simDriver Sim.oneDatedOneWithout)
           [Sim.vm "vm-1" "web-1"; Sim.vm "vm-2" "web-2"]);
    try reflexivity.
  right. exists [Sim.vm "vm-1" "web-1"], (Sim.vm "vm-2" "web-2"), [],
    Sim.noCreateDate.
  split; [reflexivity |]. split; [| split; reflexivity].
  intros u [<- | []]. now exists 5%Z.
Defined.

(** ** A host with two machines of one name *)

Section HostRepeats.

Variable dr : VCenterDriver.

Lemma repeated_length {T : Type} (f : T -> nat) (l : list T) :
  (forall v, In v l -> 1 <= f v) ->
  length l <= length (flat_map (fun v => repeat v (f v)) l) /\
  ((exists v, In v l /\ 2 <= f v) ->
   length l < length (flat_map (fun v => repeat v (f v)) l)).
Proof.
  induction l as [| a l IH]; intros Hone; simpl.
  - split; [lia | intros (v & [] & _)].
  - assert (Ha : 1 <= f a) by (apply Hone; now left).
    destruct IH as [IHle IHlt]; [intros v Hv; apply Hone; now right |].
    rewrite length_app, repeat_length. split; [lia |].
    intros (v & [<- | Hv] & Htwo); [lia |].
    assert (length l < length (flat_map (fun v => repeat v (f v)) l))
      by (apply IHlt; now exists v).
    lia.
Qed.

(** C5, on the code: the inner loop of the host stage has no [break], so
    a candidate is appended once for every machine of the host that bears
    its name.  When every candidate is on the host and the host has two
    machines under the name of one of them, the list returned is longer
    than the list given. *)
Theorem filterByHost_output_longer (cfg : Config)
    (vmList out : list VirtualMachine) (hostVms : list string) :
  resultOf (filterByHost dr cfg vmList) = Ret out ->
  hostVmNames dr cfg hostVms ->
  (forall v, In v vmList -> In (vmName v) hostVms) ->
  (exists v, In v vmList /\ 2 <= count_occ string_dec hostVms (vmName v)) ->
  length vmList < length out.
Proof.
  intros H (obj & hostVm & Ho & Hv & Hn) Hall Htwo.
  apply filterByHost_Ret in H.
  destruct H as (names & (obj' & hostVm' & Ho' & Hv' & Hn') & ->).
  rewrite Ho in Ho'. injection Ho' as <-.
  rewrite Hv in Hv'. injection Hv' as <-.
  rewrite Hn in Hn'. injection Hn' as <-.
  rewrite filterByHost_loop_flat_map. simpl.
  apply (repeated_length
           (fun v => count_occ string_dec hostVms (vmName v)) vmList);
    [| assumption].
  intros v Hin. apply (count_occ_In string_dec). now apply Hall.
Qed.

End HostRepeats.

Lemma filterByHost_output_longer_witness :
  length [Sim.vm "vm-1" "web"]
  < length [Sim.vm "vm-1" "web"; Sim.vm "vm-1" "web"].
Proof.
  apply (filterByHost_output_longer (Sim.simDriver Sim.sameNameTwice)
           (Sim.withHost "esx-1" Sim.baseConfig)
           [Sim.vm "vm-1" "web"]
           [Sim.vm "vm-1" "web"; Sim.vm "vm-1" "web"]
           ["web"; "web"]).
  - reflexivity.
  - exists "esx-1", ["vm-1"; "vm-2"]. repeat split.
  - intros v [<- | []]. now left.
  - exists (Sim.vm "vm-1" "web"). split; [now left | simpl; lia].
Defined.

(** In [Execute] the repetition turns the one machine the finder listed
    into two, and the run ends on the error of an ambiguous match. *)
Example Execute_one_machine_ambiguous :
  VirtualMachineList Sim.oneListedOfTwo "*" = Ok [Sim.vm "vm-1" "web"] /\
  resultOf (@Execute Sim.plainRegexp (fun _ => Ok Sim.oneListedOfTwo)
              {| config := Sim.withHost "esx-1" Sim.baseConfig |})
  = Err "more than one virtual machine matched the filters".
Proof. split; reflexivity. Qed.
